(** * A shallow embedding of the data-grid extension

    The extension has two halves that talk over a message channel:

    - the extension host ([HelloWorldPanel.ts]): a singleton panel controller
      that asks a notebook kernel for the schema and the rows of a variable
      and answers the webview's [connected] / [refresh] messages;
    - the webview ([App.tsx]): a React component that rebuilds a grid from
      every [update] message.

    Both halves are dynamically typed where it matters (the message payload is
    [any], the fetched values are the unchecked result of [JSON.parse]), so
    the embedding carries JavaScript values ([JS.jsval]) rather than the
    TypeScript interfaces.  Code that can throw returns an [JS.outcome]. *)

From Stdlib Require Import String Ascii ZArith List Bool Lia Arith DecimalString.
From Stdlib.Strings Require Import Byte.
Import ListNotations.
Local Open Scope string_scope.
Set Warnings "-register-all".

(* ================================================================== *)
(** * JavaScript values and the runtime primitives the code relies on *)
(* ================================================================== *)

Module JS.

(** Exceptions the modelled code can raise. *)
Inductive error : Type :=
| TypeError        (* property access on undefined/null, call of a non-function *)
| SyntaxError      (* JSON.parse on malformed text *)
| StreamError      (* the kernel's async iterator rejected *)
| WebviewDisposed  (* vscode: use of a disposed webview panel *)
| OutOfFuel.       (* not a JavaScript exception: the recursion bound of
                      the model was reached *)

Inductive outcome (A : Type) : Type :=
| Ok (a : A)
| Throw (e : error).
Arguments Ok {A} a.
Arguments Throw {A} e.

Definition bind {A B} (m : outcome A) (k : A -> outcome B) : outcome B :=
  match m with
  | Ok a => k a
  | Throw e => Throw e
  end.

(** Numbers are restricted to integers (within the range JavaScript prints
    in plain decimal) and [NaN]; fractions play no part in the code. *)
Inductive number : Type :=
| Int (z : Z)
| NaN.

(** Values that can come out of [JSON.parse] or travel in a message,
    plus [undefined]. *)
Inductive jsval : Type :=
| JUndefined
| JNull
| JBool (b : bool)
| JNum (z : Z)
| JStr (s : string)
| JArr (elems : list jsval)
| JObj (fields : list (string * jsval)).

(** Primitives of the JavaScript runtime, taken as given. *)
Record Runtime : Type := {
  (* new TextDecoder().decode(bytes) *)
  TextDecoder_decode : list byte -> string;
  (* JSON.parse(text); [None] when it throws SyntaxError *)
  JSON_parse : string -> option jsval;
  (* the numeric value of a string (StringToNumber) *)
  StringToNumber : string -> number;
  (* s.length and s[i] for a string s *)
  String_length : string -> nat;
  String_at : string -> nat -> option string
}.

Definition Z_to_string (z : Z) : string :=
  NilZero.string_of_int (Z.to_int z).

Definition nat_to_string (n : nat) : string :=
  Z_to_string (Z.of_nat n).

Definition number_to_string (n : number) : string :=
  match n with
  | Int z => Z_to_string z
  | NaN => "NaN"
  end.

Fixpoint lookup (k : string) (fields : list (string * jsval)) : option jsval :=
  match fields with
  | [] => None
  | (k', v) :: rest => if String.eqb k k' then Some v else lookup k rest
  end.

(** [String(v)], as used by template literals.  The values here hold no
    functions: an object with an own [toString] property therefore has
    nothing callable to convert it (its [valueOf], own or inherited, gives
    no primitive either) and the conversion throws a TypeError; any other
    object prints through [Object.prototype.toString].  An array prints
    through [join], which converts its elements in turn. *)
Fixpoint to_string (v : jsval) : outcome string :=
  match v with
  | JUndefined => Ok "undefined"
  | JNull => Ok "null"
  | JBool true => Ok "true"
  | JBool false => Ok "false"
  | JNum z => Ok (Z_to_string z)
  | JStr s => Ok s
  | JArr elems =>
      bind
        ((fix parts (l : list jsval) : outcome (list string) :=
            match l with
            | [] => Ok []
            | e :: rest =>
                bind (match e with
                      | JUndefined | JNull => Ok EmptyString
                      | _ => to_string e
                      end)
                  (fun s => bind (parts rest) (fun ss => Ok (s :: ss)))
            end) elems)
        (fun ss => Ok (String.concat "," ss))
  | JObj fields =>
      match lookup "toString" fields with
      | Some _ => Throw TypeError
      | None => Ok "[object Object]"
      end
  end.

(** The values [String(v)] converts without an exception: no object with an
    own [toString], at any depth of arrays. *)
Fixpoint printable (v : jsval) : bool :=
  match v with
  | JArr elems =>
      (fix all (l : list jsval) : bool :=
         match l with
         | [] => true
         | e :: rest => printable e && all rest
         end) elems
  | JObj fields =>
      match lookup "toString" fields with
      | Some _ => false
      | None => true
      end
  | _ => true
  end.

Section WithRuntime.
Context (rt : Runtime).

(** [ToNumber(v)]; an array or an object is first converted to a string,
    which can throw. *)
Definition ToNumber (v : jsval) : outcome number :=
  match v with
  | JUndefined => Ok NaN
  | JNull => Ok (Int 0)
  | JBool true => Ok (Int 1)
  | JBool false => Ok (Int 0)
  | JNum z => Ok (Int z)
  | JStr s => Ok (StringToNumber rt s)
  | JArr _ | JObj _ => bind (to_string v) (fun s => Ok (StringToNumber rt s))
  end.

(** [v.k] for the property names the code uses (own properties and
    [length]; none of them lives on a prototype). *)
Definition get (v : jsval) (k : string) : outcome jsval :=
  match v with
  | JUndefined | JNull => Throw TypeError
  | JBool _ | JNum _ => Ok JUndefined
  | JStr s =>
      if String.eqb k "length" then Ok (JNum (Z.of_nat (String_length rt s)))
      else Ok JUndefined
  | JArr elems =>
      if String.eqb k "length" then Ok (JNum (Z.of_nat (length elems)))
      else Ok JUndefined
  | JObj fields =>
      match lookup k fields with
      | Some x => Ok x
      | None => Ok JUndefined
      end
  end.

(** [v[i]] for a non-negative integer index. *)
Definition get_index (v : jsval) (i : nat) : outcome jsval :=
  match v with
  | JUndefined | JNull => Throw TypeError
  | JBool _ | JNum _ => Ok JUndefined
  | JStr s =>
      match String_at rt s i with
      | Some c => Ok (JStr c)
      | None => Ok JUndefined
      end
  | JArr elems =>
      match nth_error elems i with
      | Some x => Ok x
      | None => Ok JUndefined
      end
  | JObj fields =>
      match lookup (nat_to_string i) fields with
      | Some x => Ok x
      | None => Ok JUndefined
      end
  end.

(** [a - b] on numbers. *)
Definition sub (a b : number) : number :=
  match a, b with
  | Int x, Int y => Int (x - y)
  | _, _ => NaN
  end.

End WithRuntime.

(** [a ?? b]. *)
Definition nullish_or (a : option jsval) (b : jsval) : jsval :=
  match a with
  | None | Some JUndefined | Some JNull => b
  | Some v => v
  end.

End JS.

Import JS.

Notation "'let?' x ':=' m 'in' k" := (JS.bind m (fun x => k))
  (at level 10, x name, m at level 100, k at level 200).

(** A state-and-exception monad: a throw keeps the state reached so far. *)
Module Prog.

Definition t (S A : Type) : Type := S -> outcome A * S.

Definition ret {S A} (a : A) : t S A := fun s => (Ok a, s).

Definition bind {S A B} (m : t S A) (k : A -> t S B) : t S B :=
  fun s =>
    match m s with
    | (Ok a, s') => k a s'
    | (Throw e, s') => (Throw e, s')
    end.

Definition throw {S A} (e : error) : t S A := fun s => (Throw e, s).

Definition read {S} : t S S := fun s => (Ok s, s).

Definition modify {S} (f : S -> S) : t S unit := fun s => (Ok tt, f s).

Definition lift {S A} (o : outcome A) : t S A := fun s => (o, s).

(** Final state of a run. *)
Definition exec {S A} (m : t S A) (s : S) : S := snd (m s).

(** Result of a run. *)
Definition eval {S A} (m : t S A) (s : S) : outcome A := fst (m s).

End Prog.

Notation "x <- m ;; k" := (Prog.bind m (fun x => k))
  (at level 61, m at next level, right associativity).
Notation "m ;; k" := (Prog.bind m (fun _ => k))
  (at level 61, right associativity).

(* ================================================================== *)
(** * Kernel code-runner ([_runCode])                                  *)
(* ================================================================== *)

Module Runner.

(** One mime-typed output chunk ([NotebookCellOutputItem]). *)
Record OutputItem : Type := {
  mime : string;
  data : list byte
}.

(** What the async iterable returned by [kernel.executeCode] does: it
    yields a batch of chunks, ends, or rejects. *)
Inductive stream : Type :=
| StreamEnd
| StreamFail
| StreamYield (outputs : list OutputItem) (rest : stream).

(** The kernel handle: the answer to each submitted code string. *)
Record Kernel : Type := {
  executeCode : string -> stream
}.

(** [NotebookCellOutputItem.error(new Error('')).mime] *)
Definition ErrorMimeType : string := "application/vnd.code.notebook.error".

(** Local variables of one [_runCode] call. *)
Record Locals : Type := {
  streamingOutput : list string;
  console : list string;      (* lines passed to console.log *)
  tokenDisposed : bool        (* tokenSource.dispose() has run *)
}.

Definition push (s : string) (l : Locals) : Locals :=
  {| streamingOutput := streamingOutput l ++ [s];
     console := console l;
     tokenDisposed := tokenDisposed l |}.

Definition console_log (s : string) (l : Locals) : Locals :=
  {| streamingOutput := streamingOutput l;
     console := console l ++ [s];
     tokenDisposed := tokenDisposed l |}.

Definition dispose_token (l : Locals) : Locals :=
  {| streamingOutput := streamingOutput l;
     console := console l;
     tokenDisposed := true |}.

Section WithRuntime.
Context (rt : Runtime).

(** The template literal
    [`Error executing code ${error.name}: ${error.message},/n ${error.stack}`]:
    each field is read and converted to a string in turn. *)
Definition error_line (error : jsval) : outcome string :=
  let? name := get rt error "name" in
  let? name := to_string name in
  let? message := get rt error "message" in
  let? message := to_string message in
  let? stack := get rt error "stack" in
  let? stack := to_string stack in
  Ok ("Error executing code " ++ name ++ ": " ++ message ++ ",/n " ++ stack).

(** The body of the inner loop for one chunk. *)
Definition on_output (output : OutputItem) : Prog.t Locals unit :=
  if String.eqb (mime output) ErrorMimeType then
    match JSON_parse rt (TextDecoder_decode rt (data output)) with
    | None => Prog.throw SyntaxError
    | Some error =>
        line <- Prog.lift (error_line error) ;;
        Prog.modify (console_log line)
    end
  else
    Prog.modify (push (TextDecoder_decode rt (data output))).

(** [for (const output of outputs) ...] *)
Fixpoint for_outputs (outputs : list OutputItem) : Prog.t Locals unit :=
  match outputs with
  | [] => Prog.ret tt
  | output :: rest => on_output output ;; for_outputs rest
  end.

(** [for await (const outputs of kernel.executeCode(...)) ...] *)
Fixpoint for_await (s : stream) : Prog.t Locals unit :=
  match s with
  | StreamEnd => Prog.ret tt
  | StreamFail => Prog.throw StreamError
  | StreamYield outputs rest => for_outputs outputs ;; for_await rest
  end.

(** [try { ... } finally { tokenSource.dispose() }] followed by the
    [join('')]; returns the result together with the final locals. *)
Definition _runCode_locals (kernel : Kernel) (code : string)
  : outcome string * Locals :=
  let start :=
    {| streamingOutput := []; console := []; tokenDisposed := false |} in
  let (r, l) := for_await (executeCode kernel code) start in
  let l := dispose_token l in
  match r with
  | Throw e => (Throw e, l)
  | Ok _ => (Ok (String.concat EmptyString (streamingOutput l)), l)
  end.

Definition _runCode (kernel : Kernel) (code : string) : outcome string :=
  fst (_runCode_locals kernel code).

End WithRuntime.

(** All chunks of a stream, in arrival order. *)
Fixpoint chunks (s : stream) : list OutputItem :=
  match s with
  | StreamEnd | StreamFail => []
  | StreamYield outputs rest => outputs ++ chunks rest
  end.

(** The stream ends by itself (the iterator does not reject). *)
Fixpoint ends (s : stream) : bool :=
  match s with
  | StreamEnd => true
  | StreamFail => false
  | StreamYield _ rest => ends rest
  end.

Definition is_error (o : OutputItem) : bool :=
  String.eqb (mime o) ErrorMimeType.

(** The text the non-error chunks of a stream decode to, in order. *)
Definition decoded_text (rt : Runtime) (outputs : list OutputItem)
  : list string :=
  map (fun o => TextDecoder_decode rt (data o))
      (filter (fun o => negb (is_error o)) outputs).

Definition joined (rt : Runtime) (s : stream) : string :=
  String.concat EmptyString (decoded_text rt (chunks s)).

(** The field [k] of a value that has fields can be printed. *)
Definition printable_field (rt : Runtime) (v : jsval) (k : string) : bool :=
  match get rt v k with
  | Ok x => printable x
  | Throw _ => false
  end.

(** The payload of an error chunk is the JSON text of an error object, as
    [NotebookCellOutputItem.error] produces it: a value other than null
    whose [name], [message] and [stack] can be printed. *)
Definition error_payload_ok (rt : Runtime) (o : OutputItem) : bool :=
  negb (is_error o) ||
  match JSON_parse rt (TextDecoder_decode rt (data o)) with
  | None => false
  | Some error =>
      printable_field rt error "name" && printable_field rt error "message"
      && printable_field rt error "stack"
  end.

End Runner.

(* ================================================================== *)
(** * Code-template assembly                                           *)
(* ================================================================== *)

Module CodeGen.

Definition DataFrameFunc : string := "_VSCODE_getDataFrame".

Definition cleanupCode : string := "
try:
    del _VSCODE_getDataFrame
except:
    pass
".

(** The two characters a template literal cannot be written with here. *)
Definition dquote : string := String (ascii_of_nat 34) EmptyString.
Definition newline : string := String (ascii_of_nat 10) EmptyString.

(** Both generators first read [pythonFiles/vscodeDataFrame.py] and decode
    it; [initializeCode] is that decoded text. *)
Definition _generateCodeForDataFrameColumns
    (initializeCode variableName : string) : string :=
  let code :=
    DataFrameFunc ++ "(" ++ dquote ++ "info" ++ dquote ++ ", False, "
      ++ variableName ++ ")" in
  initializeCode ++ newline ++ newline ++ code ++ newline ++ newline
    ++ cleanupCode.

Definition _generateCodeForDataFrameRows
    (initializeCode variableName : string) (startIndex endIndex : number)
    : string :=
  let code :=
    DataFrameFunc ++ "(" ++ dquote ++ "rows" ++ dquote ++ ", False, "
      ++ variableName ++ ", " ++ number_to_string startIndex ++ ", "
      ++ number_to_string endIndex ++ ")" in
  initializeCode ++ newline ++ newline ++ code ++ newline ++ newline
    ++ cleanupCode.

(** The pieces of a payload, as the interface description lists them. *)
Definition blank_line : string := "

".

Definition cleanup_block : string := "
try:
    del _VSCODE_getDataFrame
except:
    pass
".

Definition schema_call (v : string) : string :=
  "_VSCODE_getDataFrame(" ++ dquote ++ "info" ++ dquote ++ ", False, " ++ v ++ ")".

Definition rows_call (v : string) (first last : number) : string :=
  "_VSCODE_getDataFrame(" ++ dquote ++ "rows" ++ dquote ++ ", False, " ++ v
    ++ ", " ++ number_to_string first ++ ", " ++ number_to_string last ++ ")".

End CodeGen.

(* ================================================================== *)
(** * Panel controller ([HelloWorldPanel])                             *)
(* ================================================================== *)

Module Panel.
Import Runner CodeGen.

Inductive EventKind : Type :=
| DidDispose           (* panel.onDidDispose *)
| DidReceiveMessage.   (* webview.onDidReceiveMessage *)

(** The handle returned by subscribing a listener to an event. *)
Record Disposable : Type := {
  sub_id : nat;
  sub_event : EventKind
}.

Definition same_sub (a b : Disposable) : bool :=
  Nat.eqb (sub_id a) (sub_id b).

(** Observable actions, recorded in order. *)
Inductive Effect : Type :=
| CreatePanel (i : nat)                 (* window.createWebviewPanel *)
| Reveal (i : nat)                      (* panel.reveal *)
| Execute (i : nat) (code : string)     (* kernel.executeCode(code) *)
| ConsoleLog (line : string)
| StoreColumns (i : nat) (v : jsval)    (* this._columns = v *)
| StoreValues (i : nat) (v : jsval)     (* this._values = v *)
| SetHtml (i : nat)                     (* webview.html = ... *)
| Subscribe (i : nat) (d : Disposable)
| Release (i : nat) (d : Disposable)    (* d.dispose() *)
| PostMessage (i : nat) (msg : jsval).  (* webview.postMessage(msg) *)

(** One [HelloWorldPanel] object together with the [WebviewPanel] it owns. *)
Record Instance : Type := {
  _disposables : list Disposable;
  _columns : option jsval;
  _values : option jsval;
  panel_disposed : bool;             (* the WebviewPanel has been disposed *)
  webview_html : option string;
  listeners : list Disposable;       (* live subscriptions on the panel's events *)
  awaiting_kernel : option string    (* variable of the pending getKernel(...).then *)
}.

Definition blank : Instance :=
  {| _disposables := []; _columns := None; _values := None;
     panel_disposed := false; webview_html := None; listeners := [];
     awaiting_kernel := None |}.

Record World : Type := {
  currentPanel : option nat;         (* HelloWorldPanel.currentPanel *)
  instances : list Instance;
  next_sub : nat;
  trace : list Effect
}.

Definition initial : World :=
  {| currentPanel := None; instances := []; next_sub := 0; trace := [] |}.

(** ** Field updates *)

Definition set_disposables (x : list Disposable) (p : Instance) : Instance :=
  {| _disposables := x; _columns := _columns p; _values := _values p;
     panel_disposed := panel_disposed p; webview_html := webview_html p;
     listeners := listeners p; awaiting_kernel := awaiting_kernel p |}.

Definition set_columns (x : option jsval) (p : Instance) : Instance :=
  {| _disposables := _disposables p; _columns := x; _values := _values p;
     panel_disposed := panel_disposed p; webview_html := webview_html p;
     listeners := listeners p; awaiting_kernel := awaiting_kernel p |}.

Definition set_values (x : option jsval) (p : Instance) : Instance :=
  {| _disposables := _disposables p; _columns := _columns p; _values := x;
     panel_disposed := panel_disposed p; webview_html := webview_html p;
     listeners := listeners p; awaiting_kernel := awaiting_kernel p |}.

Definition set_panel_disposed (x : bool) (p : Instance) : Instance :=
  {| _disposables := _disposables p; _columns := _columns p;
     _values := _values p; panel_disposed := x;
     webview_html := webview_html p; listeners := listeners p;
     awaiting_kernel := awaiting_kernel p |}.

Definition set_html (x : option string) (p : Instance) : Instance :=
  {| _disposables := _disposables p; _columns := _columns p;
     _values := _values p; panel_disposed := panel_disposed p;
     webview_html := x; listeners := listeners p;
     awaiting_kernel := awaiting_kernel p |}.

Definition set_listeners (x : list Disposable) (p : Instance) : Instance :=
  {| _disposables := _disposables p; _columns := _columns p;
     _values := _values p; panel_disposed := panel_disposed p;
     webview_html := webview_html p; listeners := x;
     awaiting_kernel := awaiting_kernel p |}.

Definition set_awaiting (x : option string) (p : Instance) : Instance :=
  {| _disposables := _disposables p; _columns := _columns p;
     _values := _values p; panel_disposed := panel_disposed p;
     webview_html := webview_html p; listeners := listeners p;
     awaiting_kernel := x |}.

Fixpoint update_nth {A} (i : nat) (f : A -> A) (l : list A) : list A :=
  match l, i with
  | [], _ => []
  | x :: rest, 0 => f x :: rest
  | x :: rest, S i' => x :: update_nth i' f rest
  end.

Definition instance (i : nat) (w : World) : Instance :=
  nth i (instances w) blank.

Definition M : Type -> Type := Prog.t World.

(** ** World updates *)

(** Instance [i] changed by [f]. *)
Definition changed (i : nat) (f : Instance -> Instance) (w : World) : World :=
  {| currentPanel := currentPanel w;
     instances := update_nth i f (instances w);
     next_sub := next_sub w;
     trace := trace w |}.

(** The static [currentPanel] assigned. *)
Definition pointed (x : option nat) (w : World) : World :=
  {| currentPanel := x; instances := instances w;
     next_sub := next_sub w; trace := trace w |}.

(** More effects recorded. *)
Definition logged (es : list Effect) (w : World) : World :=
  {| currentPanel := currentPanel w; instances := instances w;
     next_sub := next_sub w; trace := trace w ++ es |}.

(** One subscription identifier used up. *)
Definition bumped (w : World) : World :=
  {| currentPanel := currentPanel w; instances := instances w;
     next_sub := S (next_sub w); trace := trace w |}.

(** A fresh panel added. *)
Definition extended (w : World) : World :=
  {| currentPanel := currentPanel w; instances := instances w ++ [blank];
     next_sub := next_sub w; trace := trace w |}.

Definition update (i : nat) (f : Instance -> Instance) : M unit :=
  Prog.modify (changed i f).

Definition set_currentPanel (x : option nat) : M unit :=
  Prog.modify (pointed x).

Definition tell (e : Effect) : M unit :=
  Prog.modify (logged [e]).

Definition this (i : nat) : M Instance :=
  w <- Prog.read ;; Prog.ret (instance i w).

(** Run [m]; an exception it raises is swallowed (the event emitter
    reports a listener's error and carries on). *)
Definition guarded (m : M unit) : M unit :=
  fun w => (Ok tt, snd (m w)).

Fixpoint for_each {A} (l : list A) (body : A -> M unit) : M unit :=
  match l with
  | [] => Prog.ret tt
  | x :: rest => body x ;; for_each rest body
  end.

(** ** Subscriptions *)

(** [event(listener, thisArgs, this._disposables)]: subscribe and push the
    handle onto [_disposables]. *)
Definition subscribe (ev : EventKind) (i : nat) : M unit :=
  w <- Prog.read ;;
  let d := {| sub_id := next_sub w; sub_event := ev |} in
  Prog.modify bumped ;;
  update i (fun p => set_listeners (listeners p ++ [d])
                       (set_disposables (_disposables p ++ [d]) p)) ;;
  tell (Subscribe i d).

(** [d.dispose()]: the listener is removed from its event. *)
Definition Disposable_dispose (i : nat) (d : Disposable) : M unit :=
  update i (fun p =>
    set_listeners (filter (fun x => negb (same_sub x d)) (listeners p)) p) ;;
  tell (Release i d).

Definition is_kind (ev : EventKind) (d : Disposable) : bool :=
  match ev, sub_event d with
  | DidDispose, DidDispose => true
  | DidReceiveMessage, DidReceiveMessage => true
  | _, _ => false
  end.

(** [Array.prototype.pop]: the last element and what remains. *)
Definition pop {A} (l : list A) : option (list A * A) :=
  match rev l with
  | [] => None
  | x :: r => Some (rev r, x)
  end.

(** ** dispose *)

(** [while (this._disposables.length) { pop; dispose }]; [n] bounds the
    number of iterations. *)
Fixpoint release_loop (n : nat) (i : nat) : M unit :=
  match n with
  | 0 => Prog.ret tt
  | S n' =>
      p <- this i ;;
      match pop (_disposables p) with
      | None => Prog.ret tt
      | Some (remaining, disposable) =>
          update i (set_disposables remaining) ;;
          Disposable_dispose i disposable ;;
          release_loop n' i
      end
  end.

(** [WebviewPanel.dispose()] of vscode: a second call does nothing; the
    first marks the panel disposed and fires [onDidDispose], whose
    listeners here all run [on_dispose]. *)
Definition WebviewPanel_dispose (on_dispose : M unit) (i : nat) : M unit :=
  p <- this i ;;
  if panel_disposed p then Prog.ret tt
  else
    update i (set_panel_disposed true) ;;
    for_each (filter (is_kind DidDispose) (listeners p))
             (fun _ => on_dispose).

(** [dispose()].  The panel's [onDidDispose] listener is
    [() => this.dispose()], so the method can re-enter itself through
    [this._panel.dispose()]; [fuel] bounds the nesting. *)
Fixpoint dispose_fuel (fuel : nat) (i : nat) : M unit :=
  match fuel with
  | 0 => Prog.throw OutOfFuel
  | S fuel' =>
      set_currentPanel None ;;
      WebviewPanel_dispose (dispose_fuel fuel' i) i ;;
      p <- this i ;;
      release_loop (length (_disposables p)) i
  end.

Definition dispose (i : nat) : M unit := dispose_fuel 2 i.

(** ** Messages *)

(** [webview.postMessage(msg)]: a disposed webview sends nothing. *)
Definition postMessage (i : nat) (msg : jsval) : M unit :=
  p <- this i ;;
  if panel_disposed p then Prog.ret tt else tell (PostMessage i msg).

Definition _refresh (i : nat) : M unit :=
  p <- this i ;;
  postMessage i
    (JObj [("command", JStr "update");
           ("data", nullish_or (_values p)
                      (JObj [("columns", JArr []); ("rows", JArr [])]))]).

Definition is_string (v : jsval) (s : string) : bool :=
  match v with
  | JStr x => String.eqb x s
  | _ => false
  end.

Section WithRuntime.
Context (rt : Runtime).
(** Decoded text of [pythonFiles/vscodeDataFrame.py] and the page built
    by [_getWebviewContent]. *)
Context (initializeCode webviewContent : string).

(** The listener installed by [_setWebviewMessageListener]. *)
Definition on_message (i : nat) (message : jsval) : M unit :=
  command <- Prog.lift (get rt message "command") ;;
  if is_string command "refresh" then _refresh i
  else if is_string command "connected" then _refresh i
  else Prog.ret tt.

Definition _setWebviewMessageListener (i : nat) : M unit :=
  subscribe DidReceiveMessage i.

(** Reading [this._panel.webview] of a disposed panel throws. *)
Definition _initializeWebview (i : nat) : M unit :=
  p <- this i ;;
  if panel_disposed p then Prog.throw WebviewDisposed
  else
    update i (set_html (Some webviewContent)) ;;
    tell (SetHtml i) ;;
    _setWebviewMessageListener i.

(** [_runCode] as seen from the controller: the request, then whatever
    the run logged. *)
Definition run_code (i : nat) (kernel : Kernel) (code : string) : M string :=
  tell (Execute i code) ;;
  let (r, l) := _runCode_locals rt kernel code in
  for_each (console l) (fun line => tell (ConsoleLog line)) ;;
  Prog.lift r.

Definition JSON_parse_or_throw (text : string) : M jsval :=
  match JSON_parse rt text with
  | Some v => Prog.ret v
  | None => Prog.throw SyntaxError
  end.

(** [initialize]: only starts [getKernel(...).then(...)]. *)
Definition initialize (i : nat) (variable : string) : M unit :=
  update i (set_awaiting (Some variable)).

(** The callback given to [then], run with the resolved kernel. *)
Definition initialize_then (i : nat) (variable : string)
    (kernel : option Kernel) : M unit :=
  match kernel with
  | None => Prog.ret tt
  | Some kernel =>
      let fetchVariableValueCode :=
        _generateCodeForDataFrameColumns initializeCode variable in
      result <- run_code i kernel fetchVariableValueCode ;;
      value <- JSON_parse_or_throw result ;;
      update i (set_columns (Some value)) ;;
      tell (StoreColumns i value) ;;
      rowCount <- Prog.lift (get rt value "rowCount") ;;
      rowCount <- Prog.lift (ToNumber rt rowCount) ;;
      let fetchVariableValueCode2 :=
        _generateCodeForDataFrameRows initializeCode variable
          (Int 0) (sub rowCount (Int 1)) in
      result2 <- run_code i kernel fetchVariableValueCode2 ;;
      value2 <- JSON_parse_or_throw result2 ;;
      update i (set_values (Some value2)) ;;
      tell (StoreValues i value2) ;;
      _initializeWebview i
  end.

(** What [render] finds around it. *)
Record Env : Type := {
  jupyterApi : bool;       (* the Jupyter extension exports its API *)
  activeNotebook : bool    (* window.activeNotebookEditor?.notebook is defined *)
}.

(** Truthiness of [variable: string | undefined]. *)
Definition truthy (variable : option string) : option string :=
  match variable with
  | None | Some EmptyString => None
  | Some v => Some v
  end.

Definition constructor (env : Env) (i : nat) (variable : option string)
  : M unit :=
  subscribe DidDispose i ;;
  match jupyterApi env, truthy variable, activeNotebook env with
  | true, Some v, true => initialize i v
  | _, _, _ => _initializeWebview i
  end.

Definition createWebviewPanel : M nat :=
  w <- Prog.read ;;
  let i := length (instances w) in
  Prog.modify extended ;;
  tell (CreatePanel i) ;;
  Prog.ret i.

Definition reveal (i : nat) : M unit :=
  p <- this i ;;
  if panel_disposed p then Prog.throw WebviewDisposed else tell (Reveal i).

Definition render (env : Env) (variable : option string) : M unit :=
  w <- Prog.read ;;
  match currentPanel w with
  | Some i => reveal i
  | None =>
      panel <- createWebviewPanel ;;
      constructor env panel variable ;;
      set_currentPanel (Some panel)
  end.

(** ** What can happen to the extension *)

Inductive Op : Type :=
| OpRender (env : Env) (variable : option string)
    (* one of the two commands runs *)
| OpClose (i : nat)
    (* the user closes panel [i]: vscode disposes it *)
| OpKernel (i : nat) (kernel : option Kernel)
    (* the getKernel promise of instance [i] resolves *)
| OpMessage (i : nat) (message : jsval).
    (* the webview of panel [i] posts a message *)

Definition deliver (i : nat) (message : jsval) : M unit :=
  p <- this i ;;
  if panel_disposed p then Prog.ret tt
  else
    for_each (filter (is_kind DidReceiveMessage) (listeners p))
             (fun _ => guarded (on_message i message)).

Definition step (op : Op) : M unit :=
  match op with
  | OpRender env variable => render env variable
  | OpClose i => WebviewPanel_dispose (dispose i) i
  | OpKernel i kernel =>
      p <- this i ;;
      match awaiting_kernel p with
      | None => Prog.ret tt
      | Some variable =>
          update i (set_awaiting None) ;;
          initialize_then i variable kernel
      end
  | OpMessage i message => deliver i message
  end.

(** Each operation runs to completion; an exception ends it where it
    is (an unhandled rejection or a logged error). *)
Fixpoint run (ops : list Op) (w : World) : World :=
  match ops with
  | [] => w
  | op :: rest => run rest (Prog.exec (step op) w)
  end.

End WithRuntime.

(** Panels whose webview panel has not been disposed. *)
Definition live (w : World) : list nat :=
  filter (fun i => negb (panel_disposed (instance i w)))
         (seq 0 (length (instances w))).


(** ** Vocabulary for the properties below *)

Definition is_fetch_step (e : Effect) : bool :=
  match e with
  | Execute _ _ | StoreColumns _ _ | StoreValues _ _ | SetHtml _ => true
  | _ => false
  end.

Definition fetch_steps (es : list Effect) : list Effect :=
  filter is_fetch_step es.

(** Schema request, schema stored, rows request for [0 .. rowCount - 1],
    rows stored, webview initialised. *)
Definition fetch_sequence (initializeCode : string)
    (i : nat) (variable : string) (cols : jsval) (rowCount : number)
    (vals : jsval) : list Effect :=
  [ Execute i (_generateCodeForDataFrameColumns initializeCode variable);
    StoreColumns i cols;
    Execute i (_generateCodeForDataFrameRows initializeCode variable
                 (Int 0) (sub rowCount (Int 1)));
    StoreValues i vals;
    SetHtml i ].

Definition prefix {A} (a b : list A) : Prop := exists rest, b = (a ++ rest)%list.


(** The world after [subscribe ev i]. *)
Definition subscribed (ev : EventKind) (i : nat) (w : World) : World :=
  let d := {| sub_id := next_sub w; sub_event := ev |} in
  logged [Subscribe i d]
    (changed i (fun p => set_listeners (listeners p ++ [d])
                           (set_disposables (_disposables p ++ [d]) p))
       (bumped w)).

(** A listener survives the release of [ds] when none of them is its
    handle. *)
Definition survives (ds : list Disposable) (x : Disposable) : bool :=
  negb (existsb (same_sub x) ds).

(** Instance [i] after its [_disposables], here [ds], were all popped and
    disposed. *)
Definition released (i : nat) (ds : list Disposable) (w : World) : World :=
  logged (map (Release i) (rev ds))
    (changed i (fun p => set_listeners (filter (survives ds) (listeners p))
                           (set_disposables [] p)) w).

(** The world after [dispose] ran on instance [i]. *)
Definition disposed_world (i : nat) (w : World) : World :=
  let w1 := changed i (set_panel_disposed true) (pointed None w) in
  released i (_disposables (instance i w)) w1.

(** An instance changed without touching the disposal flag, and with
    every new listener also pushed onto [_disposables]. *)
Definition inst_safe (p p' : Instance) : Prop :=
  panel_disposed p' = panel_disposed p /\
  (listeners p = _disposables p -> listeners p' = _disposables p') /\
  incl (listeners p) (listeners p').

Definition safe (w w' : World) : Prop :=
  currentPanel w' = currentPanel w /\
  length (instances w') = length (instances w) /\
  forall j, inst_safe (instance j w) (instance j w').

Definition safe_cmd {A} (m : M A) : Prop := forall w, safe w (snd (m w)).

(** The panel of instance [i] is open. *)
Definition alive (i : nat) (w : World) : Prop :=
  i < length (instances w) /\ panel_disposed (instance i w) = false.

Record Inv (w : World) : Prop := {
  (* a panel that is still open is the current one *)
  inv_alive_current : forall i, alive i w -> currentPanel w = Some i;
  (* the current panel is open *)
  inv_current_alive : forall i, currentPanel w = Some i -> alive i w;
  (* an open panel has its onDidDispose listener *)
  inv_listening : forall i, alive i w ->
    exists d, In d (listeners (instance i w)) /\ is_kind DidDispose d = true;
  (* every listener was registered through [_disposables] *)
  inv_registered : forall i, listeners (instance i w) = _disposables (instance i w)
}.

Definition posted (i : nat) (w : World) : list jsval :=
  flat_map (fun e => match e with
                     | PostMessage j msg => if Nat.eqb i j then [msg] else []
                     | _ => []
                     end) (trace w).

End Panel.

(* ================================================================== *)
(** * The grid widget's types ([@glideapps/glide-data-grid])           *)
(* ================================================================== *)

Module Grid.

Record GridColumn : Type := {
  title : jsval;
  width : Z
}.

(** A grid coordinate [[col, row]]. *)
Definition Item : Type := (nat * nat)%type.

Inductive GridCellKind : Type := Text.

Record GridCell : Type := {
  kind : GridCellKind;
  data : string;
  allowOverlay : bool;
  displayData : string
}.

End Grid.

(* ================================================================== *)
(** * Webview renderer ([App])                                         *)
(* ================================================================== *)

Module App.
Import Grid (GridColumn, Item, GridCell, GridCellKind).

(** The component's three state cells, the messages it has posted to the
    host and the calls it has made to the grid's [updateCells]. *)
Record State : Type := {
  data : jsval;                    (* useState([]) *)
  gridColumns : list GridColumn;      (* useState<GridColumn[]>([]) *)
  rows : jsval;                       (* useState(data.length) *)
  updateCells_calls : list (list Item);
  sent : list jsval
}.

Definition initial : State :=
  {| data := JArr []; gridColumns := []; rows := JNum 0;
     updateCells_calls := []; sent := [] |}.

Definition M : Type -> Type := Prog.t State.

Definition setGridColumns (x : list GridColumn) : M unit :=
  Prog.modify (fun s =>
    {| data := data s; gridColumns := x; rows := rows s;
       updateCells_calls := updateCells_calls s; sent := sent s |}).

Definition setData (x : jsval) : M unit :=
  Prog.modify (fun s =>
    {| data := x; gridColumns := gridColumns s; rows := rows s;
       updateCells_calls := updateCells_calls s; sent := sent s |}).

Definition setRows (x : jsval) : M unit :=
  Prog.modify (fun s =>
    {| data := data s; gridColumns := gridColumns s; rows := x;
       updateCells_calls := updateCells_calls s; sent := sent s |}).

(** [dataEditorRef.current?.updateCells(cells)]; [mounted] says whether
    the ref holds the grid. *)
Definition updateCells (mounted : bool) (cells : list Item) : M unit :=
  if mounted then
    Prog.modify (fun s =>
      {| data := data s; gridColumns := gridColumns s; rows := rows s;
         updateCells_calls := updateCells_calls s ++ [cells];
         sent := sent s |})
  else Prog.ret tt.

Definition vscode_postMessage (msg : jsval) : M unit :=
  Prog.modify (fun s =>
    {| data := data s; gridColumns := gridColumns s; rows := rows s;
       updateCells_calls := updateCells_calls s; sent := sent s ++ [msg] |}).

(** [for (let i = 0; i < n; i++) body], with [n] the number of iterations
    left and [i] the current index. *)
Fixpoint for_loop {A} (n i : nat) (body : nat -> A -> A) (acc : A) : A :=
  match n with
  | 0 => acc
  | S n' => for_loop n' (S i) body (body i acc)
  end.

(** How many times [for (let i = 0; i < bound; i++)] iterates. *)
Definition iterations (bound : number) : nat :=
  match bound with
  | Int z => Z.to_nat z
  | NaN => 0
  end.

Section WithRuntime.
Context (rt : Runtime).

(** [d.columns.map(c => ({ title: c, width: 100 }))]; only an array has
    a [map] to call. *)
Definition map_columns (columns : jsval) : outcome (list GridColumn) :=
  match columns with
  | JArr cs => Ok (map (fun c => {| Grid.title := c; Grid.width := 100 |}) cs)
  | _ => Throw TypeError
  end.

Definition array_length (v : jsval) : nat :=
  match v with
  | JArr l => length l
  | _ => 0
  end.

(** The [message] event listener installed by the effect (its
    [console.log(d)] is left out). *)
Definition on_message (mounted : bool) (message : jsval) : M unit :=
  command <- Prog.lift (get rt message "command") ;;
  if Panel.is_string command "update" then
    d <- Prog.lift (get rt message "data") ;;
    columns <- Prog.lift (get rt d "columns") ;;
    mapped <- Prog.lift (map_columns columns) ;;
    setGridColumns mapped ;;
    d_data <- Prog.lift (get rt d "data") ;;
    setData d_data ;;
    d_data_length <- Prog.lift (get rt d_data "length") ;;
    setRows d_data_length ;;
    bound <- Prog.lift (ToNumber rt d_data_length) ;;
    let cells :=
      for_loop (iterations bound) 0
        (fun i (cells : list Item) =>
           for_loop (array_length columns) 0
             (fun j (cells : list Item) => (cells ++ [(j, i)])%list) cells)
        [] in
    updateCells mounted cells
  else Prog.ret tt.

(** The effect run once after mount: the listener is installed (it is
    [on_message] from then on) and [connected] is posted. *)
Definition on_mount : M unit :=
  vscode_postMessage (JObj [("command", JStr "connected")]).

Definition handleHowdyClick : M unit :=
  vscode_postMessage
    (JObj [("command", JStr "refresh");
           ("text", JStr "Hey there partner! 🤠")]).

(** [getData([col, row])], reading the [data] state of the render that
    created it. *)
Definition getData (s : State) (cell : Item) : outcome GridCell :=
  let (col, row) := cell in
  let? person := get_index rt (data s) row in
  let? val := get_index rt person col in
  let? text := to_string val in
  Ok {| Grid.kind := Grid.Text;
        Grid.data := text;
        Grid.allowOverlay := false;
        Grid.displayData := text |}.

(** What one evaluation of the component's body needs and hands to the
    grid: [data.length] is read (the argument of [useState]) before
    [gridColumns] and [rows] are passed on as the grid's props. *)
Definition render (s : State) : outcome (list GridColumn * jsval) :=
  let? _ := get rt (data s) "length" in
  Ok (gridColumns s, rows s).

End WithRuntime.

(** The payload of an [update] message as the protocol describes it. *)
Definition dataset (columns : list string) (data : list (list jsval)) : jsval :=
  JObj [("columns", JArr (map JStr columns));
        ("data", JArr (map JArr data))].

Definition update_message (d : jsval) : jsval :=
  JObj [("command", JStr "update"); ("data", d)].

(** The coordinates of a grid of [c] columns and [r] rows, row by row. *)
Definition grid_cells (c r : nat) : list Item :=
  flat_map (fun i => map (fun j => (j, i)) (seq 0 c)) (seq 0 r).

(** What one [update] message leaves behind: the three state cells. *)
Definition view (s : State) : list GridColumn * jsval * jsval :=
  (gridColumns s, rows s, data s).

Definition undefined_cell : GridCell :=
  {| Grid.kind := Grid.Text; Grid.data := "undefined";
     Grid.allowOverlay := false; Grid.displayData := "undefined" |}.

(** The value at [(col, row)] of a matrix given as rows of cells. *)
Definition cell_at (matrix : list (list jsval)) (col row : nat) : option jsval :=
  match nth_error matrix row with
  | Some r => nth_error r col
  | None => None
  end.

Definition showing (matrix : list (list jsval)) : State :=
  {| data := JArr (map JArr matrix); gridColumns := []; rows := JNum 0;
     updateCells_calls := []; sent := [] |}.

End App.

(* ================================================================== *)
(** * A concrete runtime for ASCII text, and sample inputs             *)
(* ================================================================== *)

Module Sample.
Import Runner.

Definition is_space (c : ascii) : bool :=
  match nat_of_ascii c with
  | 32 | 9 | 10 | 13 => true
  | _ => false
  end.

Definition is_digit (c : ascii) : bool :=
  (48 <=? nat_of_ascii c)%nat && (nat_of_ascii c <=? 57)%nat.

Fixpoint skip_ws (s : string) : string :=
  match s with
  | String c rest => if is_space c then skip_ws rest else s
  | EmptyString => s
  end.

(** Leading decimal digits, accumulated onto [acc]. *)
Fixpoint digits (s : string) (acc : Z) : Z * string :=
  match s with
  | String c rest =>
      if is_digit c
      then digits rest (10 * acc + Z.of_nat (nat_of_ascii c - 48))
      else (acc, s)
  | EmptyString => (acc, s)
  end.

(** The text up to the closing quote; escapes are not supported. *)
Fixpoint until_quote (s : string) : option (string * string) :=
  match s with
  | EmptyString => None
  | String c rest =>
      if Ascii.eqb c (ascii_of_nat 34) then Some (EmptyString, rest)
      else if Ascii.eqb c (ascii_of_nat 92) then None
      else
        match until_quote rest with
        | Some (body, rest') => Some (String c body, rest')
        | None => None
        end
  end.

Definition expect (word : string) (v : jsval) (s : string)
  : option (jsval * string) :=
  if String.prefix word s
  then Some (v, substring (String.length word)
                  (String.length s - String.length word) s)
  else None.

(** A JSON reader for integers, unescaped strings, literals, arrays and
    objects. *)
Fixpoint value (fuel : nat) (s : string) {struct fuel}
  : option (jsval * string) :=
  match fuel with
  | 0 => None
  | S fuel' =>
      match skip_ws s with
      | EmptyString => None
      | String c rest =>
          match nat_of_ascii c with
          | 110 => expect "null" JNull (String c rest)
          | 116 => expect "true" (JBool true) (String c rest)
          | 102 => expect "false" (JBool false) (String c rest)
          | 34 =>
              match until_quote rest with
              | Some (body, rest') => Some (JStr body, rest')
              | None => None
              end
          | 45 =>
              match rest with
              | String c' _ =>
                  if is_digit c'
                  then let (n, rest') := digits rest 0 in Some (JNum (- n), rest')
                  else None
              | EmptyString => None
              end
          | 91 =>
              match skip_ws rest with
              | String c' rest' =>
                  if Ascii.eqb c' (ascii_of_nat 93) then Some (JArr [], rest')
                  else elements fuel' rest []
              | EmptyString => None
              end
          | 123 =>
              match skip_ws rest with
              | String c' rest' =>
                  if Ascii.eqb c' (ascii_of_nat 125) then Some (JObj [], rest')
                  else members fuel' rest []
              | EmptyString => None
              end
          | _ =>
              if is_digit c
              then let (n, rest') := digits (String c rest) 0 in
                   Some (JNum n, rest')
              else None
          end
      end
  end
with elements (fuel : nat) (s : string) (acc : list jsval) {struct fuel}
  : option (jsval * string) :=
  match fuel with
  | 0 => None
  | S fuel' =>
      match value fuel' s with
      | None => None
      | Some (v, rest) =>
          match skip_ws rest with
          | String c rest' =>
              if Ascii.eqb c (ascii_of_nat 44)
              then elements fuel' rest' (acc ++ [v])
              else if Ascii.eqb c (ascii_of_nat 93)
              then Some (JArr (acc ++ [v]), rest')
              else None
          | EmptyString => None
          end
      end
  end
with members (fuel : nat) (s : string) (acc : list (string * jsval))
       {struct fuel} : option (jsval * string) :=
  match fuel with
  | 0 => None
  | S fuel' =>
      match skip_ws s with
      | String q rest =>
          if Ascii.eqb q (ascii_of_nat 34) then
            match until_quote rest with
            | None => None
            | Some (key, rest1) =>
                match skip_ws rest1 with
                | String colon rest2 =>
                    if Ascii.eqb colon (ascii_of_nat 58) then
                      match value fuel' rest2 with
                      | None => None
                      | Some (v, rest3) =>
                          match skip_ws rest3 with
                          | String c rest4 =>
                              if Ascii.eqb c (ascii_of_nat 44)
                              then members fuel' rest4 (acc ++ [(key, v)])
                              else if Ascii.eqb c (ascii_of_nat 125)
                              then Some (JObj (acc ++ [(key, v)]), rest4)
                              else None
                          | EmptyString => None
                          end
                      end
                    else None
                | EmptyString => None
                end
            end
          else None
      | EmptyString => None
      end
  end.

Definition parse_json (s : string) : option jsval :=
  match value (2 * String.length s + 2) s with
  | Some (v, rest) =>
      match skip_ws rest with
      | EmptyString => Some v
      | _ => None
      end
  | None => None
  end.

(** Decimal integer numerals only. *)
Definition string_to_number (s : string) : number :=
  match s with
  | EmptyString => Int 0
  | String c rest =>
      if Ascii.eqb c (ascii_of_nat 45) then
        match rest with
        | EmptyString => NaN
        | _ => match digits rest 0 with
               | (n, EmptyString) => Int (- n)
               | _ => NaN
               end
        end
      else match digits s 0 with
           | (n, EmptyString) => Int n
           | _ => NaN
           end
  end.

(** A runtime for ASCII text and the JSON subset above. *)
Definition ascii_runtime : Runtime :=
  {| TextDecoder_decode := string_of_list_byte;
     JSON_parse := parse_json;
     StringToNumber := string_to_number;
     String_length := String.length;
     String_at := fun s i =>
       match String.get i s with
       | Some c => Some (String c EmptyString)
       | None => None
       end |}.

Definition bytes (s : string) : list byte := list_byte_of_string s.

Definition dq : string := CodeGen.dquote.

Definition quoted (s : string) : string := dq ++ s ++ dq.

Definition text_chunk (s : string) : OutputItem :=
  {| mime := "text/plain"; data := bytes s |}.

Definition error_chunk (s : string) : OutputItem :=
  {| mime := ErrorMimeType; data := bytes s |}.

(** The JSON text of an error, as the kernel reports one. *)
Definition error_json : string :=
  "{" ++ quoted "name" ++ ": " ++ quoted "NameError" ++ ", "
      ++ quoted "message" ++ ": " ++ quoted "name 'df' is not defined" ++ ", "
      ++ quoted "stack" ++ ": " ++ quoted "Traceback" ++ "}".

(** Two batches: text and an error, then more text. *)
Definition mixed_stream : stream :=
  StreamYield [text_chunk "ab"; error_chunk error_json]
    (StreamYield [text_chunk "c"] StreamEnd).

Definition mixed_kernel : Kernel := {| executeCode := fun _ => mixed_stream |}.

Definition schema_json : string :=
  "{" ++ quoted "columns" ++ ": [{" ++ quoted "key" ++ ": " ++ quoted "a" ++ ", "
      ++ quoted "name" ++ ": " ++ quoted "a" ++ ", "
      ++ quoted "type" ++ ": " ++ quoted "int64" ++ "}], "
      ++ quoted "indexColumn" ++ ": " ++ quoted "index" ++ ", "
      ++ quoted "rowCount" ++ ": 2}".

Definition rows_json : string :=
  "{" ++ quoted "columns" ++ ": [" ++ quoted "a" ++ "], "
      ++ quoted "index" ++ ": [0, 1], "
      ++ quoted "data" ++ ": [[10], [20]]}".

(** A kernel holding a two-row frame [df]: it answers the schema request
    with [schema_json] and any other request with [rows_json]. *)
Definition frame_kernel : Kernel :=
  {| executeCode := fun code =>
       if String.eqb code (CodeGen._generateCodeForDataFrameColumns "T" "df")
       then StreamYield [text_chunk schema_json] StreamEnd
       else StreamYield [text_chunk rows_json] StreamEnd |}.

Definition no_notebook : Panel.Env :=
  {| Panel.jupyterApi := false; Panel.activeNotebook := false |}.

Definition with_notebook : Panel.Env :=
  {| Panel.jupyterApi := true; Panel.activeNotebook := true |}.

Definition connected : jsval := JObj [("command", JStr "connected")].

Definition refresh : jsval :=
  JObj [("command", JStr "refresh"); ("text", JStr "Hey there partner!")].

(** Runs of the extension under the sample runtime. *)
Definition run_sample (ops : list Panel.Op) : Panel.World :=
  Panel.run ascii_runtime "T" "<html>" ops Panel.initial.

End Sample.

(* ================================================================== *)
(** * Extension entry point ([extension.ts])                           *)
(* ================================================================== *)

Module Extension.
Import Panel.

(** [v === undefined || v === null] *)
Definition nullish (v : jsval) : bool :=
  match v with
  | JUndefined | JNull => true
  | _ => false
  end.

(** The value handed to [render] as [variable] is only tested for
    truthiness and interpolated into a template literal, so it is carried
    as its [String(v)] when truthy and as [undefined] when falsy.  The
    callers pass a string, for which this is exact; it is not for a truthy
    value that prints as the empty string, such as an empty array, nor for
    one that cannot be printed, which is carried under the tag of an
    object although the interpolation would throw. *)
Definition as_variable (v : jsval) : option string :=
  match v with
  | JUndefined | JNull | JBool false => None
  | JNum z => if Z.eqb z 0 then None else Some (Z_to_string z)
  | JStr s => Some s
  | JBool true => Some "true"
  | JArr _ | JObj _ =>
      match to_string v with
      | Ok s => Some s
      | Throw _ => Some "[object Object]"
      end
  end.

(** The commands a user or the variable viewer can invoke, with the
    argument the handler receives ([undefined] when there is none). *)
Inductive Command : Type :=
| ShowHelloWorld
| ShowDataGrid (data : jsval).

(** [activate]: the two registrations pushed onto [context.subscriptions],
    in the order of the pushes. *)
Definition activate (subscriptions : list string) : list string :=
  (subscriptions ++ ["hello-world.showDataGrid"]) ++ ["hello-world.showHelloWorld"].

Section WithRuntime.
Context (rt : Runtime).
Context (initializeCode webviewContent : string).

(** [() => HelloWorldPanel.render(context.extensionUri, undefined)] *)
Definition showHelloWorld (env : Env) : M unit :=
  render webviewContent env None.

(** [(data) => HelloWorldPanel.render(context.extensionUri, data.variable.name)] *)
Definition showDataGrid (env : Env) (data : jsval) : M unit :=
  variable <- Prog.lift (get rt data "variable") ;;
  name <- Prog.lift (get rt variable "name") ;;
  render webviewContent env (as_variable name).

(** The handler of the repository's other version of the entry point:
    [(variable) => HelloWorldPanel.render(context.extensionUri, variable.name)] *)
Definition showDataGrid_variable (env : Env) (variable : jsval) : M unit :=
  name <- Prog.lift (get rt variable "name") ;;
  render webviewContent env (as_variable name).

Definition invoke (env : Env) (command : Command) : M unit :=
  match command with
  | ShowHelloWorld => showHelloWorld env
  | ShowDataGrid data => showDataGrid env data
  end.

(** Everything that can happen after activation: a command is invoked, or
    one of the events of [Panel.Op] occurs. *)
Inductive Action : Type :=
| Invoke (env : Env) (command : Command)
| Host (op : Op).

Definition act (a : Action) : M unit :=
  match a with
  | Invoke env command => invoke env command
  | Host op => step rt initializeCode webviewContent op
  end.

Fixpoint run_actions (actions : list Action) (w : World) : World :=
  match actions with
  | [] => w
  | a :: rest => run_actions rest (Prog.exec (act a) w)
  end.

End WithRuntime.

End Extension.

(* ================================================================== *)
(** * Further vocabulary for the panel's life cycle                    *)
(* ================================================================== *)

Module Lifecycle.
Import Panel.

(** The listeners of an instance that receive the webview's messages. *)
Definition message_listeners (p : Instance) : list Disposable :=
  filter (is_kind DidReceiveMessage) (listeners p).

(** Two instances that differ at most in [_columns] and [_values]. *)
Definition same_but_data (p p' : Instance) : Prop :=
  _disposables p' = _disposables p /\
  panel_disposed p' = panel_disposed p /\
  webview_html p' = webview_html p /\
  listeners p' = listeners p /\
  awaiting_kernel p' = awaiting_kernel p.

(** An open panel either has no content yet and no message listener, or has
    its content, exactly one message listener and no pending kernel
    request. *)
Definition ready (p : Instance) : Prop :=
  panel_disposed p = false ->
  (webview_html p = None /\ message_listeners p = []) \/
  (webview_html p <> None /\ length (message_listeners p) = 1 /\
   awaiting_kernel p = None).

(** The answer [_refresh] gives with the values [values]. *)
Definition update_reply (values : option jsval) : jsval :=
  JObj [("command", JStr "update");
        ("data", nullish_or values
                   (JObj [("columns", JArr []); ("rows", JArr [])]))].

(** The message is one the host's listener acts on: its [command] can be
    read and is "refresh" or "connected". *)
Definition is_request (rt : Runtime) (message : jsval) : bool :=
  match get rt message "command" with
  | Ok c => is_string c "refresh" || is_string c "connected"
  | Throw _ => false
  end.

(** A command that only adds to the recorded effects. *)
Definition grows {A} (m : M A) : Prop :=
  forall w, exists es, trace (snd (m w)) = (trace w ++ es)%list.

(** The API, a notebook and a non-empty variable name are all there, so the
    constructor starts the fetch instead of initialising the webview. *)
Definition starts_fetch (env : Env) (variable : option string) : bool :=
  jupyterApi env && activeNotebook env &&
  match variable with
  | Some (String _ _) => true
  | _ => false
  end.

End Lifecycle.

(* ================================================================== *)
(** * Properties of the kernel code-runner                             *)
(* ================================================================== *)

Section RunnerFacts.
Import Runner.
Context (rt : Runtime).

Lemma decoded_text_app (a b : list OutputItem) :
  decoded_text rt (a ++ b) = (decoded_text rt a ++ decoded_text rt b)%list.
Proof.
  unfold decoded_text. now rewrite filter_app, map_app.
Qed.

(** ** Conversion to a string *)

Lemma jsval_nested_ind (P : jsval -> Prop) :
  P JUndefined -> P JNull -> (forall b, P (JBool b)) ->
  (forall z, P (JNum z)) -> (forall s, P (JStr s)) ->
  (forall elems, Forall P elems -> P (JArr elems)) ->
  (forall fields, P (JObj fields)) ->
  forall v, P v.
Proof.
  intros Hu Hn Hb Hz Hs Ha Ho. fix IH 1.
  intros [ | |b|z|s|elems|fields].
  - exact Hu.
  - exact Hn.
  - apply Hb.
  - apply Hz.
  - apply Hs.
  - apply Ha. induction elems as [|e rest IHrest]; constructor;
      [apply IH|exact IHrest].
  - apply Ho.
Qed.

(** [String(v)] returns exactly on the printable values, and throws a
    TypeError on every other. *)
Lemma to_string_cases (v : jsval) :
  if printable v then exists s, to_string v = Ok s
  else to_string v = Throw TypeError.
Proof.
  induction v as [ | |b|z|s|elems IH|fields] using jsval_nested_ind;
    simpl; eauto.
  - destruct b; eauto.
  - assert (H :
      let parts :=
        (fix parts (l : list jsval) : outcome (list string) :=
           match l with
           | [] => Ok []
           | e :: rest =>
               JS.bind (match e with
                        | JUndefined | JNull => Ok EmptyString
                        | _ => to_string e
                        end)
                 (fun s => JS.bind (parts rest) (fun ss => Ok (s :: ss)))
           end) in
      let all :=
        (fix all (l : list jsval) : bool :=
           match l with
           | [] => true
           | e :: rest => printable e && all rest
           end) in
      if all elems then exists ss, parts elems = Ok ss
      else parts elems = Throw TypeError).
    { induction IH as [|e rest He _ IHrest]; simpl in *; [eauto|].
      destruct (printable e) eqn:Pe; simpl.
      - assert (Hs : exists s, match e with
                               | JUndefined | JNull => Ok EmptyString
                               | _ => to_string e
                               end = Ok s)
          by (destruct e; eauto).
        destruct Hs as [s ->]. simpl.
        match type of IHrest with
        | if ?b then _ else _ => destruct b
        end.
        + destruct IHrest as [ss ->]. simpl. eauto.
        + now rewrite IHrest.
      - assert (Hs : match e with
                     | JUndefined | JNull => Ok EmptyString
                     | _ => to_string e
                     end = Throw TypeError)
          by (destruct e; try discriminate; exact He).
        now rewrite Hs. }
    simpl in H.
    match type of H with
    | if ?b then _ else _ => destruct b
    end.
    + destruct H as [ss ->]. simpl. eauto.
    + now rewrite H.
  - destruct (lookup "toString" fields); eauto.
Qed.

(** A field is read and printed without an exception exactly when it is a
    printable field. *)
Lemma field_printed (v : jsval) (k : string) :
  match (let? x := get rt v k in to_string x) with
  | Ok _ => printable_field rt v k = true
  | Throw _ => printable_field rt v k = false
  end.
Proof.
  unfold printable_field. destruct (get rt v k) as [x|e]; simpl; [|reflexivity].
  pose proof (to_string_cases x) as C.
  destruct (printable x); [destruct C as [s ->]|rewrite C]; reflexivity.
Qed.

(** The log line of an error payload is built exactly when its three
    fields are printable, and then starts with the fixed words. *)
Lemma error_line_cases (error : jsval) :
  match error_line rt error with
  | Ok line =>
      printable_field rt error "name" && printable_field rt error "message"
      && printable_field rt error "stack" = true /\
      String.prefix "Error executing code " line = true
  | Throw _ =>
      printable_field rt error "name" && printable_field rt error "message"
      && printable_field rt error "stack" = false
  end.
Proof.
  unfold error_line.
  pose proof (field_printed error "name") as Hn.
  pose proof (field_printed error "message") as Hm.
  pose proof (field_printed error "stack") as Hs.
  destruct (get rt error "name") as [n|]; simpl in *; [|now rewrite Hn].
  destruct (to_string n) as [sn|]; simpl in *; [|now rewrite Hn].
  destruct (get rt error "message") as [m|]; simpl in *;
    [|rewrite Hm; apply andb_false_iff; left; apply andb_false_r].
  destruct (to_string m) as [sm|]; simpl in *;
    [|rewrite Hm; apply andb_false_iff; left; apply andb_false_r].
  destruct (get rt error "stack") as [st|]; simpl in *;
    [|rewrite Hs; apply andb_false_r].
  destruct (to_string st) as [ss|]; simpl in *;
    [|rewrite Hs; apply andb_false_r].
  rewrite Hn, Hm, Hs. split; [reflexivity|].
  match goal with
  | |- String.prefix EmptyString ?r = true => now destruct r
  | |- _ => reflexivity
  end.
Qed.

(** One chunk either appends its decoding, or logs, or throws; it never
    touches the text collected before it. *)
Lemma on_output_pushes (o : OutputItem) (l : Locals) :
  match on_output rt o l with
  | (Ok _, l') =>
      streamingOutput l' = (streamingOutput l ++ decoded_text rt [o])%list
  | (Throw _, _) => error_payload_ok rt o = false
  end.
Proof.
  unfold on_output, decoded_text, error_payload_ok, is_error. simpl.
  destruct (String.eqb (mime o) ErrorMimeType); simpl.
  - destruct (JSON_parse rt (TextDecoder_decode rt (data o))) as [v|];
      [|reflexivity].
    pose proof (error_line_cases v) as C.
    unfold Prog.bind, Prog.lift, Prog.modify.
    destruct (error_line rt v) as [line|e]; simpl.
    + now rewrite app_nil_r.
    + exact C.
  - reflexivity.
Qed.

Lemma for_outputs_pushes (outputs : list OutputItem) :
  forall l,
    match for_outputs rt outputs l with
    | (Ok _, l') =>
        streamingOutput l' = (streamingOutput l ++ decoded_text rt outputs)%list
    | (Throw _, _) => forallb (error_payload_ok rt) outputs = false
    end.
Proof.
  induction outputs as [|o rest IH]; intros l; simpl.
  - now rewrite app_nil_r.
  - unfold Prog.bind. pose proof (on_output_pushes o l) as Ho.
    destruct (on_output rt o l) as [[[]|e] l1].
    + specialize (IH l1). destruct (for_outputs rt rest l1) as [[[]|e] l2].
      * rewrite IH, Ho, <- app_assoc.
        now rewrite <- decoded_text_app.
      * rewrite IH. apply andb_false_r.
    + now rewrite Ho.
Qed.

Lemma for_await_pushes (s : stream) :
  forall l,
    match for_await rt s l with
    | (Ok _, l') =>
        streamingOutput l' = (streamingOutput l ++ decoded_text rt (chunks s))%list
    | (Throw _, _) =>
        ends s && forallb (error_payload_ok rt) (chunks s) = false
    end.
Proof.
  induction s as [| |outputs rest IH]; intros l; simpl.
  - now rewrite app_nil_r.
  - reflexivity.
  - unfold Prog.bind. pose proof (for_outputs_pushes outputs l) as Ho.
    destruct (for_outputs rt outputs l) as [[[]|e] l1].
    + specialize (IH l1). destruct (for_await rt rest l1) as [[[]|e] l2].
      * now rewrite IH, Ho, <- app_assoc, <- decoded_text_app.
      * rewrite forallb_app.
        destruct (ends rest); simpl in *; [|reflexivity].
        rewrite IH. apply andb_false_r.
    + rewrite forallb_app, Ho. apply andb_false_r.
Qed.

(** The cancellation token is disposed whatever the loop did. *)
Lemma runCode_disposes_token (kernel : Kernel) (code : string) :
  tokenDisposed (snd (_runCode_locals rt kernel code)) = true.
Proof.
  unfold _runCode_locals.
  destruct (for_await rt (executeCode kernel code) _) as [[[]|e] l];
    reflexivity.
Qed.

Lemma decoded_text_all_errors (outputs : list OutputItem) :
  forallb is_error outputs = true -> decoded_text rt outputs = [].
Proof.
  unfold decoded_text.
  induction outputs as [|o rest IH]; simpl; [reflexivity|].
  intros H. apply andb_prop in H as [Ho Hrest].
  rewrite Ho. simpl. now apply IH.
Qed.

(** C1.  For every execution, a string returned by [_runCode] is the
    in-order concatenation of the decodings of the chunks whose mime type
    is not the error mime type; the run does return it whenever the output
    stream ends and each error chunk carries the JSON text of an error
    object (a value other than null whose [name], [message] and [stack]
    can be converted to strings for the log line); error chunks contribute
    nothing, so outputs that are all of the error mime type give the empty
    string. *)
Theorem runCode_concatenates_non_error_chunks
    (kernel : Kernel) (code : string) :
  let s := executeCode kernel code in
  (forall text, _runCode rt kernel code = Ok text -> text = joined rt s) /\
  (ends s = true -> forallb (error_payload_ok rt) (chunks s) = true ->
   _runCode rt kernel code = Ok (joined rt s)) /\
  (forallb is_error (chunks s) = true -> joined rt s = EmptyString).
Proof.
  intros s. unfold _runCode, _runCode_locals, joined. fold s.
  pose proof (for_await_pushes s
    {| streamingOutput := []; console := []; tokenDisposed := false |}) as H.
  destruct (for_await rt s _) as [[[]|e] l]; simpl in *.
  - rewrite H. split; [|split].
    + intros text Ht. now inversion Ht.
    + reflexivity.
    + intros Hall. now rewrite decoded_text_all_errors.
  - split; [|split].
    + intros text Ht. discriminate.
    + intros He Hp. rewrite He, Hp in H. discriminate.
    + intros Hall. now rewrite decoded_text_all_errors.
Qed.

End RunnerFacts.

(* ================================================================== *)
(** * Properties of the code-template assembly                         *)
(* ================================================================== *)

Section CodeGenFacts.
Import CodeGen.

Lemma append_assoc (a b c : string) : (a ++ b) ++ c = a ++ (b ++ c).
Proof.
  induction a as [|x a IH]; simpl; [reflexivity|]. now rewrite IH.
Qed.

(** C6.  For every variable name [v] the payload is the template text, a
    blank line, the single call (schema mode, or rows mode with its start
    and end), a blank line and the fixed cleanup block; [v] is copied into
    the call as it is: around it the payload does not depend on [v]. *)
Theorem payload_is_template_call_cleanup
    (template : string) (first last : number) :
  (forall v,
     _generateCodeForDataFrameColumns template v
     = template ++ blank_line ++ schema_call v ++ blank_line ++ cleanup_block) /\
  (forall v,
     _generateCodeForDataFrameRows template v first last
     = template ++ blank_line ++ rows_call v first last ++ blank_line
         ++ cleanup_block) /\
  (exists before after, forall v,
     _generateCodeForDataFrameColumns template v = before ++ v ++ after) /\
  (exists before after, forall v,
     _generateCodeForDataFrameRows template v first last
     = before ++ v ++ after).
Proof.
  split; [|split; [|split]].
  - intros v. unfold _generateCodeForDataFrameColumns, schema_call.
    rewrite !append_assoc. reflexivity.
  - intros v. unfold _generateCodeForDataFrameRows, rows_call.
    rewrite !append_assoc. reflexivity.
  - exists (template ++ blank_line ++ "_VSCODE_getDataFrame(" ++ dquote
              ++ "info" ++ dquote ++ ", False, ").
    exists (")" ++ blank_line ++ cleanup_block).
    intros v. unfold _generateCodeForDataFrameColumns.
    rewrite !append_assoc. reflexivity.
  - exists (template ++ blank_line ++ "_VSCODE_getDataFrame(" ++ dquote
              ++ "rows" ++ dquote ++ ", False, ").
    exists (", " ++ number_to_string first ++ ", " ++ number_to_string last
              ++ ")" ++ blank_line ++ cleanup_block).
    intros v. unfold _generateCodeForDataFrameRows.
    rewrite !append_assoc. reflexivity.
Qed.

(** A name that is not an identifier is passed through untouched. *)
Example payload_with_code_in_the_name :
  _generateCodeForDataFrameColumns "T" "df); print(1"
  = "T

_VSCODE_getDataFrame(" ++ dquote ++ "info" ++ dquote ++ ", False, df); print(1)

" ++ cleanupCode.
Proof. reflexivity. Qed.

End CodeGenFacts.

(* ================================================================== *)
(** * Properties of the webview renderer                               *)
(* ================================================================== *)

Section AppFacts.
Import Grid (GridColumn, Item, GridCell, GridCellKind) App.
Context (rt : Runtime).

Lemma for_loop_append {B} (g : nat -> list B) (n : nat) :
  forall i acc,
    for_loop n i (fun k (cells : list B) => (cells ++ g k)%list) acc
    = (acc ++ flat_map g (seq i n))%list.
Proof.
  induction n as [|n IH]; intros i acc; simpl.
  - now rewrite app_nil_r.
  - now rewrite IH, <- app_assoc.
Qed.

Lemma for_loop_ext {B} (f g : nat -> B -> B) (n : nat) :
  (forall k acc, f k acc = g k acc) ->
  forall i acc, for_loop n i f acc = for_loop n i g acc.
Proof.
  intros H. induction n as [|n IH]; intros i acc; simpl; [reflexivity|].
  now rewrite IH, H.
Qed.

(** The two nested loops list the grid row by row. *)
Lemma nested_loops_list_the_grid (c r : nat) :
  for_loop r 0
    (fun i (cells : list Item) =>
       for_loop c 0 (fun j (cells : list Item) => (cells ++ [(j, i)])%list) cells)
    []
  = grid_cells c r.
Proof.
  rewrite for_loop_ext
    with (g := fun i (cells : list Item) =>
                 (cells ++ map (fun j => (j, i)) (seq 0 c))%list).
  - now rewrite for_loop_append.
  - intros i acc.
    rewrite (for_loop_append (fun j => [(j, i)])).
    apply (f_equal (fun l => (acc ++ l)%list)).
    induction (seq 0 c) as [|j js IH]; simpl; congruence.
Qed.

Lemma grid_cells_length (c r : nat) : length (grid_cells c r) = r * c.
Proof.
  unfold grid_cells.
  rewrite (flat_map_constant_length (c := c)).
  - now rewrite length_seq.
  - intros i _. now rewrite length_map, length_seq.
Qed.

Lemma grid_cells_in (c r j i : nat) :
  In (j, i) (grid_cells c r) <-> j < c /\ i < r.
Proof.
  unfold grid_cells. rewrite in_flat_map. split.
  - intros [i' [Hi Hj]]. apply in_map_iff in Hj as [j' [E Hj]].
    inversion E; subst. apply in_seq in Hi, Hj. lia.
  - intros [Hj Hi]. exists i. split; [apply in_seq; lia|].
    apply in_map_iff. exists j. split; [reflexivity|apply in_seq; lia].
Qed.

Lemma grid_cells_NoDup (c r : nat) : NoDup (grid_cells c r).
Proof.
  unfold grid_cells.
  assert (H : forall rows_ : list nat, NoDup rows_ ->
            NoDup (flat_map (fun i => map (fun j => (j, i)) (seq 0 c)) rows_)).
  { induction rows_ as [|i rest IH]; intros Hnd; simpl; [constructor|].
    inversion Hnd as [|? ? Hnotin Hrest]; subst.
    apply NoDup_app.
    - apply NoDup_map_NoDup_ForallPairs; [|apply seq_NoDup].
      intros a b _ _ E. now inversion E.
    - now apply IH.
    - intros [j i'] Hin1 Hin2.
      apply in_map_iff in Hin1 as [j1 [E1 _]]. inversion E1; subst.
      apply in_flat_map in Hin2 as [i2 [Hi2 Hin2]].
      apply in_map_iff in Hin2 as [j2 [E2 _]]. inversion E2; subst.
      contradiction. }
  apply H, seq_NoDup.
Qed.

(** Running the listener on a well-shaped update, step by step. *)
Lemma on_message_update (names : list string) (rowvals : list jsval)
    (d : jsval) (s : State) :
  get rt d "columns" = Ok (JArr (map JStr names)) ->
  get rt d "data" = Ok (JArr rowvals) ->
  on_message rt true (update_message d) s
  = (Ok tt,
     {| data := JArr rowvals;
        gridColumns := map (fun c => {| Grid.title := JStr c; Grid.width := 100 |}) names;
        rows := JNum (Z.of_nat (length rowvals));
        updateCells_calls :=
          (updateCells_calls s ++ [grid_cells (length names) (length rowvals)])%list;
        sent := sent s |}).
Proof.
  intros Hc Hd.
  unfold on_message, update_message, Prog.bind, Prog.lift. simpl.
  rewrite Hc. simpl. rewrite Hd. simpl.
  unfold updateCells, Prog.modify. simpl.
  rewrite Nat2Z.id, !length_map, nested_loops_list_the_grid, map_map.
  reflexivity.
Qed.

(** C4.  An update that carries [C] column names and [R] rows leaves the
    grid with exactly [C] columns, each titled by its name and 100 wide,
    and [R] rows, and makes one [updateCells] call that lists exactly the
    coordinates [(j, i)] with [j < C] and [i < R], each once. *)
Theorem update_rebuilds_grid (names : list string) (rowvals : list jsval)
    (d : jsval) (s : State) :
  get rt d "columns" = Ok (JArr (map JStr names)) ->
  get rt d "data" = Ok (JArr rowvals) ->
  let C := length names in
  let R := length rowvals in
  let s' := Prog.exec (on_message rt true (update_message d)) s in
  Prog.eval (on_message rt true (update_message d)) s = Ok tt /\
  gridColumns s' = map (fun c => {| Grid.title := JStr c; Grid.width := 100 |}) names /\
  length (gridColumns s') = C /\
  rows s' = JNum (Z.of_nat R) /\
  data s' = JArr rowvals /\
  updateCells_calls s' = (updateCells_calls s ++ [grid_cells C R])%list /\
  length (grid_cells C R) = R * C /\
  NoDup (grid_cells C R) /\
  (forall j i, In (j, i) (grid_cells C R) <-> j < C /\ i < R).
Proof.
  intros Hc Hd C R s'. subst s'. unfold Prog.exec, Prog.eval.
  rewrite (on_message_update names rowvals d s Hc Hd). simpl.
  split; [reflexivity|]. split; [reflexivity|].
  split; [now rewrite length_map|]. split; [reflexivity|].
  split; [reflexivity|]. split; [reflexivity|].
  split; [apply grid_cells_length|]. split; [apply grid_cells_NoDup|].
  intros j i. apply grid_cells_in.
Qed.

(** C8.  Whatever message was processed before it, a well-shaped update
    leaves the columns, the row count and the backing array that it would
    leave when processed from the initial state, and asks the grid to
    redraw the same cells: nothing of the earlier update remains. *)
Theorem second_update_replaces_first (first : jsval)
    (names : list string) (rowvals : list jsval) (d : jsval) (s : State) :
  get rt d "columns" = Ok (JArr (map JStr names)) ->
  get rt d "data" = Ok (JArr rowvals) ->
  let after_both :=
    Prog.exec (on_message rt true (update_message d))
      (Prog.exec (on_message rt true first) s) in
  let from_scratch :=
    Prog.exec (on_message rt true (update_message d)) initial in
  view after_both = view from_scratch /\
  last (updateCells_calls after_both) [] = last (updateCells_calls from_scratch) [] /\
  view after_both
  = (map (fun c => {| Grid.title := JStr c; Grid.width := 100 |}) names,
     JNum (Z.of_nat (length rowvals)), JArr rowvals).
Proof.
  intros Hc Hd after_both from_scratch. subst after_both from_scratch.
  unfold Prog.exec.
  rewrite !(on_message_update names rowvals d _ Hc Hd). simpl.
  rewrite last_last. repeat split.
Qed.

(** ** Cell lookup *)

(** C10 (amended).  When row [row] is present in the backing matrix and
    holds no value at [col], the lookup returns a text cell whose data and
    displayData are the string "undefined". *)
Theorem getData_missing_column_is_undefined
    (s : State) (matrix : list jsval) (cells : list jsval) (col row : nat) :
  data s = JArr matrix ->
  nth_error matrix row = Some (JArr cells) ->
  nth_error cells col = None ->
  getData rt s (col, row) = Ok undefined_cell.
Proof.
  intros Hs Hrow Hcol. unfold getData. rewrite Hs. simpl.
  rewrite Hrow. simpl. now rewrite Hcol.
Qed.

(** When the row itself is absent the lookup throws. *)
Lemma getData_missing_row_throws
    (s : State) (matrix : list jsval) (col row : nat) :
  data s = JArr matrix ->
  nth_error matrix row = None ->
  getData rt s (col, row) = Throw TypeError.
Proof.
  intros Hs Hrow. unfold getData. rewrite Hs. simpl. now rewrite Hrow.
Qed.

End AppFacts.

(* ================================================================== *)
(** * Properties of the panel controller                               *)
(* ================================================================== *)

Section PanelFacts.
Import Runner CodeGen Panel.
Context (rt : Runtime).
Context (initializeCode webviewContent : string).

(** ** Lists updated in place *)

Lemma update_nth_length {A} (f : A -> A) (l : list A) :
  forall i, length (update_nth i f l) = length l.
Proof.
  induction l as [|x l IH]; intros [|i]; simpl; auto.
Qed.

Lemma nth_update_nth_same {A} (f : A -> A) (d : A) (l : list A) :
  forall i, i < length l -> nth i (update_nth i f l) d = f (nth i l d).
Proof.
  induction l as [|x l IH]; intros [|i] H; simpl in *; try lia; auto.
  apply IH. lia.
Qed.

Lemma nth_update_nth_other {A} (f : A -> A) (d : A) (l : list A) :
  forall i j, i <> j -> nth j (update_nth i f l) d = nth j l d.
Proof.
  induction l as [|x l IH]; intros [|i] [|j] H; simpl; auto; try congruence.
Qed.

Lemma update_nth_beyond {A} (f : A -> A) (l : list A) :
  forall i, length l <= i -> update_nth i f l = l.
Proof.
  induction l as [|x l IH]; intros [|i] H; simpl in *; auto; try lia.
  f_equal. apply IH. lia.
Qed.

(** ** Reading a world after an update *)

Lemma instance_changed_same (i : nat) (f : Instance -> Instance) (w : World) :
  i < length (instances w) -> instance i (changed i f w) = f (instance i w).
Proof. intros H. unfold instance, changed. simpl. now apply nth_update_nth_same. Qed.

Lemma instance_changed_other (i j : nat) (f : Instance -> Instance) (w : World) :
  i <> j -> instance j (changed i f w) = instance j w.
Proof. intros H. unfold instance, changed. simpl. now apply nth_update_nth_other. Qed.

Lemma length_changed (i : nat) (f : Instance -> Instance) (w : World) :
  length (instances (changed i f w)) = length (instances w).
Proof. unfold changed. simpl. apply update_nth_length. Qed.

Lemma instance_logged (j : nat) (es : list Effect) (w : World) :
  instance j (logged es w) = instance j w.
Proof. reflexivity. Qed.

Lemma instance_pointed (j : nat) (x : option nat) (w : World) :
  instance j (pointed x w) = instance j w.
Proof. reflexivity. Qed.

Lemma instance_bumped (j : nat) (w : World) :
  instance j (bumped w) = instance j w.
Proof. reflexivity. Qed.

Lemma logged_logged (a b : list Effect) (w : World) :
  logged b (logged a w) = logged (a ++ b) w.
Proof. unfold logged. simpl. now rewrite app_assoc. Qed.

Lemma logged_nil (w : World) : logged [] w = w.
Proof. unfold logged. rewrite app_nil_r. now destruct w. Qed.

Lemma for_each_tell_console (lines : list string) (w : World) :
  for_each lines (fun line => tell (ConsoleLog line)) w
  = (Ok tt, logged (map ConsoleLog lines) w).
Proof.
  revert w. induction lines as [|x lines IH]; intros w; simpl.
  - now rewrite logged_nil.
  - unfold Prog.bind, tell, Prog.modify at 1.
    now rewrite IH, logged_logged.
Qed.

Lemma run_code_eq (i : nat) (kernel : Kernel) (code : string) (w : World) :
  run_code rt i kernel code w
  = (_runCode rt kernel code,
     logged (Execute i code
               :: map ConsoleLog (console (snd (_runCode_locals rt kernel code))))
            w).
Proof.
  unfold run_code, _runCode.
  destruct (_runCode_locals rt kernel code) as [r l].
  unfold Prog.bind at 1. cbn [tell Prog.modify].
  unfold Prog.bind. rewrite for_each_tell_console, logged_logged.
  now destruct r.
Qed.

Lemma this_eq (i : nat) (w : World) : this i w = (Ok (instance i w), w).
Proof. reflexivity. Qed.

Lemma filter_console (lines : list string) :
  filter is_fetch_step (map ConsoleLog lines) = [].
Proof. induction lines; simpl; auto. Qed.

Lemma subscribe_eq (ev : EventKind) (i : nat) (w : World) :
  subscribe ev i w = (Ok tt, subscribed ev i w).
Proof. reflexivity. Qed.

Lemma initializeWebview_eq (i : nat) (w : World) :
  _initializeWebview webviewContent i w
  = if panel_disposed (instance i w) then (Throw WebviewDisposed, w)
    else (Ok tt,
          subscribed DidReceiveMessage i
            (logged [SetHtml i]
               (changed i (set_html (Some webviewContent)) w))).
Proof.
  unfold _initializeWebview, Prog.bind. rewrite this_eq.
  destruct (panel_disposed (instance i w)); reflexivity.
Qed.

Lemma length_logged (es : list Effect) (w : World) :
  length (instances (logged es w)) = length (instances w).
Proof. reflexivity. Qed.

Lemma length_pointed (x : option nat) (w : World) :
  length (instances (pointed x w)) = length (instances w).
Proof. reflexivity. Qed.

Lemma length_bumped (w : World) :
  length (instances (bumped w)) = length (instances w).
Proof. reflexivity. Qed.

Lemma length_subscribed (ev : EventKind) (i : nat) (w : World) :
  length (instances (subscribed ev i w)) = length (instances w).
Proof. unfold subscribed. simpl. apply update_nth_length. Qed.

Ltac world_len :=
  repeat (rewrite length_logged || rewrite length_pointed
          || rewrite length_bumped || rewrite length_changed
          || rewrite length_subscribed);
  try assumption; try lia.

Ltac world_inst :=
  cbn [fst snd]; unfold subscribed;
  repeat (rewrite instance_logged || rewrite instance_pointed
          || rewrite instance_bumped
          || (rewrite instance_changed_same by world_len)
          || (rewrite instance_changed_other by congruence)).

Ltac run_step R :=
  unfold Prog.bind at 1 in R;
  cbn [Prog.modify Prog.ret Prog.lift Prog.throw update tell
       set_currentPanel fst snd] in R.

Ltac trace_eq :=
  cbn [Prog.throw Prog.ret trace logged changed bumped subscribed fst snd];
  rewrite <- ?app_assoc; reflexivity.

Ltac norm_fetch :=
  unfold fetch_steps;
  repeat (rewrite filter_app || rewrite filter_console
          || cbn [filter is_fetch_step app]).

Ltac norm_fetch_in H :=
  unfold fetch_steps in H;
  repeat (rewrite filter_app in H || rewrite filter_console in H
          || cbn [filter is_fetch_step app] in H).

Ltac no_such_step :=
  let H := fresh in
  intros H; norm_fetch_in H; cbn [In] in H;
  repeat match type of H with
         | _ \/ _ => destruct H as [H|H]
         | False => contradiction
         | _ = _ => first [discriminate H | inversion H; subst; clear H]
         end.

Ltac not_in_rest H :=
  cbn [app] in H;
  repeat match type of H with
         | In _ (_ ++ _)%list => apply in_app_or in H; destruct H as [H|H]
         | In _ (map ConsoleLog _) =>
             apply in_map_iff in H; destruct H as [? [H _]]; discriminate H
         | In _ (_ :: _) => destruct H as [H|H]
         | In _ [] => contradiction
         | False => contradiction
         | _ = _ => first [discriminate H | inversion H; subst; clear H]
         end.

Ltac trace_rest :=
  cbn [Prog.throw Prog.ret trace logged changed bumped subscribed fst snd];
  rewrite <- ?app_assoc; cbn [app]; reflexivity.

Ltac same_results :=
  repeat match goal with
         | A : ?x = Ok _, B : ?x = Ok _ |- _ =>
             rewrite A in B; inversion B; subst; clear B
         | A : ?x = Some _, B : ?x = Some _ |- _ =>
             rewrite A in B; inversion B; subst; clear B
         | A : ?x = Throw _, B : ?x = Ok _ |- _ => rewrite A in B; discriminate B
         | A : ?x = None, B : ?x = Some _ |- _ => rewrite A in B; discriminate B
         | B : Throw _ = Ok _ |- _ => discriminate B
         | B : None = Some _ |- _ => discriminate B
         | B : Ok _ = Ok _ |- _ => inversion B; subst; clear B
         | B : Some _ = Some _ |- _ => inversion B; subst; clear B
         end.

Lemma panel_disposed_changed (i j : nat) (f : Instance -> Instance) (w : World) :
  (forall p, panel_disposed (f p) = panel_disposed p) ->
  panel_disposed (instance j (changed i f w)) = panel_disposed (instance j w).
Proof.
  intros Hf. destruct (Nat.eq_dec j i) as [->|Hne].
  - destruct (Nat.lt_ge_cases i (length (instances w))) as [Hi|Hi].
    + now rewrite instance_changed_same.
    + unfold instance, changed. cbn [instances].
      now rewrite update_nth_beyond.
  - now rewrite instance_changed_other.
Qed.

(** C2.  In every run of the fetch sequence the schema request is issued,
    before anything else.  Any further request is the rows request: it is
    built only after the result of the schema request has been parsed and
    stored, and it asks for rows [0] to [rowCount - 1] with [rowCount] read
    from that parsed result.  The webview content is set only after both
    results are stored, so that what was done is always an initial part of
    the sequence: schema request, schema stored, rows request, rows stored,
    content set.  The run gets as far as the results allow: a parsed schema
    with a row count is followed by the rows request, and parsed rows on an
    open panel by the content. *)
Theorem initialize_fetches_schema_then_rows
    (i : nat) (variable : string) (kernel : Kernel) (w : World) :
  let code1 := _generateCodeForDataFrameColumns initializeCode variable in
  let code2 := fun rowCount =>
    _generateCodeForDataFrameRows initializeCode variable
      (Int 0) (sub rowCount (Int 1)) in
  let w' := Prog.exec (initialize_then rt initializeCode webviewContent i
                         variable (Some kernel)) w in
  exists rest,
    trace w' = (trace w ++ Execute i code1 :: rest)%list /\
    (exists cols n vals,
       prefix (fetch_steps (Execute i code1 :: rest))
              (fetch_sequence initializeCode i variable cols n vals)) /\
    (forall code, In (Execute i code) rest ->
       exists text cols rowCount n,
         _runCode rt kernel code1 = Ok text /\
         JSON_parse rt text = Some cols /\
         get rt cols "rowCount" = Ok rowCount /\
         ToNumber rt rowCount = Ok n /\
         code = code2 n /\
         prefix [Execute i code1; StoreColumns i cols; Execute i code]
                (fetch_steps (Execute i code1 :: rest))) /\
    (In (SetHtml i) rest ->
       exists text cols rowCount n text2 vals,
         _runCode rt kernel code1 = Ok text /\
         JSON_parse rt text = Some cols /\
         get rt cols "rowCount" = Ok rowCount /\
         ToNumber rt rowCount = Ok n /\
         _runCode rt kernel (code2 n) = Ok text2 /\
         JSON_parse rt text2 = Some vals /\
         fetch_steps (Execute i code1 :: rest)
         = fetch_sequence initializeCode i variable cols n vals) /\
    (forall text cols rowCount n,
       _runCode rt kernel code1 = Ok text ->
       JSON_parse rt text = Some cols ->
       get rt cols "rowCount" = Ok rowCount ->
       ToNumber rt rowCount = Ok n ->
       prefix [Execute i code1; StoreColumns i cols; Execute i (code2 n)]
              (fetch_steps (Execute i code1 :: rest)) /\
       forall text2 vals,
         _runCode rt kernel (code2 n) = Ok text2 ->
         JSON_parse rt text2 = Some vals ->
         panel_disposed (instance i w) = false ->
         fetch_steps (Execute i code1 :: rest)
         = fetch_sequence initializeCode i variable cols n vals /\
         (i < length (instances w) ->
          _columns (instance i w') = Some cols /\
          _values (instance i w') = Some vals /\
          webview_html (instance i w') = Some webviewContent)).
Proof.
  intros code1 code2 w'. subst w'. unfold Prog.exec.
  remember (initialize_then rt initializeCode webviewContent i variable
              (Some kernel) w) as res eqn:R.
  unfold initialize_then in R. fold code1 in R.
  run_step R. rewrite run_code_eq in R.
  destruct (_runCode rt kernel code1) as [text1|e1] eqn:E1.
  2:{ subst res. eexists. split; [trace_rest|].
      split; [exists JUndefined, NaN, JUndefined; norm_fetch; eexists; reflexivity|].
      split; [intros code H; not_in_rest H|].
      split; [intros H; not_in_rest H|].
      intros; same_results. }
  run_step R. unfold JSON_parse_or_throw at 1 in R.
  destruct (JSON_parse rt text1) as [cols|] eqn:P1.
  2:{ subst res. eexists. split; [trace_rest|].
      split; [exists JUndefined, NaN, JUndefined; norm_fetch; eexists; reflexivity|].
      split; [intros code H; not_in_rest H|].
      split; [intros H; not_in_rest H|].
      intros; same_results. }
  run_step R. run_step R. run_step R.
  destruct (get rt cols "rowCount") as [rowCount|e] eqn:G.
  2:{ subst res. eexists. split; [trace_rest|].
      split; [exists cols, NaN, JUndefined; norm_fetch; eexists; reflexivity|].
      split; [intros code H; not_in_rest H|].
      split; [intros H; not_in_rest H|].
      intros; same_results. }
  run_step R.
  destruct (ToNumber rt rowCount) as [n|e] eqn:N.
  2:{ subst res. eexists. split; [trace_rest|].
      split; [exists cols, NaN, JUndefined; norm_fetch; eexists; reflexivity|].
      split; [intros code H; not_in_rest H|].
      split; [intros H; not_in_rest H|].
      intros; same_results. }
  fold (code2 n) in R.
  run_step R. rewrite run_code_eq in R.
  destruct (_runCode rt kernel (code2 n)) as [text2|e2] eqn:E2.
  2:{ subst res. eexists. split; [trace_rest|].
      split; [exists cols, n, JUndefined; norm_fetch; eexists; reflexivity|].
      split.
      { intros code H; not_in_rest H.
        exists text1, cols, rowCount, n. repeat (split; [assumption || reflexivity|]).
        norm_fetch. eexists. reflexivity. }
      split; [intros H; not_in_rest H|].
      intros; same_results.
      split; [norm_fetch; eexists; reflexivity|].
      intros; same_results. }
  run_step R. unfold JSON_parse_or_throw at 1 in R.
  destruct (JSON_parse rt text2) as [vals|] eqn:P2.
  2:{ subst res. eexists. split; [trace_rest|].
      split; [exists cols, n, JUndefined; norm_fetch; eexists; reflexivity|].
      split.
      { intros code H; not_in_rest H.
        exists text1, cols, rowCount, n. repeat (split; [assumption || reflexivity|]).
        norm_fetch. eexists. reflexivity. }
      split; [intros H; not_in_rest H|].
      intros; same_results.
      split; [norm_fetch; eexists; reflexivity|].
      intros; same_results. }
  run_step R. run_step R.
  rewrite initializeWebview_eq in R.
  repeat (rewrite instance_logged in R
          || rewrite panel_disposed_changed in R by reflexivity).
  destruct (panel_disposed (instance i w)) eqn:D.
  { subst res. eexists. split; [trace_rest|].
    split; [exists cols, n, vals; norm_fetch; eexists; reflexivity|].
    split.
    { intros code H; not_in_rest H.
      exists text1, cols, rowCount, n. repeat (split; [assumption || reflexivity|]).
      norm_fetch. eexists. reflexivity. }
    split; [intros H; not_in_rest H|].
    intros; same_results.
    split; [norm_fetch; eexists; reflexivity|].
    intros; same_results. discriminate. }
  subst res. eexists. split; [trace_rest|].
  split; [exists cols, n, vals; norm_fetch; eexists; reflexivity|].
  split.
  { intros code H; not_in_rest H.
    exists text1, cols, rowCount, n. repeat (split; [assumption || reflexivity|]).
    norm_fetch. eexists. reflexivity. }
  split.
  { intros _. exists text1, cols, rowCount, n, text2, vals.
    repeat (split; [assumption || reflexivity|]). norm_fetch. reflexivity. }
  intros; same_results.
  split; [norm_fetch; eexists; reflexivity|].
  intros; same_results.
  split; [norm_fetch; reflexivity|].
  intros Hi. world_inst. repeat split.
Qed.


(** ** Algebra of world updates *)

Lemma update_nth_fuse {A} (f g : A -> A) (l : list A) :
  forall i, update_nth i f (update_nth i g l) = update_nth i (fun x => f (g x)) l.
Proof.
  induction l as [|x l IH]; intros [|i]; simpl; auto. now rewrite IH.
Qed.

Lemma update_nth_ext_at {A} (f g : A -> A) (d : A) (l : list A) :
  forall i, f (nth i l d) = g (nth i l d) -> update_nth i f l = update_nth i g l.
Proof.
  induction l as [|x l IH]; intros [|i] H; simpl in *; auto.
  - now rewrite H.
  - now rewrite (IH i H).
Qed.

Lemma update_nth_id {A} (f : A -> A) (d : A) (l : list A) :
  forall i, f (nth i l d) = nth i l d -> update_nth i f l = l.
Proof.
  induction l as [|x l IH]; intros [|i] H; simpl in *; auto.
  - now rewrite H.
  - now rewrite (IH i H).
Qed.

Lemma changed_changed (i : nat) (f g : Instance -> Instance) (w : World) :
  changed i f (changed i g w) = changed i (fun p => f (g p)) w.
Proof. unfold changed. simpl. now rewrite update_nth_fuse. Qed.

Lemma changed_ext_at (i : nat) (f g : Instance -> Instance) (w : World) :
  f (instance i w) = g (instance i w) -> changed i f w = changed i g w.
Proof.
  intros H. unfold changed. f_equal. now apply update_nth_ext_at with (d := blank).
Qed.

Lemma changed_id (i : nat) (f : Instance -> Instance) (w : World) :
  f (instance i w) = instance i w -> changed i f w = w.
Proof.
  intros H. unfold changed.
  rewrite (update_nth_id f blank (instances w) i H). now destruct w.
Qed.

Lemma changed_logged (i : nat) (f : Instance -> Instance)
    (es : list Effect) (w : World) :
  changed i f (logged es w) = logged es (changed i f w).
Proof. reflexivity. Qed.

Lemma instance_changed (i : nat) (f : Instance -> Instance) (w : World) :
  instance i (changed i f w) = f (instance i w) \/
  (length (instances w) <= i /\ instance i (changed i f w) = instance i w).
Proof.
  destruct (Nat.lt_ge_cases i (length (instances w))) as [H|H].
  - left. now apply instance_changed_same.
  - right. split; [assumption|]. unfold instance, changed. simpl.
    now rewrite update_nth_beyond.
Qed.

(** ** dispose *)

Lemma pop_snoc {A} (l : list A) (x : A) : pop (l ++ [x]) = Some (l, x).
Proof. unfold pop. rewrite rev_app_distr. simpl. now rewrite rev_involutive. Qed.

Lemma filter_true {A} (l : list A) : filter (fun _ => true) l = l.
Proof. induction l; simpl; congruence. Qed.

Lemma filter_filter {A} (f g : A -> bool) (l : list A) :
  filter f (filter g l) = filter (fun x => g x && f x) l.
Proof.
  induction l as [|x l IH]; simpl; [reflexivity|].
  destruct (g x); simpl; [destruct (f x)|]; now rewrite IH.
Qed.

Lemma survives_snoc (ds : list Disposable) (d x : Disposable) :
  survives (ds ++ [d]) x = negb (same_sub x d) && survives ds x.
Proof.
  unfold survives. rewrite existsb_app. simpl. rewrite orb_false_r.
  destruct (existsb (same_sub x) ds), (same_sub x d); reflexivity.
Qed.

Lemma released_nil (i : nat) (w : World) :
  _disposables (instance i w) = [] -> released i [] w = w.
Proof.
  intros H. unfold released. simpl. rewrite logged_nil.
  apply changed_id. unfold survives. simpl. rewrite filter_true.
  destruct (instance i w); simpl in *. now subst.
Qed.

Lemma snoc_cases {A} (l : list A) : l = [] \/ exists l' x, l = (l' ++ [x])%list.
Proof.
  induction l as [|x l IH] using rev_ind; [now left|right; eauto].
Qed.

Lemma release_loop_eq (n : nat) (i : nat) :
  forall w, i < length (instances w) ->
            length (_disposables (instance i w)) <= n ->
            release_loop n i w
            = (Ok tt, released i (_disposables (instance i w)) w).
Proof.
  induction n as [|n IH]; intros w Hi Hn.
  - destruct (_disposables (instance i w)) eqn:E; simpl in Hn; [|lia].
    simpl. now rewrite released_nil.
  - simpl. unfold Prog.bind at 1. rewrite this_eq.
    destruct (snoc_cases (_disposables (instance i w))) as [E|[ds [d E]]];
      rewrite E in *.
    + simpl. now rewrite released_nil.
    + rewrite pop_snoc.
      unfold Prog.bind at 1. cbn [update Prog.modify].
      unfold Prog.bind at 1. unfold Disposable_dispose at 1.
      unfold Prog.bind at 1. cbn [update tell Prog.modify].
      set (w2 := logged [Release i d] _).
      assert (E2 : _disposables (instance i w2) = ds).
      { subst w2. world_inst. simpl. reflexivity. }
      rewrite IH.
      * rewrite E2. f_equal. subst w2. unfold released.
        rewrite changed_logged, logged_logged, !changed_changed.
        rewrite rev_app_distr. simpl. f_equal.
        apply changed_ext_at.
        destruct (instance i w) as [pd pc pv pf ph pl pa].
        unfold set_listeners, set_disposables. simpl.
        rewrite filter_filter. f_equal.
        apply filter_ext. intros x. now rewrite survives_snoc.
      * subst w2. world_len.
      * rewrite E2. rewrite length_app in Hn. simpl in Hn. lia.
Qed.

Lemma for_each_same {A} (l : list A) (body : M unit) (w0 w1 : World) :
  l <> [] ->
  body w0 = (Ok tt, w1) -> body w1 = (Ok tt, w1) ->
  for_each l (fun _ => body) w0 = (Ok tt, w1).
Proof.
  intros Hl H0 H1. destruct l as [|x l]; [congruence|]. clear Hl.
  simpl. unfold Prog.bind. rewrite H0.
  induction l as [|y l IH]; simpl; [reflexivity|].
  unfold Prog.bind. now rewrite H1.
Qed.

(** [dispose] on an instance whose panel is already disposed (the nested
    call made by the panel's own listener). *)
Lemma dispose_fuel_when_disposed (fuel i : nat) (w : World) :
  i < length (instances w) ->
  panel_disposed (instance i w) = true ->
  dispose_fuel (S fuel) i w
  = (Ok tt, released i (_disposables (instance i w)) (pointed None w)).
Proof.
  intros Hi Hd. simpl.
  unfold Prog.bind at 1. cbn [set_currentPanel Prog.modify].
  unfold Prog.bind at 1. unfold WebviewPanel_dispose.
  unfold Prog.bind at 1. rewrite this_eq. rewrite instance_pointed, Hd.
  cbn [Prog.ret]. unfold Prog.bind at 1. rewrite this_eq.
  rewrite release_loop_eq; [reflexivity|world_len|reflexivity].
Qed.

Lemma disposables_released (i : nat) (ds : list Disposable) (w : World) :
  i < length (instances w) -> _disposables (instance i (released i ds w)) = [].
Proof.
  intros Hi. unfold released. rewrite instance_logged.
  now rewrite instance_changed_same.
Qed.

Lemma dispose_fuel_S (fuel i : nat) :
  dispose_fuel (S fuel) i
  = (set_currentPanel None ;;
     WebviewPanel_dispose (dispose_fuel fuel i) i ;;
     p <- this i ;;
     release_loop (length (_disposables p)) i).
Proof. reflexivity. Qed.

Lemma dispose_fuel_eq (fuel i : nat) (w : World) :
  i < length (instances w) ->
  dispose_fuel (S (S fuel)) i w = (Ok tt, disposed_world i w).
Proof.
  intros Hi. unfold disposed_world.
  destruct (panel_disposed (instance i w)) eqn:Hd.
  - rewrite dispose_fuel_when_disposed by assumption.
    rewrite (changed_id i (set_panel_disposed true) (pointed None w));
      [reflexivity|].
    rewrite instance_pointed. destruct (instance i w); simpl in *. now subst.
  - rewrite (dispose_fuel_S (S fuel)).
    unfold Prog.bind at 1. cbn [set_currentPanel Prog.modify].
    unfold Prog.bind at 1. unfold WebviewPanel_dispose at 1.
    unfold Prog.bind at 1. rewrite this_eq. rewrite instance_pointed, Hd.
    unfold Prog.bind at 1. cbn [update Prog.modify].
    set (w2 := changed i (set_panel_disposed true) (pointed None w)).
    set (ds := _disposables (instance i w)).
    assert (Hi2 : i < length (instances w2)) by (subst w2; world_len).
    assert (Hd2 : panel_disposed (instance i w2) = true).
    { subst w2. now world_inst. }
    assert (Hds2 : _disposables (instance i w2) = ds).
    { subst w2. now world_inst. }
    destruct (filter (is_kind DidDispose) (listeners (instance i w)))
      as [|l0 ls] eqn:El.
    + cbn [for_each Prog.ret]. unfold Prog.bind at 1. rewrite this_eq.
      rewrite release_loop_eq by (assumption || lia). now rewrite Hds2.
    + set (w3 := released i ds w2).
      assert (Hi3 : i < length (instances w3)).
      { subst w3. unfold released. world_len. }
      assert (Hds3 : _disposables (instance i w3) = []).
      { subst w3. now apply disposables_released. }
      assert (Hd3 : panel_disposed (instance i w3) = true).
      { subst w3. unfold released. world_inst. simpl. exact Hd2. }
      rewrite (for_each_same (l0 :: ls) _ w2 w3); [|discriminate| |].
      * unfold Prog.bind at 1. rewrite this_eq.
        rewrite release_loop_eq by (assumption || lia).
        rewrite Hds3. now rewrite released_nil.
      * rewrite dispose_fuel_when_disposed by assumption.
        rewrite Hds2. reflexivity.
      * rewrite dispose_fuel_when_disposed by assumption.
        rewrite Hds3. rewrite released_nil; [reflexivity|exact Hds3].
Qed.

Lemma dispose_eq (i : nat) (w : World) :
  i < length (instances w) -> dispose i w = (Ok tt, disposed_world i w).
Proof. apply (dispose_fuel_eq 0). Qed.


Lemma nothing_survives (ds l : list Disposable) :
  incl l ds -> filter (survives ds) l = [].
Proof.
  intros H. induction l as [|x l IH]; simpl; [reflexivity|].
  assert (Hx : survives ds x = false).
  { unfold survives. apply negb_false_iff, existsb_exists.
    exists x. split; [apply H; now left|]. unfold same_sub. apply Nat.eqb_refl. }
  rewrite Hx. apply IH. intros y Hy. apply H. now right.
Qed.

(** C9.  After [dispose] ran on a panel instance the static
    [currentPanel] is undefined, the instance's [_disposables] is empty,
    every disposable that was in it has had [dispose()] called, no
    listener registered through it remains subscribed, and a message from
    the webview is not handled any more. *)
Theorem dispose_releases_every_listener (i : nat) (w : World) :
  i < length (instances w) ->
  incl (listeners (instance i w)) (_disposables (instance i w)) ->
  let w' := Prog.exec (dispose i) w in
  Prog.eval (dispose i) w = Ok tt /\
  currentPanel w' = None /\
  _disposables (instance i w') = [] /\
  (forall d, In d (_disposables (instance i w)) -> In (Release i d) (trace w')) /\
  listeners (instance i w') = [] /\
  (forall message, deliver rt i message w' = (Ok tt, w')).
Proof.
  intros Hi Hincl w'. subst w'. unfold Prog.exec, Prog.eval.
  rewrite dispose_eq by assumption. cbn [fst snd].
  unfold disposed_world, released.
  split; [reflexivity|]. split; [reflexivity|].
  split; [now world_inst|].
  split.
  { intros d Hd. cbn [trace logged changed pointed]. apply in_or_app. right.
    apply in_map. now apply in_rev in Hd. }
  split.
  { world_inst. simpl. now apply nothing_survives. }
  intros message. unfold deliver, Prog.bind. rewrite this_eq.
  world_inst. reflexivity.
Qed.


(** ** Steps that leave the panel lifecycle alone *)

Lemma inst_safe_refl (p : Instance) : inst_safe p p.
Proof. repeat split; auto. apply incl_refl. Qed.

Lemma inst_safe_trans (p q r : Instance) :
  inst_safe p q -> inst_safe q r -> inst_safe p r.
Proof.
  intros [A1 [B1 C1]] [A2 [B2 C2]]. repeat split.
  - congruence.
  - auto.
  - eapply incl_tran; eauto.
Qed.

Lemma safe_refl (w : World) : safe w w.
Proof. repeat split; auto. apply incl_refl. Qed.

Lemma safe_trans (a b c : World) : safe a b -> safe b c -> safe a c.
Proof.
  intros [A1 [B1 C1]] [A2 [B2 C2]]. split; [congruence|]. split; [congruence|].
  intros j. eapply inst_safe_trans; eauto.
Qed.

Lemma safe_logged (es : list Effect) (w : World) : safe w (logged es w).
Proof. repeat split; auto. apply incl_refl. Qed.

Lemma safe_bumped (w : World) : safe w (bumped w).
Proof. repeat split; auto. apply incl_refl. Qed.

Lemma safe_changed (i : nat) (f : Instance -> Instance) (w : World) :
  (forall p, inst_safe p (f p)) -> safe w (changed i f w).
Proof.
  intros Hf. split; [reflexivity|]. split; [apply length_changed|].
  intros j. destruct (Nat.eq_dec i j) as [->|Hne].
  - destruct (instance_changed j f w) as [E|[_ E]]; rewrite E;
      [apply Hf|apply inst_safe_refl].
  - rewrite instance_changed_other by assumption. apply inst_safe_refl.
Qed.

Lemma safe_subscribed (ev : EventKind) (i : nat) (w : World) :
  safe w (subscribed ev i w).
Proof.
  unfold subscribed.
  eapply safe_trans; [apply safe_bumped|].
  eapply safe_trans; [|apply safe_logged].
  apply safe_changed. intros p. repeat split; simpl.
  - intros E. now rewrite E.
  - apply incl_appl, incl_refl.
Qed.

Lemma safe_bind {A B} (m : M A) (k : A -> M B) :
  safe_cmd m -> (forall a, safe_cmd (k a)) -> safe_cmd (Prog.bind m k).
Proof.
  intros Hm Hk w. unfold Prog.bind. specialize (Hm w).
  destruct (m w) as [[a|e] w1]; simpl in *; [|assumption].
  eapply safe_trans; [exact Hm|apply Hk].
Qed.

Lemma safe_ret {A} (a : A) : safe_cmd (Prog.ret (S := World) a).
Proof. intros w. apply safe_refl. Qed.

Lemma safe_throw {A} (e : error) : safe_cmd (Prog.throw (S := World) (A := A) e).
Proof. intros w. apply safe_refl. Qed.

Lemma safe_lift {A} (o : outcome A) : safe_cmd (Prog.lift (S := World) o).
Proof. intros w. apply safe_refl. Qed.

Lemma safe_this (i : nat) : safe_cmd (this i).
Proof. intros w. apply safe_refl. Qed.

Lemma safe_tell (e : Effect) : safe_cmd (tell e).
Proof. intros w. apply safe_logged. Qed.

Lemma safe_update (i : nat) (f : Instance -> Instance) :
  (forall p, inst_safe p (f p)) -> safe_cmd (update i f).
Proof. intros Hf w. now apply safe_changed. Qed.

Lemma safe_for_each {A} (l : list A) (body : A -> M unit) :
  (forall x, safe_cmd (body x)) -> safe_cmd (for_each l body).
Proof.
  intros Hb. induction l as [|x l IH]; simpl.
  - apply safe_ret.
  - apply safe_bind; auto.
Qed.

Lemma safe_guarded (m : M unit) : safe_cmd m -> safe_cmd (guarded m).
Proof. intros Hm w. apply Hm. Qed.

Lemma safe_subscribe (ev : EventKind) (i : nat) : safe_cmd (subscribe ev i).
Proof. intros w. rewrite subscribe_eq. apply safe_subscribed. Qed.

Lemma safe_run_code (i : nat) (kernel : Kernel) (code : string) :
  safe_cmd (run_code rt i kernel code).
Proof. intros w. rewrite run_code_eq. apply safe_logged. Qed.

Lemma safe_parse (text : string) : safe_cmd (JSON_parse_or_throw rt text).
Proof.
  intros w. unfold JSON_parse_or_throw.
  destruct (JSON_parse rt text); apply safe_refl.
Qed.

Lemma inst_safe_fields (p : Instance) :
  (forall x, inst_safe p (set_columns x p)) /\
  (forall x, inst_safe p (set_values x p)) /\
  (forall x, inst_safe p (set_html x p)) /\
  (forall x, inst_safe p (set_awaiting x p)).
Proof. repeat split; auto; apply incl_refl. Qed.

Lemma safe_initializeWebview (i : nat) :
  safe_cmd (_initializeWebview webviewContent i).
Proof.
  unfold _initializeWebview. apply safe_bind; [apply safe_this|]. intros p.
  destruct (panel_disposed p); [apply safe_throw|].
  apply safe_bind; [apply safe_update; intros q; apply inst_safe_fields|].
  intros _. apply safe_bind; [apply safe_tell|]. intros _.
  apply safe_subscribe.
Qed.

Lemma safe_initialize_then (i : nat) (variable : string)
    (kernel : option Kernel) :
  safe_cmd (initialize_then rt initializeCode webviewContent i variable kernel).
Proof.
  unfold initialize_then. destruct kernel as [kernel|]; [|apply safe_ret].
  repeat first
    [ progress cbv beta zeta
    | apply safe_run_code | apply safe_parse | apply safe_tell
    | apply safe_lift | apply safe_initializeWebview
    | apply safe_update; intros q; apply inst_safe_fields
    | apply safe_bind; [|intros ?] ].
Qed.

Lemma safe_postMessage (i : nat) (msg : jsval) : safe_cmd (postMessage i msg).
Proof.
  unfold postMessage. apply safe_bind; [apply safe_this|]. intros p.
  destruct (panel_disposed p); [apply safe_ret|apply safe_tell].
Qed.

Lemma safe_refresh (i : nat) : safe_cmd (_refresh i).
Proof.
  unfold _refresh. apply safe_bind; [apply safe_this|]. intros p.
  apply safe_postMessage.
Qed.

Lemma safe_on_message (i : nat) (message : jsval) :
  safe_cmd (on_message rt i message).
Proof.
  unfold on_message. apply safe_bind; [apply safe_lift|]. intros c.
  destruct (is_string c "refresh"); [apply safe_refresh|].
  destruct (is_string c "connected"); [apply safe_refresh|apply safe_ret].
Qed.

Lemma safe_deliver (i : nat) (message : jsval) :
  safe_cmd (deliver rt i message).
Proof.
  unfold deliver. apply safe_bind; [apply safe_this|]. intros p.
  destruct (panel_disposed p); [apply safe_ret|].
  apply safe_for_each. intros _. apply safe_guarded, safe_on_message.
Qed.

Lemma safe_reveal (i : nat) : safe_cmd (reveal i).
Proof.
  unfold reveal. apply safe_bind; [apply safe_this|]. intros p.
  destruct (panel_disposed p); [apply safe_throw|apply safe_tell].
Qed.


(** ** The singleton invariant *)

Lemma instance_beyond (i : nat) (w : World) :
  length (instances w) <= i -> instance i w = blank.
Proof. intros H. unfold instance. now apply nth_overflow. Qed.

Lemma Inv_initial : Inv initial.
Proof.
  split.
  - intros i [H _]. simpl in H. lia.
  - intros i H. discriminate.
  - intros i [H _]. simpl in H. lia.
  - intros i. unfold instance. simpl. now destruct i.
Qed.

Lemma alive_safe (i : nat) (w w' : World) :
  safe w w' -> (alive i w' <-> alive i w).
Proof.
  intros [_ [Hl Hj]]. destruct (Hj i) as [Hd _]. unfold alive.
  rewrite Hl, Hd. reflexivity.
Qed.

Lemma Inv_safe (w w' : World) : Inv w -> safe w w' -> Inv w'.
Proof.
  intros [Ha Hb Hc Hd] Hs. pose proof Hs as [Hcur [Hlen Hinst]]. split.
  - intros i Hi. rewrite Hcur. apply Ha. now apply (alive_safe i w w').
  - intros i Hi. rewrite Hcur in Hi. apply (alive_safe i w w'); auto.
  - intros i Hi. apply (alive_safe i w w') in Hi; [|assumption].
    destruct (Hc i Hi) as [d [Hin Hk]]. exists d. split; [|assumption].
    destruct (Hinst i) as [_ [_ Hincl]]. now apply Hincl.
  - intros i. destruct (Hinst i) as [_ [Hreg _]]. apply Hreg, Hd.
Qed.

(** *** render *)

Lemma instance_extended_old (j : nat) (w : World) :
  j < length (instances w) -> instance j (extended w) = instance j w.
Proof. intros H. unfold instance, extended. simpl. now apply app_nth1. Qed.

Lemma instance_extended_new (j : nat) (w : World) :
  length (instances w) <= j -> instance j (extended w) = blank.
Proof.
  intros H. unfold instance, extended. simpl.
  rewrite app_nth2 by assumption.
  destruct (j - length (instances w)) as [|[|k]]; reflexivity.
Qed.

Lemma length_extended (w : World) :
  length (instances (extended w)) = S (length (instances w)).
Proof. unfold extended. simpl. rewrite length_app. simpl. lia. Qed.

Lemma render_existing (env : Env) (variable : option string)
    (i : nat) (w : World) :
  currentPanel w = Some i -> panel_disposed (instance i w) = false ->
  render webviewContent env variable w = (Ok tt, logged [Reveal i] w).
Proof.
  intros Hc Hd. unfold render, Prog.bind. cbn [Prog.read].
  rewrite Hc. unfold reveal, Prog.bind. rewrite this_eq, Hd. reflexivity.
Qed.

Lemma render_new (env : Env) (variable : option string) (w : World) :
  currentPanel w = None ->
  let n := length (instances w) in
  exists w3,
    render webviewContent env variable w = (Ok tt, pointed (Some n) w3) /\
    safe (subscribed DidDispose n (logged [CreatePanel n] (extended w))) w3.
Proof.
  intros Hc n. unfold render. unfold Prog.bind at 1. cbn [Prog.read].
  rewrite Hc. unfold createWebviewPanel.
  unfold Prog.bind at 1. unfold Prog.bind at 1. cbn [Prog.read].
  unfold Prog.bind at 1. cbn [Prog.modify].
  unfold Prog.bind at 1. cbn [tell Prog.modify Prog.ret].
  fold n. unfold constructor.
  unfold Prog.bind at 1. unfold Prog.bind at 1. rewrite subscribe_eq.
  set (w2 := subscribed DidDispose n (logged [CreatePanel n] (extended w))).
  assert (Hd2 : panel_disposed (instance n w2) = false).
  { subst w2. unfold subscribed.
    rewrite instance_logged.
    rewrite instance_changed_same
      by (rewrite length_bumped, length_logged, length_extended; lia).
    rewrite instance_bumped, instance_logged.
    now rewrite instance_extended_new by lia. }
  destruct (jupyterApi env), (truthy variable) as [v|], (activeNotebook env);
    first
      [ rewrite initializeWebview_eq, Hd2; cbn [set_currentPanel Prog.modify];
        eexists; split; [reflexivity|];
        eapply safe_trans; [|apply safe_subscribed];
        eapply safe_trans; [|apply safe_logged];
        apply safe_changed; intros q; apply inst_safe_fields
      | unfold initialize; cbn [update set_currentPanel Prog.modify];
        eexists; split; [reflexivity|];
        apply safe_changed; intros q; apply inst_safe_fields ].
Qed.

Lemma Inv_render (env : Env) (variable : option string) (w : World) :
  Inv w ->
  Inv (Prog.exec (render webviewContent env variable) w) /\
  exists i, currentPanel (Prog.exec (render webviewContent env variable) w) = Some i.
Proof.
  intros HI. unfold Prog.exec.
  destruct (currentPanel w) as [i|] eqn:Hc.
  - destruct (inv_current_alive w HI i Hc) as [Hi Hd].
    rewrite (render_existing env variable i w Hc Hd). simpl. split.
    + apply (Inv_safe w); [assumption|apply safe_logged].
    + eauto.
  - destruct (render_new env variable w Hc) as [w3 [E Hs]]. rewrite E.
    cbn [snd]. split; [|simpl; eauto].
    set (n := length (instances w)) in *.
    set (w1 := logged [CreatePanel n] (extended w)) in *.
    assert (Hs13 : safe w1 w3).
    { eapply safe_trans; [apply safe_subscribed|exact Hs]. }
    destruct Hs13 as [_ [Hlen Hinst]].
    assert (Hlen3 : length (instances w3) = S n).
    { rewrite Hlen. subst w1. now rewrite length_logged, length_extended. }
    assert (Hnone : forall j, j < n -> panel_disposed (instance j w3) = true).
    { intros j Hj. destruct (Hinst j) as [Hd _]. rewrite Hd.
      subst w1. rewrite instance_logged, instance_extended_old by assumption.
      destruct (panel_disposed (instance j w)) eqn:Hdj; [reflexivity|].
      assert (Hcj : currentPanel w = Some j)
        by (apply (inv_alive_current w HI); split; assumption).
      congruence. }
    assert (Hnew : panel_disposed (instance n w3) = false /\
                   exists d, In d (listeners (instance n w3))
                             /\ is_kind DidDispose d = true).
    { destruct Hs as [_ [_ Hinst2]]. destruct (Hinst2 n) as [Hd [_ Hincl]].
      assert (En : instance n (subscribed DidDispose n w1)
                   = set_listeners [{| sub_id := next_sub w1; sub_event := DidDispose |}]
                       (set_disposables
                          [{| sub_id := next_sub w1; sub_event := DidDispose |}]
                          blank)).
      { unfold subscribed. rewrite instance_logged.
        rewrite instance_changed_same
          by (subst w1; rewrite length_bumped, length_logged, length_extended; lia).
        rewrite instance_bumped. subst w1.
        rewrite instance_logged, instance_extended_new by lia. reflexivity. }
      rewrite En in Hd, Hincl. split; [exact Hd|].
      eexists. split; [apply Hincl; left; reflexivity|reflexivity]. }
    destruct Hnew as [Hdn [d [Hdin Hdk]]].
    assert (Honly : forall j, alive j (pointed (Some n) w3) -> j = n).
    { intros j [Hj Hd]. rewrite length_pointed, Hlen3 in Hj.
      rewrite instance_pointed in Hd.
      destruct (Nat.eq_dec j n) as [|Hne]; [assumption|].
      rewrite Hnone in Hd by lia. discriminate. }
    split.
    + intros j Hj. apply Honly in Hj. now subst.
    + intros j Hj. simpl in Hj. inversion Hj; subst j. split.
      * rewrite length_pointed. lia.
      * now rewrite instance_pointed.
    + intros j Hj. apply Honly in Hj. subst j. rewrite instance_pointed. eauto.
    + intros j. rewrite instance_pointed.
      destruct (Hinst j) as [_ [Hreg _]]. apply Hreg.
      subst w1. rewrite instance_logged.
      destruct (Nat.lt_ge_cases j n) as [Hj|Hj].
      * rewrite instance_extended_old by assumption.
        apply (inv_registered w HI).
      * now rewrite instance_extended_new by assumption.
Qed.


(** *** The user closes a panel *)

Lemma changed_beyond (i : nat) (f : Instance -> Instance) (w : World) :
  length (instances w) <= i -> changed i f w = w.
Proof.
  intros H. unfold changed. rewrite update_nth_beyond by assumption.
  now destruct w.
Qed.

Lemma disposed_world_again (i : nat) (w : World) :
  i < length (instances w) ->
  disposed_world i (disposed_world i w) = disposed_world i w.
Proof.
  intros Hi. set (W := disposed_world i w).
  assert (HiW : i < length (instances W)).
  { subst W. unfold disposed_world, released. world_len. }
  assert (Hds : _disposables (instance i W) = []).
  { subst W. unfold disposed_world. apply disposables_released. world_len. }
  assert (Hd : panel_disposed (instance i W) = true).
  { subst W. unfold disposed_world, released. now world_inst. }
  unfold disposed_world at 1. rewrite Hds.
  assert (E : changed i (set_panel_disposed true) (pointed None W) = W).
  { transitivity (changed i (set_panel_disposed true) W); [reflexivity|].
    apply changed_id. destruct (instance i W); simpl in *. now subst. }
  rewrite E. now apply released_nil.
Qed.

Lemma close_eq (i : nat) (w : World) :
  Inv w ->
  WebviewPanel_dispose (dispose i) i w
  = (Ok tt,
     if panel_disposed (instance i w) then w
     else if (i <? length (instances w))%nat
          then disposed_world i (changed i (set_panel_disposed true) w)
          else w).
Proof.
  intros HI. unfold WebviewPanel_dispose.
  unfold Prog.bind at 1. rewrite this_eq.
  destruct (panel_disposed (instance i w)) eqn:Hd; [reflexivity|].
  unfold Prog.bind at 1. cbn [update Prog.modify].
  destruct (Nat.ltb_spec i (length (instances w))) as [Hi|Hi].
  - destruct (inv_listening w HI i (conj Hi Hd)) as [d [Hin Hk]].
    set (w2 := changed i (set_panel_disposed true) w).
    assert (Hi2 : i < length (instances w2)) by (subst w2; world_len).
    apply for_each_same.
    + intros E. assert (Hf : In d (filter (is_kind DidDispose)
                                    (listeners (instance i w))))
        by (apply filter_In; split; assumption).
      rewrite E in Hf. contradiction.
    + now apply dispose_eq.
    + rewrite dispose_eq.
      * now rewrite disposed_world_again.
      * unfold disposed_world, released. world_len.
  - rewrite instance_beyond by assumption. simpl.
    now rewrite changed_beyond.
Qed.

Lemma Inv_close (i : nat) (w : World) :
  Inv w -> Inv (Prog.exec (WebviewPanel_dispose (dispose i) i) w).
Proof.
  intros HI. unfold Prog.exec. rewrite close_eq by assumption. cbn [snd].
  destruct (panel_disposed (instance i w)) eqn:Hd; [assumption|].
  destruct (Nat.ltb_spec i (length (instances w))) as [Hi|Hi]; [|assumption].
  set (W := disposed_world i (changed i (set_panel_disposed true) w)).
  assert (Hlen : length (instances W) = length (instances w)).
  { subst W. unfold disposed_world, released. world_len. }
  assert (Hother : forall j, j <> i -> instance j W = instance j w).
  { intros j Hj. subst W. unfold disposed_world, released. now world_inst. }
  assert (Hself : panel_disposed (instance i W) = true /\
                  listeners (instance i W) = [] /\
                  _disposables (instance i W) = []).
  { subst W. unfold disposed_world, released. world_inst. simpl.
    repeat split. apply nothing_survives.
    rewrite (inv_registered w HI). apply incl_refl. }
  destruct Hself as [HdW [HlW HdsW]].
  assert (Hcur : currentPanel w = Some i)
    by (apply (inv_alive_current w HI); split; assumption).
  assert (Hnone : forall j, ~ alive j W).
  { intros j [Hj HdJ]. destruct (Nat.eq_dec j i) as [->|Hne]; [congruence|].
    rewrite Hother in HdJ by assumption. rewrite Hlen in Hj.
    assert (currentPanel w = Some j)
      by (apply (inv_alive_current w HI); split; assumption).
    congruence. }
  split.
  - intros j Hj. now apply Hnone in Hj.
  - intros j Hj. subst W. discriminate Hj.
  - intros j Hj. now apply Hnone in Hj.
  - intros j. destruct (Nat.eq_dec j i) as [->|Hne]; [congruence|].
    rewrite Hother by assumption. apply (inv_registered w HI).
Qed.

Lemma safe_kernel_step (i : nat) (kernel : option Kernel) :
  safe_cmd (step rt initializeCode webviewContent (OpKernel i kernel)).
Proof.
  simpl. apply safe_bind; [apply safe_this|]. intros p.
  destruct (awaiting_kernel p) as [variable|]; [|apply safe_ret].
  apply safe_bind; [apply safe_update; intros q; apply inst_safe_fields|].
  intros _. apply safe_initialize_then.
Qed.

Lemma Inv_step (op : Op) (w : World) :
  Inv w -> Inv (Prog.exec (step rt initializeCode webviewContent op) w).
Proof.
  intros HI. destruct op as [env variable|i|i kernel|i message].
  - now apply Inv_render.
  - now apply Inv_close.
  - apply (Inv_safe w); [assumption|apply safe_kernel_step].
  - apply (Inv_safe w); [assumption|apply safe_deliver].
Qed.

Lemma Inv_run (ops : list Op) :
  forall w, Inv w -> Inv (run rt initializeCode webviewContent ops w).
Proof.
  induction ops as [|op ops IH]; intros w HI; simpl; [assumption|].
  now apply IH, Inv_step.
Qed.

(** *** Counting open panels *)

Lemma live_alive (i : nat) (w : World) : In i (live w) <-> alive i w.
Proof.
  unfold live, alive. rewrite filter_In, in_seq, negb_true_iff. simpl.
  intuition lia.
Qed.

Lemma live_NoDup (w : World) : NoDup (live w).
Proof. unfold live. apply NoDup_filter, seq_NoDup. Qed.

Lemma all_equal_short (l : list nat) (x : nat) :
  NoDup l -> (forall y, In y l -> y = x) -> length l <= 1.
Proof.
  intros Hnd Hall. destruct l as [|a [|b l]]; simpl; try lia.
  assert (a = x) by (apply Hall; simpl; auto).
  assert (b = x) by (apply Hall; simpl; auto).
  inversion Hnd as [|? ? Hnotin _]; subst. exfalso. apply Hnotin. now left.
Qed.

Lemma Inv_at_most_one (w : World) : Inv w -> length (live w) <= 1.
Proof.
  intros HI. destruct (live w) as [|x l] eqn:E; [simpl; lia|].
  rewrite <- E. apply (all_equal_short _ x); [apply live_NoDup|].
  intros y Hy.
  assert (Hx : In x (live w)) by (rewrite E; now left).
  apply live_alive in Hx, Hy.
  apply (inv_alive_current w HI) in Hx, Hy. congruence.
Qed.

Lemma Inv_exactly_one (w : World) (i : nat) :
  Inv w -> currentPanel w = Some i -> live w = [i].
Proof.
  intros HI Hc.
  assert (Hi : In i (live w)).
  { apply live_alive. now apply (inv_current_alive w HI). }
  pose proof (Inv_at_most_one w HI) as Hle.
  destruct (live w) as [|x [|y l]]; simpl in *; try lia; try contradiction.
  destruct Hi as [->|[]]. reflexivity.
Qed.

(** C5.  In every state the extension can reach, at most one panel is
    open; when a panel instance exists [render] reveals it and constructs
    nothing; and after two calls of [render] in a row exactly one panel is
    open, the second call having constructed none. *)
Theorem render_keeps_a_single_panel (ops : list Op) :
  let w := run rt initializeCode webviewContent ops initial in
  length (live w) <= 1 /\
  (forall env variable i,
     currentPanel w = Some i ->
     let w' := Prog.exec (render webviewContent env variable) w in
     instances w' = instances w /\
     currentPanel w' = Some i /\
     trace w' = (trace w ++ [Reveal i])%list) /\
  (forall env1 variable1 env2 variable2,
     let w1 := Prog.exec (render webviewContent env1 variable1) w in
     let w2 := Prog.exec (render webviewContent env2 variable2) w1 in
     length (live w2) = 1 /\
     live w2 = live w1 /\
     instances w2 = instances w1).
Proof.
  intros w.
  assert (HI : Inv w) by (apply Inv_run, Inv_initial).
  split; [now apply Inv_at_most_one|]. split.
  - intros env variable i Hc w'. subst w'. unfold Prog.exec.
    destruct (inv_current_alive w HI i Hc) as [_ Hd].
    rewrite (render_existing env variable i w Hc Hd). now simpl.
  - intros env1 variable1 env2 variable2 w1 w2.
    destruct (Inv_render env1 variable1 w HI) as [HI1 [i Hc1]].
    fold w1 in HI1, Hc1.
    destruct (inv_current_alive w1 HI1 i Hc1) as [_ Hd].
    assert (E : w2 = logged [Reveal i] w1).
    { subst w2. unfold Prog.exec.
      now rewrite (render_existing env2 variable2 i w1 Hc1 Hd). }
    assert (Hl : live w2 = live w1) by (rewrite E; reflexivity).
    rewrite Hl, (Inv_exactly_one w1 i HI1 Hc1), E. now simpl.
Qed.


(** ** Answering the webview *)

Lemma refresh_eq (i : nat) (w : World) :
  _refresh i w
  = (Ok tt,
     if panel_disposed (instance i w) then w
     else logged
            [PostMessage i
               (JObj [("command", JStr "update");
                      ("data", nullish_or (_values (instance i w))
                                 (JObj [("columns", JArr []);
                                        ("rows", JArr [])]))])] w).
Proof.
  unfold _refresh, Prog.bind. rewrite this_eq.
  unfold postMessage, Prog.bind. rewrite this_eq.
  destruct (panel_disposed (instance i w)); reflexivity.
Qed.

(** [connected] and [refresh] are answered in the same way, with one
    [update] message that carries the fetched values when there are some. *)
Lemma connected_and_refresh_answered_alike
    (i : nat) (m1 m2 : jsval) (w : World) :
  get rt m1 "command" = Ok (JStr "connected") ->
  get rt m2 "command" = Ok (JStr "refresh") ->
  on_message rt i m1 w = on_message rt i m2 w /\
  on_message rt i m1 w = _refresh i w.
Proof.
  intros H1 H2. unfold on_message, Prog.bind, Prog.lift.
  rewrite H1, H2. simpl. split; reflexivity.
Qed.

Lemma refresh_with_values (i : nat) (w : World) (fields : list (string * jsval)) :
  panel_disposed (instance i w) = false ->
  _values (instance i w) = Some (JObj fields) ->
  _refresh i w
  = (Ok tt,
     logged [PostMessage i (JObj [("command", JStr "update");
                                  ("data", JObj fields)])] w).
Proof. intros Hd Hv. rewrite refresh_eq, Hd, Hv. reflexivity. Qed.

(** Without fetched values the answer carries [columns] and [rows], and
    no [data]. *)
Lemma refresh_without_values (i : nat) (w : World) :
  panel_disposed (instance i w) = false ->
  _values (instance i w) = None ->
  _refresh i w
  = (Ok tt,
     logged [PostMessage i
               (JObj [("command", JStr "update");
                      ("data", JObj [("columns", JArr []);
                                     ("rows", JArr [])])])] w).
Proof. intros Hd Hv. rewrite refresh_eq, Hd, Hv. reflexivity. Qed.

(** The renderer cannot process that answer: [d.data] is undefined. *)
Lemma renderer_rejects_rows_payload (mounted : bool) (s : App.State) :
  Prog.eval
    (App.on_message rt mounted
       (JObj [("command", JStr "update");
              ("data", JObj [("columns", JArr []); ("rows", JArr [])])])) s
  = Throw TypeError.
Proof. reflexivity. Qed.

(** ** Construction without a kernel *)

(** When the API, the variable or the notebook is missing the constructor
    initialises the webview at once. *)
Lemma constructor_falls_back (env : Env) (variable : option string)
    (i : nat) (w : World) :
  jupyterApi env && activeNotebook env
    && match truthy variable with Some _ => true | None => false end = false ->
  constructor webviewContent env i variable w
  = _initializeWebview webviewContent i (subscribed DidDispose i w).
Proof.
  intros H. unfold constructor. unfold Prog.bind at 1. rewrite subscribe_eq.
  destruct (jupyterApi env), (truthy variable), (activeNotebook env);
    simpl in H; try discriminate; reflexivity.
Qed.

(** When the kernel cannot be resolved the callback returns at once and
    the world is left as it was: no content, no message listener. *)
Lemma initialize_without_kernel (i : nat) (variable : string) (w : World) :
  initialize_then rt initializeCode webviewContent i variable None w = (Ok tt, w).
Proof. reflexivity. Qed.

End PanelFacts.

(* ================================================================== *)
(** * The properties on concrete runs                                  *)
(* ================================================================== *)

Import Sample.

(** Text, an error and more text: the error is dropped, the rest joined. *)
Lemma runCode_on_mixed_stream :
  Runner.ends mixed_stream = true /\
  forallb (Runner.error_payload_ok ascii_runtime) (Runner.chunks mixed_stream) = true /\
  Runner._runCode ascii_runtime mixed_kernel "code" = Ok "abc".
Proof.
  refine (conj eq_refl (conj eq_refl _)).
  exact (proj1 (proj2 (runCode_concatenates_non_error_chunks
                         ascii_runtime mixed_kernel "code"))
           eq_refl eq_refl).
Defined.

(** An error payload whose [name] is an object with a [toString] field is
    JSON of a value other than null, but the log line cannot be built: the
    run rejects although the stream ends. *)
Example runCode_unprintable_error_name :
  let payload := "{" ++ quoted "name" ++ ": {" ++ quoted "toString" ++ ": 1}}" in
  let kernel :=
    {| Runner.executeCode := fun _ =>
         Runner.StreamYield [text_chunk "ab"; error_chunk payload]
           Runner.StreamEnd |} in
  JSON_parse ascii_runtime payload
  = Some (JObj [("name", JObj [("toString", JNum 1)])]) /\
  Runner._runCode ascii_runtime kernel "code" = Throw TypeError.
Proof. vm_compute. split; reflexivity. Qed.

(** The fetch sequence against a kernel that holds a two-row frame: both
    requests are answered, so the run is the whole sequence, with the rows
    request for rows 0 to 1, and the content is set. *)
Lemma fetch_order_on_frame_kernel :
  let w := run_sample [Panel.OpRender with_notebook (Some "df")] in
  let w' := Prog.exec (Panel.initialize_then ascii_runtime "T" "<html>" 0 "df"
                         (Some frame_kernel)) w in
  let code1 := CodeGen._generateCodeForDataFrameColumns "T" "df" in
  let cols :=
    JObj [("columns", JArr [JObj [("key", JStr "a"); ("name", JStr "a");
                                  ("type", JStr "int64")]]);
          ("indexColumn", JStr "index"); ("rowCount", JNum 2)] in
  let vals :=
    JObj [("columns", JArr [JStr "a"]); ("index", JArr [JNum 0; JNum 1]);
          ("data", JArr [JArr [JNum 10]; JArr [JNum 20]])] in
  exists rest,
    Panel.trace w' = (Panel.trace w ++ Panel.Execute 0 code1 :: rest)%list /\
    Panel.fetch_steps (Panel.Execute 0 code1 :: rest)
    = Panel.fetch_sequence "T" 0 "df" cols (Int 2) vals /\
    Panel.webview_html (Panel.instance 0 w') = Some "<html>".
Proof.
  intros w w' code1 cols vals.
  destruct (initialize_fetches_schema_then_rows ascii_runtime "T" "<html>"
              0 "df" frame_kernel w)
    as [rest [Ht [_ [_ [_ Hgo]]]]].
  exists rest. split; [exact Ht|].
  assert (H1 : Runner._runCode ascii_runtime frame_kernel code1 = Ok schema_json)
    by (vm_compute; reflexivity).
  assert (H2 : JSON_parse ascii_runtime schema_json = Some cols)
    by (vm_compute; reflexivity).
  destruct (Hgo schema_json cols (JNum 2) (Int 2) H1 H2 eq_refl eq_refl)
    as [_ Hall].
  assert (H3 : Runner._runCode ascii_runtime frame_kernel
                 (CodeGen._generateCodeForDataFrameRows "T" "df" (Int 0)
                    (sub (Int 2) (Int 1))) = Ok rows_json)
    by (vm_compute; reflexivity).
  assert (H4 : JSON_parse ascii_runtime rows_json = Some vals)
    by (vm_compute; reflexivity).
  assert (H5 : Panel.panel_disposed (Panel.instance 0 w) = false)
    by (vm_compute; reflexivity).
  destruct (Hall rows_json vals H3 H4 H5) as [Hseq Hfields].
  split; [exact Hseq|].
  apply Hfields. vm_compute. lia.
Defined.

(** On that kernel the run goes through, and the rows request is for rows
    0 to 1 of the two. *)
Example fetch_on_frame_kernel_completes :
  let w := run_sample [Panel.OpRender with_notebook (Some "df");
                       Panel.OpKernel 0 (Some frame_kernel)] in
  Panel.fetch_steps (Panel.trace w)
  = [ Panel.Execute 0 (CodeGen._generateCodeForDataFrameColumns "T" "df");
      Panel.StoreColumns 0
        (JObj [("columns", JArr [JObj [("key", JStr "a"); ("name", JStr "a");
                                       ("type", JStr "int64")]]);
               ("indexColumn", JStr "index"); ("rowCount", JNum 2)]);
      Panel.Execute 0
        (CodeGen._generateCodeForDataFrameRows "T" "df" (Int 0) (Int 1));
      Panel.StoreValues 0
        (JObj [("columns", JArr [JStr "a"]); ("index", JArr [JNum 0; JNum 1]);
               ("data", JArr [JArr [JNum 10]; JArr [JNum 20]])]);
      Panel.SetHtml 0 ].
Proof. vm_compute. reflexivity. Qed.

(** An update with no columns and no rows gives an empty grid. *)
Lemma empty_update_gives_empty_grid :
  let d := App.dataset [] [] in
  let s' := Prog.exec (App.on_message ascii_runtime true (App.update_message d))
              App.initial in
  get ascii_runtime d "columns" = Ok (JArr (map JStr [])) /\
  get ascii_runtime d "data" = Ok (JArr []) /\
  App.gridColumns s' = [] /\
  App.rows s' = JNum 0 /\
  App.updateCells_calls s' = [[]].
Proof.
  intros d s'.
  refine (conj eq_refl (conj eq_refl _)).
  destruct (update_rebuilds_grid ascii_runtime [] [] d App.initial eq_refl eq_refl)
    as [_ [Hc [_ [Hr [_ [Hu _]]]]]].
  exact (conj Hc (conj Hr Hu)).
Defined.

(** Two columns and three rows. *)
Example update_two_by_three :
  let d := App.dataset ["a"; "b"]
             [[JNum 1; JStr "x"]; [JNum 2; JStr "y"]; [JNum 3; JStr "z"]] in
  let s' := Prog.exec (App.on_message ascii_runtime true (App.update_message d))
              App.initial in
  length (App.gridColumns s') = 2 /\
  App.rows s' = JNum 3 /\
  App.updateCells_calls s' = [[(0, 0); (1, 0); (0, 1); (1, 1); (0, 2); (1, 2)]].
Proof. vm_compute. repeat split. Qed.

(** A three-row update followed by a one-row update leaves one row. *)
Lemma one_row_replaces_three :
  let first := App.update_message
                 (App.dataset ["a"; "b"]
                    [[JNum 1; JStr "x"]; [JNum 2; JStr "y"]; [JNum 3; JStr "z"]]) in
  let d := App.dataset ["c"] [[JNum 7]] in
  let after_both :=
    Prog.exec (App.on_message ascii_runtime true (App.update_message d))
      (Prog.exec (App.on_message ascii_runtime true first) App.initial) in
  get ascii_runtime d "columns" = Ok (JArr (map JStr ["c"])) /\
  get ascii_runtime d "data" = Ok (JArr [JArr [JNum 7]]) /\
  App.view after_both
  = ([{| Grid.title := JStr "c"; Grid.width := 100 |}], JNum 1,
     JArr [JArr [JNum 7]]).
Proof.
  intros first d after_both.
  refine (conj eq_refl (conj eq_refl _)).
  exact (proj2 (proj2 (second_update_replaces_first ascii_runtime first
                         ["c"] [JArr [JNum 7]] d App.initial eq_refl eq_refl))).
Defined.

(** A row with one cell, asked for its second column. *)
Lemma getData_short_row :
  let s := App.showing [[JNum 1]] in
  App.data s = JArr [JArr [JNum 1]] /\
  nth_error [JArr [JNum 1]] 0 = Some (JArr [JNum 1]) /\
  nth_error [JNum 1] 1 = None /\
  App.getData ascii_runtime s (1, 0) = Ok App.undefined_cell.
Proof.
  intros s.
  refine (conj eq_refl (conj eq_refl (conj eq_refl _))).
  exact (getData_missing_column_is_undefined ascii_runtime s
           [JArr [JNum 1]] [JNum 1] 1 0 eq_refl eq_refl eq_refl).
Defined.

(** C10 as stated fails: the cell at column 0 of row 1 is missing from a
    one-row matrix, and the lookup throws instead of returning a cell. *)
Lemma getData_absent_row_throws :
  App.cell_at [[JNum 1]] 0 1 = None /\
  App.getData ascii_runtime (App.showing [[JNum 1]]) (0, 1) = Throw TypeError /\
  App.getData ascii_runtime (App.showing [[JNum 1]]) (0, 1)
  <> Ok App.undefined_cell.
Proof.
  split; [reflexivity|]. split; [reflexivity|]. discriminate.
Qed.

(** Closing the panel of a freshly rendered, empty grid. *)
Lemma dispose_after_render :
  let w := run_sample [Panel.OpRender no_notebook None] in
  let w' := Prog.exec (Panel.dispose 0) w in
  0 < length (Panel.instances w) /\
  incl (Panel.listeners (Panel.instance 0 w)) (Panel._disposables (Panel.instance 0 w)) /\
  Panel.currentPanel w' = None /\
  Panel._disposables (Panel.instance 0 w') = [] /\
  Panel.listeners (Panel.instance 0 w') = [] /\
  Panel.deliver ascii_runtime 0 refresh w' = (Ok tt, w').
Proof.
  intros w w'.
  assert (Hi : 0 < length (Panel.instances w)) by (vm_compute; lia).
  assert (Hincl : incl (Panel.listeners (Panel.instance 0 w))
                       (Panel._disposables (Panel.instance 0 w)))
    by (vm_compute; intros x H; exact H).
  destruct (dispose_releases_every_listener ascii_runtime 0 w Hi Hincl)
    as [_ [Hc [Hd [_ [Hl Hm]]]]].
  exact (conj Hi (conj Hincl (conj Hc (conj Hd (conj Hl (Hm refresh)))))).
Defined.

(** Two renders in a row. *)
Lemma render_twice_one_panel :
  let w1 := Prog.exec (Panel.render "<html>" no_notebook None) (run_sample []) in
  let w2 := Prog.exec (Panel.render "<html>" with_notebook (Some "df")) w1 in
  length (Panel.live w2) = 1 /\ Panel.instances w2 = Panel.instances w1.
Proof.
  intros w1 w2.
  destruct (render_keeps_a_single_panel ascii_runtime "T" "<html>" [])
    as [_ [_ H]].
  destruct (H no_notebook None with_notebook (Some "df")) as [H1 [_ H3]].
  exact (conj H1 H3).
Defined.

(** Render, close, render again: the first panel is gone and one is open. *)
Example render_after_close_opens_a_new_panel :
  let w := run_sample [Panel.OpRender no_notebook None; Panel.OpClose 0;
                       Panel.OpRender no_notebook None] in
  Panel.live w = [1] /\ Panel.currentPanel w = Some 1.
Proof. repeat split. Qed.

(** C3, at the input where it fails: a panel rendered without a variable
    answers [connected] with an object that has [columns] and [rows] but no
    [data]; that is not the empty dataset of the protocol, and the renderer
    throws on it. *)
Lemma refresh_fallback_has_rows_not_data :
  let w := run_sample [Panel.OpRender no_notebook None;
                       Panel.OpMessage 0 connected] in
  let reply := JObj [("command", JStr "update");
                     ("data", JObj [("columns", JArr []); ("rows", JArr [])])] in
  Panel.posted 0 w = [reply] /\
  reply <> App.update_message (App.dataset [] []) /\
  (let? d := get ascii_runtime reply "data" in get ascii_runtime d "data")
  = Ok JUndefined /\
  Prog.eval (App.on_message ascii_runtime true reply) App.initial
  = Throw TypeError.
Proof.
  split; [reflexivity|]. split; [discriminate|]. split; reflexivity.
Qed.

(** C7, at the input where it fails: the API, the variable and the notebook
    are there but no kernel is resolved; the webview gets no content and no
    message listener, and [connected] is never answered. *)
Lemma kernel_absent_leaves_webview_uninitialized :
  let w := run_sample [Panel.OpRender with_notebook (Some "df");
                       Panel.OpKernel 0 None;
                       Panel.OpMessage 0 connected] in
  Panel.panel_disposed (Panel.instance 0 w) = false /\
  Panel.webview_html (Panel.instance 0 w) = None /\
  filter (Panel.is_kind Panel.DidReceiveMessage)
         (Panel.listeners (Panel.instance 0 w)) = [] /\
  Panel.posted 0 w = [].
Proof. repeat split. Qed.

(** Without a variable the constructor does initialise the webview. *)
Example no_variable_initializes_webview :
  let w := run_sample [Panel.OpRender with_notebook None] in
  Panel.webview_html (Panel.instance 0 w) = Some "<html>" /\
  length (filter (Panel.is_kind Panel.DidReceiveMessage)
                 (Panel.listeners (Panel.instance 0 w))) = 1.
Proof. repeat split. Qed.

(** From the kernel to the grid: the fetched frame, asked for by the webview
    on load, is drawn as one column and two rows. *)
Example fetched_frame_reaches_the_grid :
  let w := run_sample [Panel.OpRender with_notebook (Some "df");
                       Panel.OpKernel 0 (Some frame_kernel);
                       Panel.OpMessage 0 connected] in
  match Panel.posted 0 w with
  | [reply] =>
      let s := Prog.exec (App.on_message ascii_runtime true reply) App.initial in
      App.gridColumns s = [{| Grid.title := JStr "a"; Grid.width := 100 |}] /\
      App.rows s = JNum 2 /\
      App.updateCells_calls s = [[(0, 0); (0, 1)]] /\
      App.getData ascii_runtime s (0, 1)
      = Ok {| Grid.kind := Grid.Text; Grid.data := "20";
              Grid.allowOverlay := false; Grid.displayData := "20" |}
  | _ => False
  end.
Proof. vm_compute. repeat split. Qed.

(* ================================================================== *)
(** * More on the kernel code-runner                                   *)
(* ================================================================== *)

Section RunnerMore.
Import Runner.
Context (rt : Runtime).

(** A chunk that is processed without an exception has an acceptable
    payload, leaves the collected text alone unless it is pushed, and logs
    one line exactly when it is an error chunk. *)
Lemma on_output_returns (o : OutputItem) (l l' : Locals) :
  on_output rt o l = (Ok tt, l') ->
  error_payload_ok rt o = true /\
  exists lines,
    console l' = (console l ++ lines)%list /\
    length lines = (if is_error o then 1 else 0) /\
    Forall (fun line => String.prefix "Error executing code " line = true) lines.
Proof.
  unfold on_output, error_payload_ok, is_error.
  destruct (String.eqb (mime o) ErrorMimeType); simpl.
  - destruct (JSON_parse rt (TextDecoder_decode rt (data o))) as [v|];
      [|discriminate].
    pose proof (error_line_cases rt v) as C.
    unfold Prog.bind, Prog.lift, Prog.modify.
    destruct (error_line rt v) as [line|e]; simpl; [|discriminate].
    destruct C as [Hok Hline].
    intros E; inversion E; subst; simpl.
    split; [exact Hok|]. exists [line]. repeat split.
    constructor; [exact Hline|constructor].
  - intros E. inversion E; subst. simpl. split; [reflexivity|].
    exists []. rewrite app_nil_r. repeat split. constructor.
Qed.

Lemma for_outputs_returns (outputs : list OutputItem) :
  forall l l',
    for_outputs rt outputs l = (Ok tt, l') ->
    forallb (error_payload_ok rt) outputs = true /\
    exists lines,
      console l' = (console l ++ lines)%list /\
      length lines = length (filter is_error outputs) /\
      Forall (fun line => String.prefix "Error executing code " line = true) lines.
Proof.
  induction outputs as [|o rest IH]; intros l l' H; simpl in *.
  - inversion H; subst. split; [reflexivity|]. exists [].
    rewrite app_nil_r. repeat split. constructor.
  - unfold Prog.bind in H.
    destruct (on_output rt o l) as [[[]|e] l1] eqn:Eo; [|discriminate].
    destruct (on_output_returns o l l1 Eo) as [Hok [lines1 [Hc1 [Hn1 Hp1]]]].
    destruct (IH l1 l' H) as [Hoks [lines2 [Hc2 [Hn2 Hp2]]]].
    split; [now rewrite Hok, Hoks|].
    exists (lines1 ++ lines2)%list. split; [|split].
    + now rewrite Hc2, Hc1, app_assoc.
    + rewrite length_app, Hn1, Hn2. destruct (is_error o); reflexivity.
    + apply Forall_app. split; assumption.
Qed.

Lemma for_await_returns (s : stream) :
  forall l l',
    for_await rt s l = (Ok tt, l') ->
    ends s && forallb (error_payload_ok rt) (chunks s) = true /\
    exists lines,
      console l' = (console l ++ lines)%list /\
      length lines = length (filter is_error (chunks s)) /\
      Forall (fun line => String.prefix "Error executing code " line = true) lines.
Proof.
  induction s as [| |outputs rest IH]; intros l l' H; simpl in *.
  - inversion H; subst. split; [reflexivity|]. exists [].
    rewrite app_nil_r. repeat split. constructor.
  - discriminate.
  - unfold Prog.bind in H.
    destruct (for_outputs rt outputs l) as [[[]|e] l1] eqn:Eo; [|discriminate].
    destruct (for_outputs_returns outputs l l1 Eo)
      as [Hok [lines1 [Hc1 [Hn1 Hp1]]]].
    destruct (IH l1 l' H) as [Hoks [lines2 [Hc2 [Hn2 Hp2]]]].
    apply andb_prop in Hoks as [He Hoks].
    split; [now rewrite He, forallb_app, Hok, Hoks|].
    exists (lines1 ++ lines2)%list. split; [|split].
    + now rewrite Hc2, Hc1, app_assoc.
    + now rewrite length_app, Hn1, Hn2, filter_app, length_app.
    + apply Forall_app. split; assumption.
Qed.

(** X1.  On an output stream that finishes (it ends or rejects after
    finitely many batches), [_runCode] returns a string exactly when the
    stream ends by itself and every error chunk carries the JSON text of a
    value other than null whose [name], [message] and [stack] can be
    converted to strings; in every other case it rejects.  Either way the
    cancellation token source has been disposed when the call is over. *)
Theorem runCode_rejects_exactly_on_failure (kernel : Kernel) (code : string) :
  let s := executeCode kernel code in
  ((exists text, _runCode rt kernel code = Ok text) <->
   ends s && forallb (error_payload_ok rt) (chunks s) = true) /\
  tokenDisposed (snd (_runCode_locals rt kernel code)) = true.
Proof.
  intros s. unfold _runCode, _runCode_locals. fold s.
  pose proof (for_await_pushes rt s
    {| streamingOutput := []; console := []; tokenDisposed := false |}) as Hp.
  destruct (for_await rt s _) as [[[]|e] l] eqn:E; simpl.
  - split; [|reflexivity]. split.
    + intros _. now destruct (for_await_returns s _ _ E) as [H _].
    + intros _. eauto.
  - split; [|reflexivity]. split.
    + intros [text Ht]. discriminate.
    + intros H. rewrite H in Hp. discriminate.
Qed.

(** X2.  When [_runCode] returns, it has written one console line for each
    error chunk and none for any other chunk, and every line starts with
    "Error executing code ". *)
Theorem runCode_logs_each_error_chunk
    (kernel : Kernel) (code : string) (text : string) :
  _runCode rt kernel code = Ok text ->
  let lines := console (snd (_runCode_locals rt kernel code)) in
  length lines = length (filter is_error (chunks (executeCode kernel code))) /\
  Forall (fun line => String.prefix "Error executing code " line = true) lines.
Proof.
  unfold _runCode, _runCode_locals.
  destruct (for_await rt (executeCode kernel code) _) as [[[]|e] l] eqn:E;
    simpl; [|discriminate].
  intros _. destruct (for_await_returns _ _ _ E) as [_ [lines [Hc [Hn Hp]]]].
  simpl in Hc. rewrite Hc. split; assumption.
Qed.

Lemma for_outputs_app (a b : list OutputItem) (l : Locals) :
  for_outputs rt (a ++ b) l = (for_outputs rt a ;; for_outputs rt b) l.
Proof.
  revert l. induction a as [|o a IH]; intros l; simpl.
  - reflexivity.
  - unfold Prog.bind. destruct (on_output rt o l) as [[[]|e] l1]; [|reflexivity].
    rewrite IH. reflexivity.
Qed.

Lemma for_await_flat (s : stream) :
  ends s = true -> forall l, for_await rt s l = for_outputs rt (chunks s) l.
Proof.
  induction s as [| |outputs rest IH]; intros He l; simpl in *.
  - reflexivity.
  - discriminate.
  - rewrite for_outputs_app. unfold Prog.bind.
    destruct (for_outputs rt outputs l) as [[[]|e] l1]; [|reflexivity].
    now apply IH.
Qed.

(** X3.  How the kernel groups its chunks into batches does not matter: two
    output streams that end and deliver the same chunks in the same order
    give the same result (returned text or exception) and the same console
    lines. *)
Theorem runCode_ignores_batching
    (kernel1 kernel2 : Kernel) (code1 code2 : string) :
  ends (executeCode kernel1 code1) = true ->
  ends (executeCode kernel2 code2) = true ->
  chunks (executeCode kernel1 code1) = chunks (executeCode kernel2 code2) ->
  _runCode_locals rt kernel1 code1 = _runCode_locals rt kernel2 code2.
Proof.
  intros H1 H2 Hc. unfold _runCode_locals.
  rewrite (for_await_flat _ H1), (for_await_flat _ H2), Hc. reflexivity.
Qed.

End RunnerMore.

(* ================================================================== *)
(** * More on the webview renderer                                     *)
(* ================================================================== *)

Section AppMore.
Import Grid (GridColumn, Item, GridCell, GridCellKind) App.
Context (rt : Runtime).

(** X4.  An update whose payload has a [columns] array but no [data] (or a
    null one) makes the listener throw a TypeError before the row count is
    set: the row count stays the old one, the grid is not told to redraw
    and nothing is posted.  The state cells the listener did set are never
    shown: the next evaluation of the component's body throws a TypeError
    on [data.length]. *)
Theorem update_without_data_stops_half_way
    (mounted : bool) (columns : list jsval) (d missing : jsval) (s : State) :
  get rt d "columns" = Ok (JArr columns) ->
  get rt d "data" = Ok missing ->
  Extension.nullish missing = true ->
  let s' := Prog.exec (on_message rt mounted (update_message d)) s in
  Prog.eval (on_message rt mounted (update_message d)) s = Throw TypeError /\
  rows s' = rows s /\
  updateCells_calls s' = updateCells_calls s /\
  sent s' = sent s /\
  render rt s' = Throw TypeError.
Proof.
  intros Hc Hd Hn s'. subst s'.
  unfold Prog.exec, Prog.eval, on_message, update_message, Prog.bind, Prog.lift.
  simpl. rewrite Hc. simpl. rewrite Hd. simpl.
  destruct missing; try discriminate; simpl; repeat split.
Qed.

Lemma nth_error_map_JArr (matrix : list (list jsval)) (i : nat) :
  nth_error (map JArr matrix) i = option_map JArr (nth_error matrix i).
Proof. apply nth_error_map. Qed.

(** X5.  After an update with [C] column names whose rows all hold at least
    [C] cells, every cell the grid was told to redraw is found by the
    lookup, which reads the value [v] at that place of the new matrix: it
    returns a text cell, without overlay, whose data and displayData are
    [String(v)] when [v] is printable, and throws a TypeError when [v]
    cannot be converted to a string. *)
Theorem redrawn_cells_are_fetchable
    (names : list string) (matrix : list (list jsval)) (d : jsval) (s : State) :
  get rt d "columns" = Ok (JArr (map JStr names)) ->
  get rt d "data" = Ok (JArr (map JArr matrix)) ->
  Forall (fun r => length names <= length r) matrix ->
  let s' := Prog.exec (on_message rt true (update_message d)) s in
  forall j i,
    In (j, i) (last (updateCells_calls s') []) ->
    exists v,
      cell_at matrix j i = Some v /\
      if printable v then
        exists text,
          to_string v = Ok text /\
          getData rt s' (j, i)
          = Ok {| Grid.kind := Grid.Text; Grid.data := text;
                  Grid.allowOverlay := false; Grid.displayData := text |}
      else getData rt s' (j, i) = Throw TypeError.
Proof.
  intros Hc Hd Hrect s' j i Hin. subst s'. unfold Prog.exec in *.
  rewrite (on_message_update rt names (map JArr matrix) d s Hc Hd) in *.
  cbn [snd updateCells_calls data] in *.
  rewrite last_last in Hin. rewrite length_map in Hin.
  apply grid_cells_in in Hin as [Hj Hi].
  destruct (nth_error matrix i) as [r|] eqn:Er;
    [|apply nth_error_None in Er; lia].
  assert (Hr : length names <= length r).
  { rewrite Forall_forall in Hrect. apply Hrect. eapply nth_error_In; eauto. }
  destruct (nth_error r j) as [v|] eqn:Ev;
    [|apply nth_error_None in Ev; lia].
  exists v. split.
  - unfold cell_at. now rewrite Er.
  - unfold getData. simpl. rewrite nth_error_map_JArr, Er. simpl.
    rewrite Ev. simpl. pose proof (to_string_cases v) as C.
    destruct (printable v).
    + destruct C as [text Ht]. exists text. now rewrite Ht.
    + now rewrite C.
Qed.

(** X6.  What the host answers when it holds fetched values of the protocol
    shape is processed by the renderer without an exception, into as many
    columns as there are names and as many rows as there are data rows. *)
Theorem fetched_values_fill_the_grid
    (i : nat) (w : Panel.World) (names : list string) (rowvals : list jsval)
    (d : jsval) (s : State) :
  Panel.panel_disposed (Panel.instance i w) = false ->
  Panel._values (Panel.instance i w) = Some d ->
  get rt d "columns" = Ok (JArr (map JStr names)) ->
  get rt d "data" = Ok (JArr rowvals) ->
  exists reply,
    Panel._refresh i w = (Ok tt, Panel.logged [Panel.PostMessage i reply] w) /\
    Prog.eval (on_message rt true reply) s = Ok tt /\
    let s' := Prog.exec (on_message rt true reply) s in
    length (gridColumns s') = length names /\
    rows s' = JNum (Z.of_nat (length rowvals)) /\
    data s' = JArr rowvals.
Proof.
  intros Hd Hv Hc Hdata. exists (update_message d). split.
  - rewrite refresh_eq, Hd, Hv. unfold update_message.
    destruct d; simpl in Hc; try discriminate; reflexivity.
  - unfold Prog.eval, Prog.exec.
    rewrite (on_message_update rt names rowvals d s Hc Hdata). simpl.
    now rewrite length_map.
Qed.

End AppMore.

(* ================================================================== *)
(** * More on the panel controller                                     *)
(* ================================================================== *)

Section PanelMore.
Import Runner CodeGen Panel Lifecycle.
Context (rt : Runtime).
Context (initializeCode webviewContent : string).

Ltac step_in R :=
  unfold Prog.bind at 1 in R;
  cbn [Prog.modify Prog.ret Prog.lift Prog.throw update tell
       set_currentPanel fst snd] in R.

Ltac lengths :=
  repeat (rewrite length_logged || rewrite length_pointed
          || rewrite length_bumped || rewrite length_changed
          || rewrite length_subscribed);
  try assumption; try lia.

Ltac at_instance :=
  cbn [fst snd]; unfold subscribed;
  repeat (rewrite instance_logged || rewrite instance_pointed
          || rewrite instance_bumped
          || (rewrite instance_changed_same by lengths)
          || (rewrite instance_changed_other by congruence)).

(** ** The fetch, when it goes wrong *)

(** X8.  When the schema request fails, because the run rejects or because
    its output is not JSON, the callback of [initialize] rejects with that
    error after this one kernel request: no instance is changed, so the
    panel keeps no columns, no content and no message listener. *)
Theorem schema_failure_leaves_the_panel_blank
    (i : nat) (variable : string) (kernel : Kernel) (w : World) (e : error) :
  let code := _generateCodeForDataFrameColumns initializeCode variable in
  (_runCode rt kernel code = Throw e \/
   (e = SyntaxError /\
    exists text, _runCode rt kernel code = Ok text /\ JSON_parse rt text = None)) ->
  let r := initialize_then rt initializeCode webviewContent i variable
             (Some kernel) w in
  fst r = Throw e /\
  instances (snd r) = instances w /\
  currentPanel (snd r) = currentPanel w /\
  exists lines,
    trace (snd r) = (trace w ++ Execute i code :: map ConsoleLog lines)%list.
Proof.
  intros code H r. subst r.
  remember (initialize_then rt initializeCode webviewContent i variable
              (Some kernel) w) as res eqn:R.
  unfold initialize_then in R. fold code in R.
  step_in R. rewrite run_code_eq in R.
  destruct H as [H|[He [text [H Hp]]]]; rewrite H in R.
  - subst res. simpl. repeat split. eauto.
  - step_in R. unfold JSON_parse_or_throw at 1 in R. rewrite Hp in R.
    subst res e. simpl. repeat split. eauto.
Qed.

(** ** Commands that only add effects *)

Lemma grows_ret {A} (a : A) : grows (Prog.ret (S := World) a).
Proof. intros w. exists []. simpl. now rewrite app_nil_r. Qed.

Lemma grows_throw {A} (e : error) : grows (Prog.throw (S := World) (A := A) e).
Proof. intros w. exists []. simpl. now rewrite app_nil_r. Qed.

Lemma grows_lift {A} (o : outcome A) : grows (Prog.lift (S := World) o).
Proof. intros w. exists []. simpl. now rewrite app_nil_r. Qed.

Lemma grows_this (i : nat) : grows (this i).
Proof. intros w. exists []. simpl. now rewrite app_nil_r. Qed.

Lemma grows_tell (e : Effect) : grows (tell e).
Proof. intros w. exists [e]. reflexivity. Qed.

Lemma grows_update (i : nat) (f : Instance -> Instance) : grows (update i f).
Proof. intros w. exists []. simpl. now rewrite app_nil_r. Qed.

Lemma grows_bind {A B} (m : M A) (k : A -> M B) :
  grows m -> (forall a, grows (k a)) -> grows (Prog.bind m k).
Proof.
  intros Hm Hk w. unfold Prog.bind. destruct (Hm w) as [es1 H1].
  destruct (m w) as [[a|e] w1]; simpl in *; [|eauto].
  destruct (Hk a w1) as [es2 H2]. exists (es1 ++ es2)%list.
  now rewrite H2, H1, app_assoc.
Qed.

Lemma grows_subscribe (ev : EventKind) (i : nat) : grows (subscribe ev i).
Proof. intros w. rewrite subscribe_eq. eexists. reflexivity. Qed.

Lemma grows_run_code (i : nat) (kernel : Kernel) (code : string) :
  grows (run_code rt i kernel code).
Proof. intros w. rewrite run_code_eq. eexists. reflexivity. Qed.

Lemma grows_parse (text : string) : grows (JSON_parse_or_throw rt text).
Proof.
  unfold JSON_parse_or_throw.
  destruct (JSON_parse rt text); [apply grows_ret|apply grows_throw].
Qed.

Lemma grows_initializeWebview (i : nat) :
  grows (_initializeWebview webviewContent i).
Proof.
  unfold _initializeWebview. apply grows_bind; [apply grows_this|]. intros p.
  destruct (panel_disposed p); [apply grows_throw|].
  apply grows_bind; [apply grows_update|]. intros _.
  apply grows_bind; [apply grows_tell|]. intros _. apply grows_subscribe.
Qed.

Lemma grows_keeps {A} (m : M A) (x : Effect) (w : World) :
  grows m -> In x (trace w) -> In x (trace (snd (m w))).
Proof.
  intros Hm Hin. destruct (Hm w) as [es H]. rewrite H.
  apply in_or_app. now left.
Qed.

(** X9.  When the parsed schema is an object without a [rowCount], the rows
    request is issued all the same, asking for rows 0 to NaN. *)
Theorem rows_request_without_rowCount
    (i : nat) (variable : string) (kernel : Kernel) (w : World)
    (text : string) (fields : list (string * jsval)) :
  _runCode rt kernel (_generateCodeForDataFrameColumns initializeCode variable)
  = Ok text ->
  JSON_parse rt text = Some (JObj fields) ->
  lookup "rowCount" fields = None ->
  let w' := Prog.exec (initialize_then rt initializeCode webviewContent i
                         variable (Some kernel)) w in
  In (Execute i (_generateCodeForDataFrameRows initializeCode variable (Int 0) NaN))
     (trace w') /\
  _generateCodeForDataFrameRows initializeCode variable (Int 0) NaN
  = initializeCode ++ blank_line
      ++ "_VSCODE_getDataFrame(" ++ dquote ++ "rows" ++ dquote ++ ", False, "
      ++ variable ++ ", 0, NaN)" ++ blank_line ++ cleanup_block.
Proof.
  intros H1 Hp Hl w'. split.
  2:{ unfold _generateCodeForDataFrameRows. rewrite !append_assoc. reflexivity. }
  subst w'. unfold Prog.exec.
  remember (initialize_then rt initializeCode webviewContent i variable
              (Some kernel) w) as res eqn:R.
  unfold initialize_then in R.
  step_in R. rewrite run_code_eq, H1 in R.
  step_in R. unfold JSON_parse_or_throw at 1 in R. rewrite Hp in R.
  step_in R. step_in R. step_in R.
  cbn [get] in R. rewrite Hl in R. step_in R. cbn [ToNumber sub] in R.
  step_in R. rewrite run_code_eq in R.
  destruct (_runCode rt kernel
              (_generateCodeForDataFrameRows initializeCode variable (Int 0) NaN))
    as [text2|e2]; subst res.
  - apply grows_keeps.
    + repeat first
        [ progress cbv beta zeta
        | apply grows_run_code | apply grows_parse | apply grows_tell
        | apply grows_lift | apply grows_initializeWebview | apply grows_update
        | apply grows_bind; [|intros ?] ].
    + cbn [trace logged]. apply in_or_app. right. now left.
  - cbn [snd trace logged]. apply in_or_app. right. now left.
Qed.

(** ** Disposal *)

(** X10.  In every state the extension can reach, the listeners subscribed
    on an instance's panel are exactly the handles kept in its
    [_disposables]: nothing that was subscribed escapes disposal. *)
Theorem every_listener_is_tracked (ops : list Op) (i : nat) :
  let w := run rt initializeCode webviewContent ops initial in
  listeners (instance i w) = _disposables (instance i w).
Proof.
  intros w. apply inv_registered. apply Inv_run, Inv_initial.
Qed.

(** X11.  [dispose] calls [dispose()] on the disposables of the instance
    one by one from the last registered to the first, each once, and
    nothing else is released. *)
Theorem dispose_releases_in_reverse_order (i : nat) (w : World) :
  i < length (instances w) ->
  trace (Prog.exec (dispose i) w)
  = (trace w ++ map (Release i) (rev (_disposables (instance i w))))%list.
Proof.
  intros Hi. unfold Prog.exec. rewrite dispose_eq by assumption. reflexivity.
Qed.

(** X12.  A second [dispose] on the same instance returns normally and
    changes nothing. *)
Theorem dispose_twice_is_dispose_once (i : nat) (w : World) :
  i < length (instances w) ->
  let w' := Prog.exec (dispose i) w in
  dispose i w' = (Ok tt, w').
Proof.
  intros Hi w'. subst w'. unfold Prog.exec.
  rewrite (dispose_eq i w Hi). cbn [snd].
  rewrite dispose_eq by (unfold disposed_world, released; lengths).
  now rewrite disposed_world_again.
Qed.

Lemma Inv_none_open (w : World) : Inv w -> currentPanel w = None -> live w = [].
Proof.
  intros HI Hc. destruct (live w) as [|x l] eqn:E; [reflexivity|].
  assert (Hx : In x (live w)) by (rewrite E; now left).
  apply live_alive in Hx. apply (inv_alive_current w HI) in Hx. congruence.
Qed.

Lemma close_open_panel (i : nat) (w : World) :
  Inv w -> alive i w ->
  Prog.exec (step rt initializeCode webviewContent (OpClose i)) w
  = disposed_world i (changed i (set_panel_disposed true) w).
Proof.
  intros HI [Hi Hd]. unfold Prog.exec. cbn [step].
  rewrite close_eq by assumption. cbn [snd]. rewrite Hd.
  destruct (Nat.ltb_spec i (length (instances w))); [reflexivity|lia].
Qed.

(** X13.  When the user closes the open panel, in any state the extension
    can reach, the panel's own onDidDispose listener runs [dispose]: the
    static [currentPanel] is cleared, no panel is left open, and the
    instance keeps no listener and no disposable, each of them having been
    released once. *)
Theorem closing_the_panel_disposes_the_instance (ops : list Op) (i : nat) :
  let w := run rt initializeCode webviewContent ops initial in
  alive i w ->
  let w' := Prog.exec (step rt initializeCode webviewContent (OpClose i)) w in
  currentPanel w' = None /\
  live w' = [] /\
  panel_disposed (instance i w') = true /\
  listeners (instance i w') = [] /\
  _disposables (instance i w') = [] /\
  trace w' = (trace w ++ map (Release i) (rev (_disposables (instance i w))))%list.
Proof.
  intros w Ha w'.
  assert (HI : Inv w) by (apply Inv_run, Inv_initial).
  assert (HI' : Inv w') by (apply Inv_step, HI).
  assert (E : w' = disposed_world i (changed i (set_panel_disposed true) w))
    by (apply close_open_panel; assumption).
  destruct Ha as [Hi Hd].
  assert (Hc : currentPanel w' = None) by (rewrite E; reflexivity).
  split; [exact Hc|]. split; [now apply Inv_none_open|].
  rewrite E. unfold disposed_world, released.
  split; [now at_instance|].
  split.
  { at_instance. simpl. apply nothing_survives.
    rewrite (inv_registered w HI). apply incl_refl. }
  split; [now at_instance|].
  cbn [trace logged changed pointed]. now at_instance.
Qed.

(** X14.  After the open panel was closed, the next [render] constructs a
    new panel, which is then the current one and the only one open; the
    closed instance is not reused. *)
Theorem render_after_close_constructs_anew
    (ops : list Op) (i : nat) (env : Env) (variable : option string) :
  let w := run rt initializeCode webviewContent ops initial in
  alive i w ->
  let w2 := run rt initializeCode webviewContent
              [OpClose i; OpRender env variable] w in
  let n := length (instances w) in
  currentPanel w2 = Some n /\
  live w2 = [n] /\
  length (instances w2) = S n /\
  panel_disposed (instance i w2) = true.
Proof.
  intros w Ha w2 n.
  assert (HI : Inv w) by (apply Inv_run, Inv_initial).
  set (w1 := Prog.exec (step rt initializeCode webviewContent (OpClose i)) w).
  assert (HI1 : Inv w1) by (apply Inv_step, HI).
  assert (E1 : w1 = disposed_world i (changed i (set_panel_disposed true) w))
    by (apply close_open_panel; assumption).
  assert (Hc1 : currentPanel w1 = None) by (rewrite E1; reflexivity).
  assert (Hl1 : length (instances w1) = n).
  { rewrite E1. unfold disposed_world, released. lengths. }
  assert (Hd1 : panel_disposed (instance i w1) = true).
  { destruct Ha as [Hi _]. rewrite E1. unfold disposed_world, released.
    now at_instance. }
  assert (E2 : w2 = Prog.exec (render webviewContent env variable) w1)
    by reflexivity.
  destruct (render_new webviewContent env variable w1 Hc1) as [w3 [Er Hs]].
  rewrite Hl1 in Er, Hs.
  assert (Ew2 : w2 = pointed (Some n) w3).
  { rewrite E2. unfold Prog.exec. now rewrite Er. }
  assert (HI2 : Inv w2).
  { rewrite E2. apply (Inv_render webviewContent env variable w1 HI1). }
  assert (Hc2 : currentPanel w2 = Some n) by (rewrite Ew2; reflexivity).
  split; [exact Hc2|]. split; [now apply Inv_exactly_one|].
  assert (Hs13 : safe (logged [CreatePanel n] (extended w1)) w3).
  { eapply safe_trans; [apply safe_subscribed|exact Hs]. }
  destruct Hs13 as [_ [Hlen Hinst]].
  split.
  - rewrite Ew2, length_pointed, Hlen, length_logged, length_extended. lia.
  - rewrite Ew2, instance_pointed. destruct (Hinst i) as [Hd _]. rewrite Hd.
    rewrite instance_logged, instance_extended_old; [exact Hd1|].
    destruct Ha as [Hi _]. lia.
Qed.

(** ** Construction *)

Lemma render_new_eq (env : Env) (variable : option string) (w : World) :
  currentPanel w = None ->
  let n := length (instances w) in
  let w2 := subscribed DidDispose n (logged [CreatePanel n] (extended w)) in
  render webviewContent env variable w
  = (Ok tt,
     pointed (Some n)
       (if starts_fetch env variable
        then changed n (set_awaiting variable) w2
        else subscribed DidReceiveMessage n
               (logged [SetHtml n]
                  (changed n (set_html (Some webviewContent)) w2)))).
Proof.
  intros Hc n w2. unfold render. unfold Prog.bind at 1. cbn [Prog.read].
  rewrite Hc. unfold createWebviewPanel.
  unfold Prog.bind at 1. unfold Prog.bind at 1. cbn [Prog.read].
  unfold Prog.bind at 1. cbn [Prog.modify].
  unfold Prog.bind at 1. cbn [tell Prog.modify Prog.ret].
  fold n. unfold constructor.
  unfold Prog.bind at 1. unfold Prog.bind at 1. rewrite subscribe_eq.
  fold w2.
  assert (Hd2 : panel_disposed (instance n w2) = false).
  { subst w2. unfold subscribed.
    rewrite instance_logged.
    rewrite instance_changed_same
      by (rewrite length_bumped, length_logged, length_extended; lia).
    rewrite instance_bumped, instance_logged.
    now rewrite instance_extended_new by lia. }
  unfold starts_fetch.
  destruct (jupyterApi env), (activeNotebook env), variable as [[|c v]|];
    cbn [truthy andb];
    first [ rewrite initializeWebview_eq, Hd2; reflexivity | reflexivity ].
Qed.

Lemma new_panel_instance (w : World) :
  let n := length (instances w) in
  let w2 := subscribed DidDispose n (logged [CreatePanel n] (extended w)) in
  length (instances w2) = S n /\
  instance n w2
  = set_listeners [{| sub_id := next_sub w; sub_event := DidDispose |}]
      (set_disposables [{| sub_id := next_sub w; sub_event := DidDispose |}]
         blank) /\
  forall j, j <> n -> instance j w2 = instance j (extended w).
Proof.
  intros n w2. subst w2. split; [|split].
  - rewrite length_subscribed, length_logged, length_extended. reflexivity.
  - unfold subscribed. rewrite instance_logged.
    rewrite instance_changed_same
      by (rewrite length_bumped, length_logged, length_extended; lia).
    rewrite instance_bumped, instance_logged.
    now rewrite instance_extended_new by lia.
  - intros j Hj. unfold subscribed. rewrite instance_logged.
    rewrite instance_changed_other by congruence.
    now rewrite instance_bumped, instance_logged.
Qed.

(** X15.  A newly constructed panel starts the fetch, leaving the webview
    without content and without message listener until the kernel answers,
    exactly when the Jupyter API, an active notebook and a non-empty
    variable name are all present (an empty name counts as none); in every
    other case its content and its one message listener are set during
    construction. *)
Theorem construction_initializes_or_waits
    (env : Env) (variable : option string) (w : World) :
  currentPanel w = None ->
  let p := instance (length (instances w))
             (Prog.exec (render webviewContent env variable) w) in
  panel_disposed p = false /\
  if starts_fetch env variable
  then webview_html p = None /\ message_listeners p = [] /\
       awaiting_kernel p = variable
  else webview_html p = Some webviewContent /\
       length (message_listeners p) = 1 /\ awaiting_kernel p = None.
Proof.
  intros Hc p. subst p. unfold Prog.exec.
  rewrite (render_new_eq env variable w Hc). cbn [snd].
  destruct (new_panel_instance w) as [Hl [Hn _]].
  set (n := length (instances w)) in *.
  set (w2 := subscribed DidDispose n (logged [CreatePanel n] (extended w))) in *.
  rewrite instance_pointed.
  destruct (starts_fetch env variable).
  - rewrite instance_changed_same by lia. rewrite Hn. repeat split.
  - match goal with
    | |- context [instance n ?W] =>
        assert (E : exists d,
                  instance n W
                  = set_listeners (listeners (set_html (Some webviewContent)
                                                (instance n w2)) ++ [d])
                      (set_disposables
                         (_disposables (set_html (Some webviewContent)
                                          (instance n w2)) ++ [d])
                         (set_html (Some webviewContent) (instance n w2))) /\
                  sub_event d = DidReceiveMessage)
    end.
    { eexists. split.
      - unfold subscribed at 1. rewrite instance_logged.
        rewrite instance_changed_same
          by (rewrite length_bumped, length_logged, length_changed; lia).
        rewrite instance_bumped, instance_logged.
        rewrite instance_changed_same by lia. reflexivity.
      - reflexivity. }
    destruct E as [d [E Hk]]. rewrite E, Hn. simpl.
    unfold message_listeners, is_kind. simpl. rewrite Hk. repeat split.
Qed.

(** ** Content and message listener go together *)

Lemma ready_blank : ready blank.
Proof. intros _. left. split; reflexivity. Qed.

Lemma ready_same_but_data (p p' : Instance) :
  same_but_data p p' -> ready p -> ready p'.
Proof.
  intros [_ [Hd [Hh [Hl Ha]]]] Hr. unfold ready, message_listeners in *.
  rewrite Hd, Hh, Hl, Ha. exact Hr.
Qed.

Lemma message_listeners_snoc (p : Instance) (l : list Disposable) (d : Disposable) :
  sub_event d = DidReceiveMessage ->
  filter (is_kind DidReceiveMessage) (l ++ [d])
  = (filter (is_kind DidReceiveMessage) l ++ [d])%list.
Proof.
  intros Hk. rewrite filter_app. simpl. unfold is_kind at 2. now rewrite Hk.
Qed.

(** What the callback of [initialize] can do to the instances. *)
Lemma initialize_then_shape
    (i : nat) (variable : string) (kernel : Kernel) (w : World) :
  i < length (instances w) ->
  let w' := snd (initialize_then rt initializeCode webviewContent i variable
                   (Some kernel) w) in
  length (instances w') = length (instances w) /\
  (forall j, j <> i -> instance j w' = instance j w) /\
  (same_but_data (instance i w) (instance i w') \/
   (panel_disposed (instance i w) = false /\
    exists p1 d,
      same_but_data (instance i w) p1 /\
      sub_event d = DidReceiveMessage /\
      instance i w'
      = set_listeners (listeners p1 ++ [d])
          (set_disposables (_disposables p1 ++ [d])
             (set_html (Some webviewContent) p1)))).
Proof.
  intros Hi w'. subst w'.
  remember (initialize_then rt initializeCode webviewContent i variable
              (Some kernel) w) as res eqn:R.
  unfold initialize_then in R.
  step_in R. rewrite run_code_eq in R.
  assert (Hsame : forall p, same_but_data p p) by (intros p; repeat split).
  destruct (_runCode rt kernel _) as [text1|e1].
  2:{ subst res. cbn [snd]. split; [lengths|]. split; [intros j Hj; now at_instance|].
      left. at_instance. apply Hsame. }
  step_in R. unfold JSON_parse_or_throw at 1 in R.
  destruct (JSON_parse rt text1) as [cols|].
  2:{ subst res. cbn [snd Prog.throw]. split; [lengths|].
      split; [intros j Hj; now at_instance|]. left. at_instance. apply Hsame. }
  step_in R. step_in R. step_in R.
  destruct (get rt cols "rowCount") as [rowCount|e].
  2:{ subst res. cbn [snd]. split; [lengths|].
      split; [intros j Hj; now at_instance|]. left. at_instance. repeat split. }
  step_in R.
  destruct (ToNumber rt rowCount) as [n|e].
  2:{ subst res. cbn [snd]. split; [lengths|].
      split; [intros j Hj; now at_instance|]. left. at_instance. repeat split. }
  step_in R. rewrite run_code_eq in R.
  destruct (_runCode rt kernel _) as [text2|e2].
  2:{ subst res. cbn [snd]. split; [lengths|].
      split; [intros j Hj; now at_instance|]. left. at_instance. repeat split. }
  step_in R. unfold JSON_parse_or_throw at 1 in R.
  destruct (JSON_parse rt text2) as [vals|].
  2:{ subst res. cbn [snd Prog.throw]. split; [lengths|].
      split; [intros j Hj; now at_instance|]. left. at_instance. repeat split. }
  step_in R. step_in R.
  rewrite initializeWebview_eq in R.
  match type of R with
  | context [panel_disposed (instance i ?W)] =>
      assert (E : instance i W
                  = set_values (Some vals) (set_columns (Some cols) (instance i w)))
        by now at_instance
  end.
  rewrite E in R.
  destruct (panel_disposed (instance i w)) eqn:Hd; cbn [panel_disposed set_values
    set_columns] in R; rewrite Hd in R.
  { subst res. cbn [snd]. split; [lengths|].
    split; [intros j Hj; now at_instance|]. left. at_instance. repeat split. }
  subst res. cbn [snd]. split; [lengths|].
  split; [intros j Hj; now at_instance|]. right. split; [reflexivity|].
  eexists (set_values (Some vals) (set_columns (Some cols) (instance i w))).
  eexists. split; [repeat split|]. split; [|at_instance; reflexivity].
  reflexivity.
Qed.

Lemma ready_after_kernel (i : nat) (kernel : option Kernel) (w : World) :
  (forall j, ready (instance j w)) ->
  forall j,
    ready (instance j
             (Prog.exec (step rt initializeCode webviewContent (OpKernel i kernel)) w)).
Proof.
  intros HR j. unfold Prog.exec. cbn [step].
  unfold Prog.bind at 1. rewrite this_eq.
  destruct (awaiting_kernel (instance i w)) as [variable|] eqn:Ha;
    [|apply HR].
  assert (Hi : i < length (instances w)).
  { destruct (Nat.lt_ge_cases i (length (instances w))) as [H|H]; [assumption|].
    rewrite instance_beyond in Ha by assumption. discriminate. }
  unfold Prog.bind at 1. cbn [update Prog.modify].
  set (w1 := changed i (set_awaiting None) w).
  assert (Hi1 : i < length (instances w1)) by (subst w1; lengths).
  assert (Hp1 : instance i w1 = set_awaiting None (instance i w))
    by (subst w1; now at_instance).
  assert (Hblank : panel_disposed (instance i w1) = false ->
                   webview_html (instance i w1) = None /\
                   message_listeners (instance i w1) = []).
  { rewrite Hp1. simpl. intros Hd.
    destruct (HR i Hd) as [H|[_ [_ H]]]; [exact H|congruence]. }
  assert (HR1 : forall k, ready (instance k w1)).
  { intros k. destruct (Nat.eq_dec k i) as [->|Hne].
    - intros Hd. left. now apply Hblank.
    - subst w1. rewrite instance_changed_other by congruence. apply HR. }
  destruct kernel as [kernel|]; [|apply HR1].
  destruct (initialize_then_shape i variable kernel w1 Hi1)
    as [_ [Hother Hself]].
  destruct (Nat.eq_dec j i) as [->|Hne];
    [|rewrite Hother by assumption; apply HR1].
  destruct Hself as [Hs|[Hd [p1 [d [Hs [Hk E]]]]]].
  - eapply ready_same_but_data; [exact Hs|apply HR1].
  - rewrite E. intros _. right.
    destruct (Hblank Hd) as [Hh Hm].
    destruct Hs as [_ [_ [_ [Hl Haw]]]].
    unfold message_listeners in *. simpl.
    rewrite (message_listeners_snoc p1 _ d Hk), Hl, Hm.
    split; [discriminate|]. split; [reflexivity|].
    rewrite Haw, Hp1. reflexivity.
Qed.

Lemma construction_ready (env : Env) (variable : option string) (w : World) :
  currentPanel w = None ->
  ready (instance (length (instances w))
           (Prog.exec (render webviewContent env variable) w)).
Proof.
  intros Hc. unfold Prog.exec.
  rewrite (render_new_eq env variable w Hc). cbn [snd].
  destruct (new_panel_instance w) as [Hl [Hn _]].
  set (n := length (instances w)) in *.
  set (w2 := subscribed DidDispose n (logged [CreatePanel n] (extended w))) in *.
  rewrite instance_pointed. intros _.
  destruct (starts_fetch env variable).
  - left. rewrite instance_changed_same by lia. rewrite Hn. split; reflexivity.
  - right.
    match goal with
    | |- context [instance n ?W] =>
        assert (E : exists d,
                  instance n W
                  = set_listeners (listeners (set_html (Some webviewContent)
                                                (instance n w2)) ++ [d])
                      (set_disposables
                         (_disposables (set_html (Some webviewContent)
                                          (instance n w2)) ++ [d])
                         (set_html (Some webviewContent) (instance n w2))) /\
                  sub_event d = DidReceiveMessage)
    end.
    { eexists. split.
      - unfold subscribed at 1. rewrite instance_logged.
        rewrite instance_changed_same
          by (rewrite length_bumped, length_logged, length_changed; lia).
        rewrite instance_bumped, instance_logged.
        rewrite instance_changed_same by lia. reflexivity.
      - reflexivity. }
    destruct E as [d [E Hk]]. rewrite E, Hn. simpl.
    unfold message_listeners, is_kind. simpl. rewrite Hk.
    split; [discriminate|]. split; reflexivity.
Qed.

Lemma on_message_logs (i : nat) (message : jsval) (w : World) :
  snd (on_message rt i message w)
  = if is_request rt message && negb (panel_disposed (instance i w))
    then logged [PostMessage i (update_reply (_values (instance i w)))] w
    else w.
Proof.
  unfold on_message, is_request, Prog.bind, Prog.lift.
  destruct (get rt message "command") as [c|e]; [|reflexivity].
  destruct (is_string c "refresh"); simpl.
  - rewrite refresh_eq. now destruct (panel_disposed (instance i w)).
  - destruct (is_string c "connected"); simpl; [|reflexivity].
    rewrite refresh_eq. now destruct (panel_disposed (instance i w)).
Qed.

Lemma deliver_instances (i : nat) (message : jsval) (w : World) :
  instances (snd (deliver rt i message w)) = instances w.
Proof.
  unfold deliver. unfold Prog.bind at 1. rewrite this_eq.
  destruct (panel_disposed (instance i w)); [reflexivity|].
  generalize (filter (is_kind DidReceiveMessage) (listeners (instance i w))).
  intros l. revert w. induction l as [|d l IH]; intros w; simpl; [reflexivity|].
  unfold Prog.bind, guarded. cbn [fst snd]. rewrite IH.
  rewrite on_message_logs.
  destruct (is_request rt message && negb (panel_disposed (instance i w)));
    reflexivity.
Qed.

Lemma ready_step (op : Op) (w : World) :
  Inv w -> (forall j, ready (instance j w)) ->
  forall j,
    ready (instance j (Prog.exec (step rt initializeCode webviewContent op) w)).
Proof.
  intros HI HR j. destruct op as [env variable|i|i kernel|i message].
  - unfold Prog.exec. cbn [step].
    destruct (currentPanel w) as [i|] eqn:Hc.
    + destruct (inv_current_alive w HI i Hc) as [_ Hd].
      rewrite (render_existing webviewContent env variable i w Hc Hd).
      apply HR.
    + rewrite (render_new_eq env variable w Hc). cbn [snd].
      pose proof (construction_ready env variable w Hc) as Hnew.
      unfold Prog.exec in Hnew. rewrite (render_new_eq env variable w Hc) in Hnew.
      cbn [snd] in Hnew.
      destruct (new_panel_instance w) as [Hl [_ Hold]].
      set (n := length (instances w)) in *.
      set (w2 := subscribed DidDispose n (logged [CreatePanel n] (extended w))) in *.
      destruct (Nat.eq_dec j n) as [->|Hne]; [exact Hnew|].
      rewrite instance_pointed.
      assert (E : instance j (if starts_fetch env variable
                              then changed n (set_awaiting variable) w2
                              else subscribed DidReceiveMessage n
                                     (logged [SetHtml n]
                                        (changed n (set_html (Some webviewContent)) w2)))
                  = instance j w2).
      { destruct (starts_fetch env variable).
        - now rewrite instance_changed_other by congruence.
        - unfold subscribed at 1. rewrite instance_logged.
          rewrite instance_changed_other by congruence.
          rewrite instance_bumped, instance_logged.
          now rewrite instance_changed_other by congruence. }
      rewrite E, Hold by assumption.
      destruct (Nat.lt_ge_cases j n) as [Hj|Hj].
      * rewrite instance_extended_old by assumption. apply HR.
      * rewrite instance_extended_new by assumption. apply ready_blank.
  - destruct (Nat.lt_ge_cases i (length (instances w))) as [Hi|Hi].
    + destruct (panel_disposed (instance i w)) eqn:Hd.
      * unfold Prog.exec. cbn [step]. rewrite close_eq by assumption.
        cbn [snd]. rewrite Hd. apply HR.
      * rewrite close_open_panel by (assumption || (split; assumption)).
        unfold disposed_world, released.
        destruct (Nat.eq_dec j i) as [->|Hne].
        -- intros Hopen. exfalso. revert Hopen. at_instance. simpl. discriminate.
        -- at_instance. apply HR.
    + unfold Prog.exec. cbn [step]. rewrite close_eq by assumption. cbn [snd].
      destruct (panel_disposed (instance i w)); [apply HR|].
      destruct (Nat.ltb_spec i (length (instances w))); [lia|apply HR].
  - now apply ready_after_kernel.
  - unfold Prog.exec. cbn [step]. unfold instance.
    rewrite deliver_instances. apply HR.
Qed.

Lemma ready_run (ops : list Op) :
  forall w, Inv w -> (forall j, ready (instance j w)) ->
            forall j, ready (instance j (run rt initializeCode webviewContent ops w)).
Proof.
  induction ops as [|op ops IH]; intros w HI HR; simpl; [exact HR|].
  apply IH; [now apply Inv_step|now apply ready_step].
Qed.

Lemma answer_to_message
    (ops : list Op) (i : nat) (message : jsval) :
  let w := run rt initializeCode webviewContent ops initial in
  alive i w ->
  Prog.exec (step rt initializeCode webviewContent (OpMessage i message)) w
  = match webview_html (instance i w) with
    | Some _ =>
        if is_request rt message
        then logged [PostMessage i (update_reply (_values (instance i w)))] w
        else w
    | None => w
    end.
Proof.
  intros w [Hi Hd].
  assert (HR : ready (instance i w)).
  { apply ready_run; [apply Inv_initial|].
    intros j. unfold instance. simpl. destruct j; apply ready_blank. }
  unfold Prog.exec. cbn [step]. unfold deliver.
  unfold Prog.bind at 1. rewrite this_eq, Hd.
  destruct (HR Hd) as [[Hh Hm]|[Hh [Hm _]]].
  - rewrite Hh. unfold message_listeners in Hm. rewrite Hm. reflexivity.
  - destruct (webview_html (instance i w)) as [h|]; [|congruence].
    unfold message_listeners in Hm.
    destruct (filter (is_kind DidReceiveMessage) (listeners (instance i w)))
      as [|d [|d' l]]; simpl in Hm; try discriminate.
    cbn [for_each]. unfold Prog.bind, guarded. cbn [fst snd Prog.ret].
    rewrite on_message_logs, Hd. now destruct (is_request rt message).
Qed.

(** X16.  In every state the extension can reach, a message from the
    webview of the open panel gets exactly one [update] in answer when the
    panel's content has been set and the message's command is "refresh" or
    "connected", the update carrying the fetched values; any other message,
    and any message that arrives before the content was set, changes
    nothing and is not answered. *)
Theorem each_request_gets_one_update
    (ops : list Op) (i : nat) (message : jsval) :
  let w := run rt initializeCode webviewContent ops initial in
  alive i w ->
  Prog.exec (step rt initializeCode webviewContent (OpMessage i message)) w
  = match webview_html (instance i w) with
    | Some _ =>
        if is_request rt message
        then logged [PostMessage i (update_reply (_values (instance i w)))] w
        else w
    | None => w
    end.
Proof. apply answer_to_message. Qed.

(** X7.  The two messages the webview sends, [connected] after mounting and
    [refresh] from its button, are both requests for the host: in every
    state the extension can reach, once the open panel has its content,
    each of them is answered with exactly one [update]. *)
Theorem webview_messages_are_answered
    (ops : list Op) (i : nat) (s : App.State) :
  let w := run rt initializeCode webviewContent ops initial in
  alive i w ->
  webview_html (instance i w) <> None ->
  let on_load := last (App.sent (Prog.exec App.on_mount s)) JUndefined in
  let on_click := last (App.sent (Prog.exec App.handleHowdyClick s)) JUndefined in
  let answered :=
    logged [PostMessage i (update_reply (_values (instance i w)))] w in
  Prog.exec (step rt initializeCode webviewContent (OpMessage i on_load)) w
  = answered /\
  Prog.exec (step rt initializeCode webviewContent (OpMessage i on_click)) w
  = answered.
Proof.
  intros w Ha Hh on_load on_click answered.
  assert (E1 : on_load = JObj [("command", JStr "connected")]).
  { subst on_load. unfold Prog.exec, App.on_mount, App.vscode_postMessage,
      Prog.modify. simpl. now rewrite last_last. }
  assert (E2 : is_request rt on_click = true /\ is_request rt on_load = true).
  { rewrite E1. subst on_click.
    unfold Prog.exec, App.handleHowdyClick, App.vscode_postMessage, Prog.modify.
    simpl. rewrite last_last. split; reflexivity. }
  destruct E2 as [Hc Hl].
  pose proof (answer_to_message ops i on_load Ha) as A1.
  pose proof (answer_to_message ops i on_click Ha) as A2.
  fold w in A1, A2. rewrite A1, A2.
  destruct (webview_html (instance i w)); [|congruence].
  now rewrite Hl, Hc.
Qed.

(** ** The commands *)

Lemma Inv_invoke (env : Env) (command : Extension.Command) (w : World) :
  Inv w ->
  Inv (Prog.exec (Extension.invoke rt webviewContent env command) w).
Proof.
  intros HI. destruct command as [|data]; cbn [Extension.invoke].
  - apply (Inv_render webviewContent env None w HI).
  - unfold Extension.showDataGrid, Prog.exec, Prog.bind, Prog.lift.
    destruct (get rt data "variable") as [variable|e]; [|exact HI].
    destruct (get rt variable "name") as [name|e]; [|exact HI].
    apply (Inv_render webviewContent env (Extension.as_variable name) w HI).
Qed.

(** X17.  However the two commands, the closing of panels, the answers of
    the kernel and the messages of the webview follow one another after
    activation, at most one panel is open, and it is the current one. *)
Theorem commands_keep_a_single_panel (actions : list Extension.Action) :
  let w := Extension.run_actions rt initializeCode webviewContent actions initial in
  length (live w) <= 1 /\
  forall i, alive i w <-> currentPanel w = Some i.
Proof.
  intros w.
  assert (HI : Inv w).
  { subst w. generalize Inv_initial. generalize initial.
    induction actions as [|a actions IH]; intros w0 H0; simpl; [exact H0|].
    apply IH. destruct a as [env command|op]; cbn [Extension.act].
    - now apply Inv_invoke.
    - now apply Inv_step. }
  split; [now apply Inv_at_most_one|].
  intros i. split.
  - apply (inv_alive_current w HI).
  - apply (inv_current_alive w HI).
Qed.

(** X18.  The data-grid command invoked without an argument, or with one
    whose [variable] is missing, throws a TypeError before [render] is
    reached: no panel is created and nothing is changed.  The same holds
    for the other version of the handler when its argument is missing. *)
Theorem showDataGrid_needs_its_argument
    (env : Env) (data : jsval) (w : World) :
  (Extension.nullish data = true \/
   exists variable, get rt data "variable" = Ok variable /\
                    Extension.nullish variable = true) ->
  Extension.showDataGrid rt webviewContent env data w = (Throw TypeError, w) /\
  (Extension.nullish data = true ->
   Extension.showDataGrid_variable rt webviewContent env data w
   = (Throw TypeError, w)).
Proof.
  intros H. split.
  - unfold Extension.showDataGrid, Prog.bind, Prog.lift.
    destruct H as [H|[variable [Hv H]]].
    + destruct data; try discriminate; reflexivity.
    + rewrite Hv. destruct variable; try discriminate; reflexivity.
  - intros Hn. unfold Extension.showDataGrid_variable, Prog.bind, Prog.lift.
    destruct data; try discriminate; reflexivity.
Qed.

(** Invoked with a variable that has a name, the data-grid command does what
    [render] does with that name; the first command does what [render] does
    without a variable. *)
Lemma commands_are_renders
    (env : Env) (fields vfields : list (string * jsval)) (name : string)
    (w : World) :
  lookup "variable" fields = Some (JObj vfields) ->
  lookup "name" vfields = Some (JStr name) ->
  Extension.showDataGrid rt webviewContent env (JObj fields) w
  = render webviewContent env (Some name) w /\
  Extension.showDataGrid_variable rt webviewContent env (JObj vfields) w
  = render webviewContent env (Some name) w /\
  Extension.showHelloWorld webviewContent env w
  = render webviewContent env None w.
Proof.
  intros Hv Hn.
  unfold Extension.showDataGrid, Extension.showDataGrid_variable,
    Extension.showHelloWorld, Prog.bind, Prog.lift.
  cbn [get]. rewrite Hv. cbn [get]. rewrite Hn. repeat split.
Qed.

End PanelMore.

(* ================================================================== *)
(** * The further properties on concrete runs                          *)
(* ================================================================== *)

(** The mixed stream holds one error chunk, and one line is logged. *)
Lemma mixed_stream_logs_one_line :
  Runner._runCode ascii_runtime mixed_kernel "code" = Ok "abc" /\
  length (Runner.console (snd (Runner._runCode_locals ascii_runtime mixed_kernel "code")))
  = 1.
Proof.
  refine (conj eq_refl _).
  exact (proj1 (runCode_logs_each_error_chunk ascii_runtime mixed_kernel "code"
                  "abc" eq_refl)).
Defined.

(** The chunks of the mixed stream delivered in one batch instead of two. *)
Lemma one_batch_or_two :
  let one_batch :=
    {| Runner.executeCode := fun _ =>
         Runner.StreamYield
           [text_chunk "ab"; error_chunk error_json; text_chunk "c"]
           Runner.StreamEnd |} in
  Runner.ends (Runner.executeCode mixed_kernel "code") = true /\
  Runner.ends (Runner.executeCode one_batch "code") = true /\
  Runner.chunks (Runner.executeCode mixed_kernel "code")
  = Runner.chunks (Runner.executeCode one_batch "code") /\
  Runner._runCode_locals ascii_runtime mixed_kernel "code"
  = Runner._runCode_locals ascii_runtime one_batch "code".
Proof.
  intros one_batch.
  refine (conj eq_refl (conj eq_refl (conj eq_refl _))).
  exact (runCode_ignores_batching ascii_runtime mixed_kernel one_batch
           "code" "code" eq_refl eq_refl eq_refl).
Defined.

(** The host's answer without values, processed by the renderer. *)
Lemma fallback_answer_stops_the_renderer :
  let d := JObj [("columns", JArr []); ("rows", JArr [])] in
  let s' := Prog.exec (App.on_message ascii_runtime true (App.update_message d))
              App.initial in
  get ascii_runtime d "columns" = Ok (JArr []) /\
  get ascii_runtime d "data" = Ok JUndefined /\
  Prog.eval (App.on_message ascii_runtime true (App.update_message d)) App.initial
  = Throw TypeError /\
  App.updateCells_calls s' = [] /\
  App.render ascii_runtime s' = Throw TypeError.
Proof.
  intros d s'.
  refine (conj eq_refl (conj eq_refl _)).
  destruct (update_without_data_stops_half_way ascii_runtime true [] d JUndefined
              App.initial eq_refl eq_refl eq_refl)
    as [He [_ [Hu [_ Hr]]]].
  exact (conj He (conj Hu Hr)).
Defined.

(** The last cell of a two-by-three update is found, and so is a cell
    holding an object with a [toString] field, whose lookup throws. *)
Lemma two_by_three_cells_are_fetchable :
  let names := ["a"; "b"] in
  let odd := JObj [("toString", JNum 1)] in
  let matrix := [[JNum 1; JStr "x"]; [JNum 2; odd]; [JNum 3; JStr "z"]] in
  let d := App.dataset names matrix in
  let s' := Prog.exec (App.on_message ascii_runtime true (App.update_message d))
              App.initial in
  Forall (fun r => length names <= length r) matrix /\
  App.getData ascii_runtime s' (1, 2)
  = Ok {| Grid.kind := Grid.Text; Grid.data := "z";
          Grid.allowOverlay := false; Grid.displayData := "z" |} /\
  App.getData ascii_runtime s' (1, 1) = Throw TypeError.
Proof.
  intros names odd matrix d s'.
  assert (Hrect : Forall (fun r => length names <= length r) matrix)
    by (repeat constructor).
  split; [exact Hrect|].
  assert (Hin : forall j i, j < 2 -> i < 3 ->
                  In (j, i) (last (App.updateCells_calls s') []))
    by (intros j i Hj Hi; vm_compute;
        destruct j as [|[|j]]; destruct i as [|[|[|i]]]; try lia; tauto).
  split.
  - destruct (redrawn_cells_are_fetchable ascii_runtime names matrix d App.initial
                eq_refl eq_refl Hrect 1 2 (Hin 1 2 ltac:(lia) ltac:(lia)))
      as [v [Hv Hcell]].
    injection Hv as <-. destruct Hcell as [text [Ht Hcell]].
    injection Ht as <-. exact Hcell.
  - destruct (redrawn_cells_are_fetchable ascii_runtime names matrix d App.initial
                eq_refl eq_refl Hrect 1 1 (Hin 1 1 ltac:(lia) ltac:(lia)))
      as [v [Hv Hcell]].
    injection Hv as <-. exact Hcell.
Defined.

(** The values fetched from the frame kernel, answered and drawn. *)
Lemma frame_values_fill_the_grid :
  let w := run_sample [Panel.OpRender with_notebook (Some "df");
                       Panel.OpKernel 0 (Some frame_kernel)] in
  let d := JObj [("columns", JArr [JStr "a"]); ("index", JArr [JNum 0; JNum 1]);
                 ("data", JArr [JArr [JNum 10]; JArr [JNum 20]])] in
  Panel.panel_disposed (Panel.instance 0 w) = false /\
  Panel._values (Panel.instance 0 w) = Some d /\
  exists reply,
    Panel._refresh 0 w = (Ok tt, Panel.logged [Panel.PostMessage 0 reply] w) /\
    Prog.eval (App.on_message ascii_runtime true reply) App.initial = Ok tt.
Proof.
  intros w d.
  assert (Hd : Panel.panel_disposed (Panel.instance 0 w) = false)
    by (vm_compute; reflexivity).
  assert (Hv : Panel._values (Panel.instance 0 w) = Some d)
    by (vm_compute; reflexivity).
  split; [exact Hd|]. split; [exact Hv|].
  destruct (fetched_values_fill_the_grid ascii_runtime 0 w ["a"]
              [JArr [JNum 10]; JArr [JNum 20]] d App.initial Hd Hv
              eq_refl eq_refl)
    as [reply [H1 [H2 _]]].
  exists reply. split; assumption.
Defined.

(** A kernel that answers every request with an error only: the collected
    text is empty, which is not JSON. *)
Lemma failing_kernel_leaves_the_panel_blank :
  let kernel :=
    {| Runner.executeCode := fun _ =>
         Runner.StreamYield [error_chunk error_json] Runner.StreamEnd |} in
  let w := run_sample [Panel.OpRender with_notebook (Some "df")] in
  let r := Panel.initialize_then ascii_runtime "T" "<html>" 0 "df" (Some kernel) w in
  (exists text,
     Runner._runCode ascii_runtime kernel
       (CodeGen._generateCodeForDataFrameColumns "T" "df") = Ok text /\
     JSON_parse ascii_runtime text = None) /\
  fst r = Throw SyntaxError /\
  Panel.instances (snd r) = Panel.instances w.
Proof.
  intros kernel w r.
  assert (H : exists text,
             Runner._runCode ascii_runtime kernel
               (CodeGen._generateCodeForDataFrameColumns "T" "df") = Ok text /\
             JSON_parse ascii_runtime text = None)
    by (exists EmptyString; split; reflexivity).
  split; [exact H|].
  destruct (schema_failure_leaves_the_panel_blank ascii_runtime "T" "<html>"
              0 "df" kernel w SyntaxError (or_intror (conj eq_refl H)))
    as [H1 [H2 _]].
  exact (conj H1 H2).
Defined.

(** A kernel whose schema is the empty object. *)
Lemma empty_schema_asks_for_rows_to_NaN :
  let kernel :=
    {| Runner.executeCode := fun _ =>
         Runner.StreamYield [text_chunk "{}"] Runner.StreamEnd |} in
  let w := run_sample [Panel.OpRender with_notebook (Some "df")] in
  let w' := Prog.exec (Panel.initialize_then ascii_runtime "T" "<html>" 0 "df"
                         (Some kernel)) w in
  Runner._runCode ascii_runtime kernel
    (CodeGen._generateCodeForDataFrameColumns "T" "df") = Ok "{}" /\
  JSON_parse ascii_runtime "{}" = Some (JObj []) /\
  In (Panel.Execute 0 (CodeGen._generateCodeForDataFrameRows "T" "df" (Int 0) NaN))
     (Panel.trace w').
Proof.
  intros kernel w w'.
  refine (conj eq_refl (conj eq_refl _)).
  exact (proj1 (rows_request_without_rowCount ascii_runtime "T" "<html>" 0 "df"
                  kernel w "{}" [] eq_refl eq_refl eq_refl)).
Defined.

(** The two disposables of an initialised panel, released last first. *)
Lemma dispose_order_after_render :
  let w := run_sample [Panel.OpRender no_notebook None] in
  0 < length (Panel.instances w) /\
  Panel.trace (Prog.exec (Panel.dispose 0) w)
  = (Panel.trace w
       ++ [Panel.Release 0 {| Panel.sub_id := 1;
                              Panel.sub_event := Panel.DidReceiveMessage |};
           Panel.Release 0 {| Panel.sub_id := 0;
                              Panel.sub_event := Panel.DidDispose |}])%list.
Proof.
  intros w.
  assert (Hi : 0 < length (Panel.instances w)) by exact Nat.lt_0_1.
  split; [exact Hi|].
  exact (dispose_releases_in_reverse_order 0 w Hi).
Defined.

Lemma dispose_again_after_render :
  let w := run_sample [Panel.OpRender no_notebook None] in
  let w' := Prog.exec (Panel.dispose 0) w in
  0 < length (Panel.instances w) /\ Panel.dispose 0 w' = (Ok tt, w').
Proof.
  intros w w'.
  assert (Hi : 0 < length (Panel.instances w)) by exact Nat.lt_0_1.
  split; [exact Hi|].
  exact (dispose_twice_is_dispose_once 0 w Hi).
Defined.

Lemma closing_after_render :
  let w := run_sample [Panel.OpRender no_notebook None] in
  let w' := Prog.exec (Panel.step ascii_runtime "T" "<html>" (Panel.OpClose 0)) w in
  Panel.alive 0 w /\
  Panel.currentPanel w' = None /\ Panel.live w' = [] /\
  Panel.listeners (Panel.instance 0 w') = [].
Proof.
  intros w w'.
  assert (Ha : Panel.alive 0 w) by (split; [exact Nat.lt_0_1|reflexivity]).
  split; [exact Ha|].
  destruct (closing_the_panel_disposes_the_instance ascii_runtime "T" "<html>"
              [Panel.OpRender no_notebook None] 0 Ha)
    as [H1 [H2 [_ [H4 _]]]].
  exact (conj H1 (conj H2 H4)).
Defined.

Lemma reopening_after_close :
  let w := run_sample [Panel.OpRender no_notebook None] in
  let w2 := Panel.run ascii_runtime "T" "<html>"
              [Panel.OpClose 0; Panel.OpRender with_notebook (Some "df")] w in
  Panel.alive 0 w /\
  Panel.currentPanel w2 = Some 1 /\ Panel.live w2 = [1].
Proof.
  intros w w2.
  assert (Ha : Panel.alive 0 w) by (split; [exact Nat.lt_0_1|reflexivity]).
  split; [exact Ha|].
  destruct (render_after_close_constructs_anew ascii_runtime "T" "<html>"
              [Panel.OpRender no_notebook None] 0 with_notebook (Some "df") Ha)
    as [H1 [H2 _]].
  exact (conj H1 H2).
Defined.

(** An empty variable name: the webview is initialised during construction
    although the API and a notebook are there. *)
Lemma empty_name_is_no_variable :
  let p := Panel.instance 0
             (Prog.exec (Panel.render "<html>" with_notebook (Some EmptyString))
                Panel.initial) in
  Panel.currentPanel Panel.initial = None /\
  Panel.webview_html p = Some "<html>" /\
  length (Lifecycle.message_listeners p) = 1.
Proof.
  intros p.
  refine (conj eq_refl _).
  destruct (construction_initializes_or_waits "<html>" with_notebook
              (Some EmptyString) Panel.initial eq_refl)
    as [_ [H1 [H2 _]]].
  exact (conj H1 H2).
Defined.

(** A panel rendered without a variable is asked to refresh. *)
Lemma refresh_is_answered_once :
  let w := run_sample [Panel.OpRender no_notebook None] in
  Panel.alive 0 w /\
  Prog.exec (Panel.step ascii_runtime "T" "<html>" (Panel.OpMessage 0 refresh)) w
  = Panel.logged [Panel.PostMessage 0 (Lifecycle.update_reply None)] w.
Proof.
  intros w.
  assert (Ha : Panel.alive 0 w) by (split; [exact Nat.lt_0_1|reflexivity]).
  split; [exact Ha|].
  exact (each_request_gets_one_update ascii_runtime "T" "<html>"
           [Panel.OpRender no_notebook None] 0 refresh Ha).
Defined.

Lemma mount_message_is_answered :
  let w := run_sample [Panel.OpRender no_notebook None] in
  let on_load := last (App.sent (Prog.exec App.on_mount App.initial)) JUndefined in
  Panel.alive 0 w /\
  Panel.webview_html (Panel.instance 0 w) <> None /\
  Prog.exec (Panel.step ascii_runtime "T" "<html>" (Panel.OpMessage 0 on_load)) w
  = Panel.logged [Panel.PostMessage 0 (Lifecycle.update_reply None)] w.
Proof.
  intros w on_load.
  assert (Ha : Panel.alive 0 w) by (split; [exact Nat.lt_0_1|reflexivity]).
  assert (Hh : Panel.webview_html (Panel.instance 0 w) <> None)
    by (simpl; discriminate).
  split; [exact Ha|]. split; [exact Hh|].
  exact (proj1 (webview_messages_are_answered ascii_runtime "T" "<html>"
                  [Panel.OpRender no_notebook None] 0 App.initial Ha Hh)).
Defined.

(** The data-grid command run from the command palette, without argument. *)
Lemma showDataGrid_without_argument :
  Extension.nullish JUndefined = true /\
  Extension.showDataGrid ascii_runtime "<html>" no_notebook JUndefined Panel.initial
  = (Throw TypeError, Panel.initial).
Proof.
  refine (conj eq_refl _).
  exact (proj1 (showDataGrid_needs_its_argument ascii_runtime "<html>"
                  no_notebook JUndefined Panel.initial (or_introl eq_refl))).
Defined.
